(** * DocumentCloud downloader: a shallow embedding of [main.go] and of its
    redirect-following companion, with the properties of the resolver, the
    fetcher and the batch driver.

    Go strings are byte strings: they are modelled by [string] (one [ascii]
    per byte).  The filesystem is a finite map from cleaned paths to nodes,
    the network and the faults of the operating system are an oracle [Env],
    and every observable action (log line, GET, file creation) is appended
    to a trace carried by the [World]. *)

From Stdlib Require Import ZArith NArith Ascii String List Bool Lia.
From stdpp Require Import base option list strings gmap.

Local Open Scope char_scope.
Local Open Scope stdpp_scope.
Local Arguments String.append : simpl nomatch.

(* ===================================================================== *)
(** ** Bytes *)
(* ===================================================================== *)

Definition byte_val (c : ascii) : N := N_of_ascii c.

Definition between (lo hi c : ascii) : bool :=
  (byte_val lo <=? byte_val c)%N && (byte_val c <=? byte_val hi)%N.

(** The byte of the double quote. *)
Definition dquote : ascii := ascii_of_N 34.

Definition isLowerAZ (c : ascii) : bool := between "a" "z" c.
Definition isUpperAZ (c : ascii) : bool := between "A" "Z" c.
Definition isAlpha (c : ascii) : bool := isLowerAZ c || isUpperAZ c.
Definition isDigit (c : ascii) : bool := between "0" "9" c.
Definition isAlnum (c : ascii) : bool := isAlpha c || isDigit c.

(** [c] is one of the bytes of [set]. *)
Fixpoint oneOf (set : string) (c : ascii) : bool :=
  match set with
  | EmptyString => false
  | String d set' => Ascii.eqb c d || oneOf set' c
  end.

(* ===================================================================== *)
(** ** Package [strings] (the functions the program and [net/url] use) *)
(* ===================================================================== *)

(** [s[n:]] *)
Fixpoint str_drop (n : nat) (s : string) : string :=
  match n, s with
  | O, _ => s
  | S n', String _ s' => str_drop n' s'
  | S _, EmptyString => EmptyString
  end.

(** [s[:n]] *)
Fixpoint str_take (n : nat) (s : string) : string :=
  match n, s with
  | O, _ => EmptyString
  | S n', String c s' => String c (str_take n' s')
  | S _, EmptyString => EmptyString
  end.

Fixpoint strings_HasPrefix (s prefix : string) {struct prefix} : bool :=
  match prefix, s with
  | EmptyString, _ => true
  | String p prefix', String c s' => Ascii.eqb c p && strings_HasPrefix s' prefix'
  | String _ _, EmptyString => false
  end.

Definition strings_HasSuffix (s suffix : string) : bool :=
  (String.length suffix <=? String.length s)%nat
  && String.eqb (str_drop (String.length s - String.length suffix) s) suffix.

(** Index of the first instance of [substr] in [s]; [None] is Go's [-1]. *)
Fixpoint strings_Index (s substr : string) : option nat :=
  if strings_HasPrefix s substr then Some O
  else match s with
       | EmptyString => None
       | String _ s' => option_map S (strings_Index s' substr)
       end.

(** Index of the last instance of [substr] in [s]. *)
Fixpoint strings_LastIndex (s substr : string) : option nat :=
  match s with
  | EmptyString => if strings_HasPrefix s substr then Some O else None
  | String _ s' =>
      match strings_LastIndex s' substr with
      | Some i => Some (S i)
      | None => if strings_HasPrefix s substr then Some O else None
      end
  end.

Definition strings_Contains (s substr : string) : bool :=
  match strings_Index s substr with Some _ => true | None => false end.

(** [strings.Cut]: the text before and after the first instance of [sep]. *)
Definition strings_Cut (s sep : string) : string * string * bool :=
  match strings_Index s sep with
  | Some i => (str_take i s, str_drop (i + String.length sep) s, true)
  | None => (s, EmptyString, false)
  end.

(** [strings.Count] for a separator of one byte. *)
Fixpoint strings_CountByte (s : string) (sep : ascii) : nat :=
  match s with
  | EmptyString => O
  | String c s' => (if Ascii.eqb c sep then 1 else 0) + strings_CountByte s' sep
  end.

Definition toLowerByte (c : ascii) : ascii :=
  if isUpperAZ c then ascii_of_N (byte_val c + 32) else c.

(** [strings.ToLower] on the bytes of [s].  For text outside ASCII Go maps
    runes, but no rune outside ASCII lowers to one of the bytes of [".pdf"],
    which is all the program looks for in the result. *)
Fixpoint strings_ToLower (s : string) : string :=
  match s with
  | EmptyString => EmptyString
  | String c s' => String (toLowerByte c) (strings_ToLower s')
  end.

(** [fmt.Sprintf] for formats whose only verb is [%s]. *)
Fixpoint fmt_Sprintf (format : string) (args : list string) : string :=
  match format with
  | EmptyString => EmptyString
  | String c rest =>
      match rest with
      | String v rest' =>
          if Ascii.eqb c "%" && Ascii.eqb v "s" then
            match args with
            | a :: args' => a +:+ fmt_Sprintf rest' args'
            | [] => "%!s(MISSING)" +:+ fmt_Sprintf rest' []
            end
          else String c (fmt_Sprintf rest args)
      | EmptyString => String c EmptyString
      end
  end.

(* ===================================================================== *)
(** ** Package [net/url]: [url.Parse]

    The fields the program never reads and that cannot make parsing fail
    ([RawPath], [RawFragment], [OmitHost]) are left out of the record; every
    error of [Parse] is kept. *)
(* ===================================================================== *)

Inductive url_error : Type :=
  | ErrControlCharacter
  | ErrMissingScheme
  | ErrColonInFirstSegment
  | ErrInvalidPort (port : string)
  | ErrMissingBracket
  | ErrEscape (s : string)
  | ErrInvalidHost (s : string)
  | ErrInvalidUserinfo.

Inductive result (A : Type) : Type :=
  | Ok (a : A)
  | Err (e : url_error).
Arguments Ok {A} a.
Arguments Err {A} e.

Definition bind {A B : Type} (r : result A) (f : A -> result B) : result B :=
  match r with
  | Ok a => f a
  | Err e => Err e
  end.

Notation "'let*' x ':=' r 'in' k" := (bind r (fun x => k))
  (at level 10, x pattern, r at level 100, k at level 200).

Record URL : Type := mkURL {
  Scheme : string;
  Opaque : string;
  User : option (string * option string);
  Host : string;
  Path : string;
  ForceQuery : bool;
  RawQuery : string;
  Fragment : string
}.

Inductive encoding : Type :=
  | encodePath
  | encodePathSegment
  | encodeHost
  | encodeZone
  | encodeUserPassword
  | encodeQueryComponent
  | encodeFragment.

Definition isHostMode (mode : encoding) : bool :=
  match mode with
  | encodeHost | encodeZone => true
  | _ => false
  end.

Definition ishex (c : ascii) : bool :=
  isDigit c || between "a" "f" c || between "A" "F" c.

Definition unhex (c : ascii) : N :=
  if isDigit c then (byte_val c - byte_val "0")%N
  else if between "a" "f" c then (byte_val c - byte_val "a" + 10)%N
  else if between "A" "F" c then (byte_val c - byte_val "A" + 10)%N
  else 0%N.

Definition shouldEscape (c : ascii) (mode : encoding) : bool :=
  if isAlnum c then false
  else if isHostMode mode && (oneOf "!$&'()*+,;=:[]<>" c || Ascii.eqb c dquote) then false
  else if oneOf "-_.~" c then false
  else if oneOf "$&+,/:;=?@" c then
    match mode with
    | encodePath => Ascii.eqb c "?"
    | encodePathSegment => oneOf "/;,?" c
    | encodeUserPassword => oneOf "@/?:" c
    | encodeQueryComponent => true
    | encodeFragment => false
    | encodeHost | encodeZone => true
    end
  else if (match mode with encodeFragment => true | _ => false end)
          && oneOf "!()*" c then false
  else true.

(** [unescape]: Go validates the whole text, then builds the result; one
    pass from the left meets the same first error and builds the same text. *)
Fixpoint unescape (s : string) (mode : encoding) : result string :=
  match s with
  | EmptyString => Ok EmptyString
  | String c rest =>
      if Ascii.eqb c "%" then
        match rest with
        | String h1 (String h2 rest') =>
            if ishex h1 && ishex h2 then
              let esc := String c (String h1 (String h2 EmptyString)) in
              let v := ascii_of_N (unhex h1 * 16 + unhex h2) in
              if (match mode with encodeHost => true | _ => false end)
                 && (unhex h1 <? 8)%N && negb (String.eqb esc "%25")
              then Err (ErrEscape esc)
              else if (match mode with encodeZone => true | _ => false end)
                      && negb (String.eqb esc "%25") && negb (Ascii.eqb v " ")
                      && shouldEscape v encodeHost
              then Err (ErrEscape esc)
               else let* t := unescape rest' mode in Ok (String v t)
            else Err (ErrEscape (str_take 3 s))
        | _ => Err (ErrEscape (str_take 3 s))
        end
      else if Ascii.eqb c "+" then
        let* t := unescape rest mode in
        Ok (String (match mode with encodeQueryComponent => " " | _ => "+" end) t)
      else if isHostMode mode && (byte_val c <? 128)%N && shouldEscape c encodeHost
      then Err (ErrInvalidHost (String c EmptyString))
       else let* t := unescape rest mode in Ok (String c t)
  end.

Fixpoint stringContainsCTLByte (s : string) : bool :=
  match s with
  | EmptyString => false
  | String b s' =>
      (byte_val b <? byte_val " ")%N || (byte_val b =? 127)%N
      || stringContainsCTLByte s'
  end.

(** The loop of [getScheme] at index [i], with [s = rawURL[i:]]. *)
Fixpoint getScheme_loop (rawURL : string) (i : nat) (s : string)
  : result (string * string) :=
  match s with
  | EmptyString => Ok (EmptyString, rawURL)
  | String c s' =>
      if isAlpha c then getScheme_loop rawURL (S i) s'
      else if isDigit c || oneOf "+-." c then
        match i with
        | O => Ok (EmptyString, rawURL)
        | S _ => getScheme_loop rawURL (S i) s'
        end
      else if Ascii.eqb c ":" then
        match i with
        | O => Err ErrMissingScheme
        | S _ => Ok (str_take i rawURL, s')
        end
      else Ok (EmptyString, rawURL)
  end.

Definition getScheme (rawURL : string) : result (string * string) :=
  getScheme_loop rawURL O rawURL.

Fixpoint allDigits (s : string) : bool :=
  match s with
  | EmptyString => true
  | String b s' => isDigit b && allDigits s'
  end.

Definition validOptionalPort (port : string) : bool :=
  match port with
  | EmptyString => true
  | String c port' => Ascii.eqb c ":" && allDigits port'
  end.

Fixpoint validUserinfo (s : string) : bool :=
  match s with
  | EmptyString => true
  | String r s' => (isAlnum r || oneOf "-._:~!$&'()*+,;=%@" r) && validUserinfo s'
  end.

Definition parseHost (host : string) : result string :=
  if strings_HasPrefix host "[" then
    match strings_LastIndex host "]" with
    | None => Err ErrMissingBracket
    | Some i =>
        let colonPort := str_drop (S i) host in
        if negb (validOptionalPort colonPort) then Err (ErrInvalidPort colonPort)
        else
          match strings_Index (str_take i host) "%25" with
          | Some zone =>
              let* host1 := unescape (str_take zone host) encodeHost in
              let* host2 := unescape (str_drop zone (str_take i host)) encodeZone in
              let* host3 := unescape (str_drop i host) encodeHost in
              Ok (host1 +:+ host2 +:+ host3)
          | None => unescape host encodeHost
          end
    end
  else
    match strings_LastIndex host ":" with
    | Some i =>
        let colonPort := str_drop i host in
        if negb (validOptionalPort colonPort) then Err (ErrInvalidPort colonPort)
        else unescape host encodeHost
    | None => unescape host encodeHost
    end.

Definition parseAuthority (authority : string)
  : result (option (string * option string) * string) :=
  match strings_LastIndex authority "@" with
  | None => let* host := parseHost authority in Ok (None, host)
  | Some i =>
      let* host := parseHost (str_drop (S i) authority) in
      let userinfo := str_take i authority in
      if negb (validUserinfo userinfo) then Err ErrInvalidUserinfo
      else if negb (strings_Contains userinfo ":") then
        let* u := unescape userinfo encodeUserPassword in
        Ok (Some (u, None), host)
      else
        let '(username, password, _) := strings_Cut userinfo ":" in
        let* u := unescape username encodeUserPassword in
        let* p := unescape password encodeUserPassword in
        Ok (Some (u, Some p), host)
  end.

(** [parse(rawURL, viaRequest = false)] *)
Definition url_parse (rawURL : string) : result URL :=
  if stringContainsCTLByte rawURL then Err ErrControlCharacter
  else if String.eqb rawURL "*" then
    Ok (mkURL EmptyString EmptyString None EmptyString "*" false EmptyString EmptyString)
  else
    let* (scheme0, rest0) := getScheme rawURL in
    let scheme := strings_ToLower scheme0 in
    let '(rest, rawQuery, forceQuery) :=
      if strings_HasSuffix rest0 "?" && (strings_CountByte rest0 "?" =? 1)%nat
      then (str_take (String.length rest0 - 1) rest0, EmptyString, true)
      else let '(r, q, _) := strings_Cut rest0 "?" in (r, q, false) in
    if negb (strings_HasPrefix rest "/") && negb (String.eqb scheme EmptyString) then
      Ok (mkURL scheme rest None EmptyString EmptyString forceQuery rawQuery EmptyString)
    else if negb (strings_HasPrefix rest "/")
            && strings_Contains (fst (fst (strings_Cut rest "/"))) ":"
    then Err ErrColonInFirstSegment
    else if (negb (String.eqb scheme EmptyString) || negb (strings_HasPrefix rest "///"))
            && strings_HasPrefix rest "//"
    then
      let authority0 := str_drop 2 rest in
      let '(authority, rest') :=
        match strings_Index authority0 "/" with
        | Some i => (str_take i authority0, str_drop i authority0)
        | None => (authority0, EmptyString)
        end in
      let* (user, host) := parseAuthority authority in
      let* path := unescape rest' encodePath in
      Ok (mkURL scheme EmptyString user host path forceQuery rawQuery EmptyString)
    else
      let* path := unescape rest encodePath in
      Ok (mkURL scheme EmptyString None EmptyString path forceQuery rawQuery EmptyString).

Definition setFragment (u : URL) (f : string) : result URL :=
  let* frag := unescape f encodeFragment in
  Ok (mkURL (Scheme u) (Opaque u) (User u) (Host u) (Path u)
            (ForceQuery u) (RawQuery u) frag).

Definition url_Parse (rawURL : string) : result URL :=
  let '(u, frag, _) := strings_Cut rawURL "#" in
  let* url := url_parse u in
  if String.eqb frag EmptyString then Ok url else setFragment url frag.

(* ===================================================================== *)
(** ** Package [regexp]: the fragment the two patterns are written in

    Literals, a greedy [x+] over a character class, capturing parentheses
    and concatenation, matched by backtracking in priority order, which is
    Go's leftmost-first semantics.  Groups are numbered when they close,
    which is the order of their opening as long as they are not nested. *)
(* ===================================================================== *)

Inductive regex : Type :=
  | Lit (s : string)
  | Plus (cls : ascii -> bool)
  | Group (r : regex)
  | Seq (r1 r2 : regex).

Section Matcher.
Context {R : Type}.

  (** [x*]: the longest run first, then shorter ones. *)
Fixpoint match_star (cls : ascii -> bool) (s : string)
      (k : string -> option R) : option R :=
    match s with
    | EmptyString => k s
    | String c s' =>
        if cls c then
          match match_star cls s' k with
          | Some r => Some r
          | None => k s
          end
        else k s
    end.

Definition match_plus (cls : ascii -> bool) (s : string)
      (k : string -> option R) : option R :=
    match s with
    | EmptyString => None
    | String c s' => if cls c then match_star cls s' k else None
    end.

  (** [match_regex r s caps k]: match [r] at the head of [s], then hand the
      rest of the text and the groups closed so far to [k]. *)
Fixpoint match_regex (r : regex) (s : string) (caps : list string)
      (k : string -> list string -> option R) : option R :=
    match r with
    | Lit l =>
        if strings_HasPrefix s l then k (str_drop (String.length l) s) caps
        else None
    | Plus cls => match_plus cls s (fun rest => k rest caps)
    | Group r' =>
        match_regex r' s caps (fun rest caps' =>
          k rest (caps' ++ [str_take (String.length s - String.length rest) s]))
    | Seq r1 r2 =>
        match_regex r1 s caps (fun rest caps' => match_regex r2 rest caps' k)
    end.
End Matcher.

(** The match of [re] that starts at the head of [s]: the whole match, then
    the groups. *)
Definition match_here (re : regex) (s : string) : option (list string) :=
  match_regex re s [] (fun rest caps =>
    Some (str_take (String.length s - String.length rest) s :: caps)).

(** [re.FindStringSubmatch(s)]: the leftmost match; [[]] is Go's [nil]. *)
Fixpoint regexp_FindStringSubmatch (re : regex) (s : string) : list string :=
  match match_here re s with
  | Some m => m
  | None =>
      match s with
      | EmptyString => []
      | String _ s' => regexp_FindStringSubmatch re s'
      end
  end.

(** [\d] *)
Definition class_digit (c : ascii) : bool := isDigit c.
(** [\w] *)
Definition class_word (c : ascii) : bool := isDigit c || isAlpha c || Ascii.eqb c "_".
(** [[a-zA-Z0-9_\-]] *)
Definition class_slug (c : ascii) : bool :=
  isLowerAZ c || isUpperAZ c || isDigit c || Ascii.eqb c "_" || Ascii.eqb c "-".
(** [[\w\-]] *)
Definition class_word_hyphen (c : ascii) : bool := class_word c || Ascii.eqb c "-".

(* ===================================================================== *)
(** ** Packages [path] and [path/filepath] *)
(* ===================================================================== *)

(** Remove the longest suffix whose bytes satisfy [p]. *)
Fixpoint trimRight (p : ascii -> bool) (s : string) : string :=
  match s with
  | EmptyString => EmptyString
  | String c s' =>
      match trimRight p s' with
      | EmptyString => if p c then EmptyString else String c EmptyString
      | t => String c t
      end
  end.

Definition isSlash (c : ascii) : bool := Ascii.eqb c "/".

(** [path.Base] *)
Definition path_Base (path : string) : string :=
  if String.eqb path EmptyString then "."
  else
    let path := trimRight isSlash path in
    let path :=
      match strings_LastIndex path "/" with
      | Some i => str_drop (S i) path
      | None => path
      end in
    if String.eqb path EmptyString then "/" else path.

(** The elements of [s] between slashes. *)
Fixpoint splitSlash (s : string) : list string :=
  match s with
  | EmptyString => [EmptyString]
  | String c s' =>
      if isSlash c then EmptyString :: splitSlash s'
      else match splitSlash s' with
           | e :: es => String c e :: es
           | [] => [String c EmptyString]
           end
  end.

Fixpoint strings_Join (elems : list string) (sep : string) : string :=
  match elems with
  | [] => EmptyString
  | [e] => e
  | e :: es => e +:+ sep +:+ strings_Join es sep
  end.

(** The element loop of [filepath.Clean]; [out] holds the elements written
    so far, the last one first.  Go can step back over the last element
    exactly when it is not a [..] it wrote itself. *)
Fixpoint clean_elems (rooted : bool) (elems out : list string) : list string :=
  match elems with
  | [] => rev out
  | e :: es =>
      if String.eqb e EmptyString || String.eqb e "." then clean_elems rooted es out
      else if String.eqb e ".." then
        match out with
        | top :: out' =>
            if String.eqb top ".." then clean_elems rooted es (e :: out)
            else clean_elems rooted es out'
        | [] => if rooted then clean_elems rooted es out
                else clean_elems rooted es (e :: out)
        end
      else clean_elems rooted es (e :: out)
  end.

(** [filepath.Clean] on a system whose separator is the slash. *)
Definition filepath_Clean (path : string) : string :=
  if String.eqb path EmptyString then "."
  else
    let rooted := strings_HasPrefix path "/" in
    let out := strings_Join (clean_elems rooted (splitSlash path) []) "/" in
    if rooted then String "/" out
    else if String.eqb out EmptyString then "." else out.

(** [filepath.Join] *)
Fixpoint filepath_Join (elem : list string) : string :=
  match elem with
  | [] => EmptyString
  | e :: es =>
      if String.eqb e EmptyString then filepath_Join es
      else filepath_Clean (strings_Join elem "/")
  end.

(** [filepath.Dir] of a cleaned path. *)
Definition parentDir (p : string) : string :=
  match strings_LastIndex p "/" with
  | Some O => "/"
  | Some i => str_take i p
  | None => "."
  end.

(* ===================================================================== *)
(** ** The world the program runs in

    Paths are resolved lexically (no symbolic links): a file or directory is
    stored under its cleaned path.  What the model cannot predict (the
    answers of the network, permissions, a full disk, a failing read) is
    fixed by the oracle [Env]. *)
(* ===================================================================== *)

Inductive node : Type :=
  | File (content : string)
  | Dir.

Abbreviation filesystem := (gmap string node).

(** What [http.Get] hands back: a transport error, or the response of the
    last request of the redirect chain.  [bodyErr] tells that reading the
    body fails once the bytes of [body] have been delivered. *)
Inductive http_result : Type :=
  | GetError (err : string)
  | GetResponse (StatusCode : Z) (Status : string) (requestURL : string)
                (body : string) (bodyErr : bool).

Record Env : Type := mkEnv {
  http_Get : nat -> string -> http_result;  (* by number of earlier requests *)
  mkdir_denied : string -> bool;
  create_denied : string -> bool;
  open_denied : string -> bool;
  read_fault : string -> option nat;        (* reading fails after n bytes *)
  write_limit : string -> option nat        (* writing fails after n bytes *)
}.

(** The lines [log.Printf] and [fmt.Println] write, by format. *)
Inductive message : Type :=
  | MsgInvalidURL (url : string) (err : url_error)
  | MsgNoFileName (url : string)
  | MsgMkdirFailed (dir : string)
  | MsgFileExists (path : string)
  | MsgGetFailed (url err : string)
  | MsgBadStatus (url status : string)
  | MsgCreateFailed (path : string)
  | MsgSaveFailed (path : string)
  | MsgDownloaded (path : string)
  | MsgCapReached (maxDownloads : Z)
  | MsgUnrecognized (url : string)
  | MsgSkipInvalidFinal (url : string)
  | MsgNotCounted (path : string)
  | MsgFetchFailed (url err : string)
  | MsgBadStatusFor (url status : string)
  | MsgOriginalURL (parsedURL : URL)
  | MsgFinalURL (url : string)
  | MsgCannotParseFinal (url : string) (err : url_error)
  | MsgWriteFailed (path : string)
  | MsgOpenError
  | MsgReadError
  | MsgInput (url : string)
  | MsgFinalS3URL (url : string).

Inductive event : Type :=
  | EvLog (m : message)        (* log.Printf *)
  | EvPrint (m : message)      (* fmt.Println *)
  | EvGet (url : string)       (* http.Get was called *)
  | EvCreate (path : string).  (* os.Create succeeded *)

Record World : Type := mkWorld {
  fs : filesystem;
  trace : list event
}.

Definition emit (w : World) (e : event) : World :=
  mkWorld (fs w) (trace w ++ [e]).

Definition log_Printf (w : World) (m : message) : World := emit w (EvLog m).
Definition fmt_Println (w : World) (m : message) : World := emit w (EvPrint m).

Definition set_fs (w : World) (fs' : filesystem) : World :=
  mkWorld fs' (trace w).

Definition isGet (e : event) : bool :=
  match e with EvGet _ => true | _ => false end.
Definition isCreate (e : event) : bool :=
  match e with EvCreate _ => true | _ => false end.
Definition isLog (e : event) : bool :=
  match e with EvLog _ => true | _ => false end.

Fixpoint count_events (p : event -> bool) (t : list event) : nat :=
  match t with
  | [] => O
  | e :: t' => ((if p e then 1 else 0) + count_events p t')%nat
  end.

(** *** Package [os] *)

Fixpoint hasNul (s : string) : bool :=
  match s with
  | EmptyString => false
  | String c s' => (byte_val c =? 0)%N || hasNul s'
  end.

(** The system calls refuse the empty path and a path with a NUL byte. *)
Definition validPath (p : string) : bool :=
  negb (String.eqb p EmptyString) && negb (hasNul p).

(** The directories that are there whatever the map holds: the root, the
    working directory and the directories above it. *)
Definition isAnchor (p : string) : bool :=
  String.eqb p "/" || String.eqb p "."
  || forallb (fun e => String.eqb e "..") (splitSlash p).

Definition lookup_node (fs : filesystem) (p : string) : option node :=
  if isAnchor p then Some Dir else fs !! p.

(** [os.Stat] (and [os.Lstat]): [None] is an error. *)
Definition os_Stat (fs : filesystem) (name : string) : option node :=
  if validPath name then lookup_node fs (filepath_Clean name) else None.

(** [os.Mkdir]: [None] is an error. *)
Definition os_Mkdir (env : Env) (fs : filesystem) (name : string)
  : option filesystem :=
  let p := filepath_Clean name in
  if negb (validPath name) then None
  else match lookup_node fs p with
       | Some _ => None
       | None =>
           match lookup_node fs (parentDir p) with
           | Some Dir =>
               if mkdir_denied env p then None else Some (<[p := Dir]> fs)
           | _ => None
           end
       end.

(** The parent [path[:i+1]] that [os.MkdirAll] recurses on. *)
Definition mkdirParent (path : string) : string :=
  trimRight (fun c => negb (isSlash c)) (trimRight isSlash path).

(** [os.MkdirAll]; the recursion is on a strictly shorter path, so the
    length of the path is fuel enough. *)
Fixpoint MkdirAll_fuel (n : nat) (env : Env) (fs : filesystem) (path : string)
  : filesystem * bool :=
  match os_Stat fs path with
  | Some Dir => (fs, true)
  | Some (File _) => (fs, false)
  | None =>
      match n with
      | O => (fs, false)
      | S n' =>
          let parent := mkdirParent path in
          let '(fs1, ok) :=
            if String.eqb parent EmptyString then (fs, true)
            else MkdirAll_fuel n' env fs parent in
          if negb ok then (fs1, false)
          else match os_Mkdir env fs1 path with
               | Some fs2 => (fs2, true)
               | None =>
                   match os_Stat fs1 path with
                   | Some Dir => (fs1, true)
                   | _ => (fs1, false)
                   end
               end
      end
  end.

Definition os_MkdirAll (env : Env) (fs : filesystem) (path : string)
  : filesystem * bool :=
  MkdirAll_fuel (S (String.length path)) env fs path.

(** [os.Create]: create or truncate; [None] is an error. *)
Definition os_Create (env : Env) (fs : filesystem) (name : string)
  : option filesystem :=
  let p := filepath_Clean name in
  if negb (validPath name) then None
  else match lookup_node fs p with
       | Some Dir => None
       | _ =>
           match lookup_node fs (parentDir p) with
           | Some Dir =>
               if create_denied env p then None
               else Some (<[p := File EmptyString]> fs)
           | _ => None
           end
       end.

(** [io.Copy(outFile, resp.Body)] into the file created at [name]: the
    bytes written before the first error stay in the file. *)
Definition io_Copy (env : Env) (fs : filesystem) (name : string)
    (body : string) (bodyErr : bool) : filesystem * bool :=
  let p := filepath_Clean name in
  let n := match write_limit env p with
           | Some n => Nat.min n (String.length body)
           | None => String.length body
           end in
  (<[p := File (str_take n body)]> fs,
   (n =? String.length body)%nat && negb bodyErr).

(** What a reader delivers before it ends: with end of file, or with an
    error. *)
Record reader : Type := mkReader {
  delivered : string;
  readFailed : bool
}.

(** [os.Open]: a directory can be opened, and every read of it fails. *)
Definition os_Open (env : Env) (fs : filesystem) (name : string)
  : option reader :=
  let p := filepath_Clean name in
  if negb (validPath name) || open_denied env p then None
  else match lookup_node fs p with
       | None => None
       | Some Dir => Some (mkReader EmptyString true)
       | Some (File content) =>
           match read_fault env p with
           | Some n =>
               if (n <? String.length content)%nat
               then Some (mkReader (str_take n content) true)
               else Some (mkReader content false)
           | None => Some (mkReader content false)
           end
       end.

(** *** Package [bufio]: a [Scanner] with the default split, [ScanLines] *)

Definition maxScanTokenSize : N := 65536.

Definition tooLong (line : string) : bool :=
  (maxScanTokenSize <=? N.of_nat (String.length line))%N.

Definition dropCR (line : string) : string :=
  if strings_HasSuffix line (String "013" EmptyString)
  then str_take (String.length line - 1) line
  else line.

(** The tokens [Scan] yields over [data], with [cur] the bytes of the line
    being read, and whether it stopped on [ErrTooLong]. *)
Fixpoint scanLines (data cur : string) : list string * bool :=
  match data with
  | EmptyString =>
      if tooLong cur then ([], true)
      else if String.eqb cur EmptyString then ([], false)
      else ([dropCR cur], false)
  | String c rest =>
      if Ascii.eqb c "010" then
        if tooLong cur then ([], true)
        else let '(toks, err) := scanLines rest EmptyString in
             (dropCR cur :: toks, err)
      else scanLines rest (cur +:+ String c EmptyString)
  end.

Record Scanner : Type := mkScanner {
  pending : list string;   (* the tokens [Scan] has still to yield *)
  scanErr : bool           (* what [Err] answers once [Scan] is false *)
}.

Definition bufio_NewScanner (r : reader) : Scanner :=
  let '(toks, long) := scanLines (delivered r) EmptyString in
  mkScanner toks (long || readFailed r).

(** The loop [for scanner.Scan() { lines = append(lines, scanner.Text()) }]
    over the tokens the scanner has still to yield. *)
Fixpoint scan_all (toks lines : list string) : list string :=
  match toks with
  | [] => lines
  | text :: toks' => scan_all toks' (lines ++ [text])
  end.

(* ===================================================================== *)
(** ** [main.go]: the pattern resolver, the fetcher and the batch driver *)
(* ===================================================================== *)

(** [documentcloud\.org/documents/(\d+)-([a-zA-Z0-9_\-]+)] *)
Definition re_documentcloud : regex :=
  Seq (Lit "documentcloud.org/documents/")
      (Seq (Group (Plus class_digit))
           (Seq (Lit "-") (Group (Plus class_slug)))).

Definition extractFinalDocumentCloudURL (input : string) : string :=
  match url_Parse input with
  | Err _ => EmptyString
  | Ok parsedURL =>
      if strings_Contains (Host parsedURL) "s3.documentcloud.org" then input
      else
        match regexp_FindStringSubmatch re_documentcloud input with
        | [_; docID; slug] =>
            fmt_Sprintf "https://s3.documentcloud.org/documents/%s/%s.pdf"
                        [docID; slug]
        | _ => EmptyString
        end
  end.

(** [fileExists]: there is something at [filename] and it is no directory. *)
Definition fileExists (fs : filesystem) (filename : string) : bool :=
  match os_Stat fs filename with
  | None => false
  | Some Dir => false
  | Some (File _) => true
  end.

Definition http_StatusOK : Z := 200.

Definition requests (w : World) : nat := count_events isGet (trace w).

(** The file name [downloadPDF] saves under: the last element of the path,
    with [.pdf] appended unless it ends with it in any case of letters.
    [None] is the branch that logs and returns. *)
Definition fetchFileName (parsedURL : URL) : option string :=
  let fileName := path_Base (Path parsedURL) in
  if String.eqb fileName EmptyString || String.eqb fileName "/" then None
  else if negb (strings_HasSuffix (strings_ToLower fileName) ".pdf")
       then Some (fileName +:+ ".pdf")
       else Some fileName.

Definition downloadPDF (env : Env) (finalURL outputDir : string) (w : World)
  : World :=
  match url_Parse finalURL with
  | Err err => log_Printf w (MsgInvalidURL finalURL err)
  | Ok parsedURL =>
      match fetchFileName parsedURL with
      | None => log_Printf w (MsgNoFileName finalURL)
      | Some fileName =>
          let '(fs1, ok) := os_MkdirAll env (fs w) outputDir in
          let w := set_fs w fs1 in
          if negb ok then log_Printf w (MsgMkdirFailed outputDir)
          else
            let filePath := filepath_Join [outputDir; fileName] in
            if fileExists (fs w) filePath
            then log_Printf w (MsgFileExists filePath)
            else
              let resp := http_Get env (requests w) finalURL in
              let w := emit w (EvGet finalURL) in
              match resp with
              | GetError err => log_Printf w (MsgGetFailed finalURL err)
              | GetResponse StatusCode Status _ body bodyErr =>
                  if negb (StatusCode =? http_StatusOK)%Z
                  then log_Printf w (MsgBadStatus finalURL Status)
                  else
                    match os_Create env (fs w) filePath with
                    | None => log_Printf w (MsgCreateFailed filePath)
                    | Some fs2 =>
                        let w := emit (set_fs w fs2) (EvCreate filePath) in
                        let '(fs3, copied) :=
                          io_Copy env (fs w) filePath body bodyErr in
                        let w := set_fs w fs3 in
                        if negb copied
                        then log_Printf w (MsgSaveFailed filePath)
                        else log_Printf w (MsgDownloaded filePath)
                    end
              end
      end
  end.

(** [readFileLines]: the lines, and the world with what was printed. *)
Definition readFileLines (env : Env) (filename : string) (w : World)
  : list string * World :=
  match os_Open env (fs w) filename with
  | None => ([], fmt_Println w MsgOpenError)
  | Some file =>
      let scanner := bufio_NewScanner file in
      let lines := scan_all (pending scanner) [] in
      if scanErr scanner then ([], fmt_Println w MsgReadError)
      else (lines, w)
  end.

Definition urlParseSafe (raw : string) : result URL := url_Parse raw.

Inductive control : Type :=
  | Next     (* [continue], or the end of the loop body *)
  | Break.

(** The body of the loop of [main] on one [url]. *)
Definition loop_body (env : Env) (pdfDir : string) (maxDownloads : Z)
    (url : string) (w : World) (downloadCount : Z) : control * World * Z :=
  if (downloadCount >=? maxDownloads)%Z then
    (Break, log_Printf w (MsgCapReached maxDownloads), downloadCount)
  else
    let finalURL := extractFinalDocumentCloudURL url in
    if String.eqb finalURL EmptyString then
      (Next, log_Printf w (MsgUnrecognized url), downloadCount)
    else
      match urlParseSafe finalURL with
      | Err _ => (Next, log_Printf w (MsgSkipInvalidFinal finalURL), downloadCount)
      | Ok parsedURL =>
          let fileName := path_Base (Path parsedURL) in
          if String.eqb fileName EmptyString then (Next, w, downloadCount)
          else
            let filePath := filepath_Join [pdfDir; fileName] in
            if negb (fileExists (fs w) filePath) then
              (Next, downloadPDF env finalURL pdfDir w, (downloadCount + 1)%Z)
            else
              (Next, log_Printf w (MsgNotCounted filePath), downloadCount)
      end.

(** [for _, url := range urls { ... }] *)
Fixpoint main_loop (env : Env) (pdfDir : string) (maxDownloads : Z)
    (urls : list string) (w : World) (downloadCount : Z) : World * Z :=
  match urls with
  | [] => (w, downloadCount)
  | url :: urls' =>
      match loop_body env pdfDir maxDownloads url w downloadCount with
      | (Break, w', n) => (w', n)
      | (Next, w', n) => main_loop env pdfDir maxDownloads urls' w' n
      end
  end.

Definition inputFile : string := "extracted_urls.txt".
Definition pdfDir : string := "./NYPD_PDF/".
Definition maxDownloads : Z := 1000.

(** [main]: the world the program leaves, and its download counter. *)
Definition main (env : Env) (w : World) : World * Z :=
  let '(urls, w) := readFileLines env inputFile w in
  main_loop env pdfDir maxDownloads urls w 0%Z.

(* ===================================================================== *)
(** ** The companion program: rewrite, then follow the redirects *)
(* ===================================================================== *)

Module Redirect.

  (** [documentcloud\.org/documents/(\d+)-([\w\-]+)] *)
Definition re_documentcloud : regex :=
    Seq (Lit "documentcloud.org/documents/")
        (Seq (Group (Plus class_digit))
             (Seq (Lit "-") (Group (Plus class_word_hyphen)))).

Definition ExtractFinalDocumentCloudURL (input : string) : string :=
    match url_Parse input with
    | Err _ => EmptyString
    | Ok parsedURL =>
        if strings_Contains (Host parsedURL) "s3.documentcloud.org" then input
        else
          match regexp_FindStringSubmatch re_documentcloud input with
          | [_; docID; slug] =>
              fmt_Sprintf "https://s3.documentcloud.org/documents/%s/%s.pdf"
                          [docID; slug]
          | _ => EmptyString
          end
    end.

  (** This [downloadPDF] asks the network first and has no check that the
      file is there already. *)
Definition downloadPDF (env : Env) (rawURL outputDir : string) (w : World)
    : World :=
    match url_Parse rawURL with
    | Err err => log_Printf w (MsgInvalidURL rawURL err)
    | Ok parsedURL =>
        let resp := http_Get env (requests w) rawURL in
        let w := emit w (EvGet rawURL) in
        match resp with
        | GetError err => log_Printf w (MsgFetchFailed rawURL err)
        | GetResponse StatusCode Status finalURL body bodyErr =>
            if negb (StatusCode =? http_StatusOK)%Z
            then log_Printf w (MsgBadStatusFor rawURL Status)
            else
              let w := log_Printf w (MsgOriginalURL parsedURL) in
              let w := log_Printf w (MsgFinalURL finalURL) in
              match url_Parse finalURL with
              | Err err => log_Printf w (MsgCannotParseFinal finalURL err)
              | Ok finalParsed =>
                  match fetchFileName finalParsed with
                  | None => log_Printf w (MsgNoFileName finalURL)
                  | Some fileName =>
                      let '(fs1, ok) := os_MkdirAll env (fs w) outputDir in
                      let w := set_fs w fs1 in
                      if negb ok then log_Printf w (MsgMkdirFailed outputDir)
                      else
                        let filePath := filepath_Join [outputDir; fileName] in
                        match os_Create env (fs w) filePath with
                        | None => log_Printf w (MsgCreateFailed filePath)
                        | Some fs2 =>
                            let w := emit (set_fs w fs2) (EvCreate filePath) in
                            let '(fs3, copied) :=
                              io_Copy env (fs w) filePath body bodyErr in
                            let w := set_fs w fs3 in
                            if negb copied
                            then log_Printf w (MsgWriteFailed filePath)
                            else log_Printf w (MsgDownloaded filePath)
                        end
                  end
              end
        end
    end.

Definition urls : list string :=
    ["https://www.documentcloud.org/documents/23461534-200301254_redactedclosingreport_redacted"].

Definition pdfDir : string := "nypd_pdf/".

Fixpoint main_loop (env : Env) (urls : list string) (w : World) : World :=
    match urls with
    | [] => w
    | url :: urls' =>
        let finalURL := ExtractFinalDocumentCloudURL url in
        let w := fmt_Println w (MsgInput url) in
        let w := fmt_Println w (MsgFinalS3URL finalURL) in
        main_loop env urls' (downloadPDF env finalURL pdfDir w)
    end.

Definition main (env : Env) (w : World) : World := main_loop env urls w.

End Redirect.

(* ===================================================================== *)
(** ** Vocabulary of the statements *)
(* ===================================================================== *)

Fixpoint str_all (p : ascii -> bool) (s : string) : bool :=
  match s with
  | EmptyString => true
  | String c s' => p c && str_all p s'
  end.

Fixpoint str_takeWhile (p : ascii -> bool) (s : string) : string :=
  match s with
  | EmptyString => EmptyString
  | String c s' => if p c then String c (str_takeWhile p s') else EmptyString
  end.

Fixpoint str_dropWhile (p : ascii -> bool) (s : string) : string :=
  match s with
  | EmptyString => EmptyString
  | String c s' => if p c then str_dropWhile p s' else s
  end.

(** The first byte of [s], if any, is not in the class [p]. *)
Definition not_headed_by (p : ascii -> bool) (s : string) : Prop :=
  match s with
  | EmptyString => True
  | String c _ => p c = false
  end.

Definition marker : string := "s3.documentcloud.org".
Definition documentsPrefix : string := "documentcloud.org/documents/".

(** [https://s3.documentcloud.org/documents/<docID>/<slug>.pdf] *)
Definition storageURL (docID slug : string) : string :=
  "https://s3.documentcloud.org/documents/" +:+ docID +:+ "/" +:+ slug +:+ ".pdf".

(** The pattern [documentcloud.org/documents/<docID>-<slug>] sits in [input]
    right after [pre], with the slug drawn from the class [cls]. *)
Definition occurs_at (cls : ascii -> bool) (input pre docID slug post : string)
  : Prop :=
  input = pre +:+ documentsPrefix +:+ docID +:+ "-" +:+ slug +:+ post
  /\ docID <> EmptyString /\ str_all class_digit docID = true
  /\ slug <> EmptyString /\ str_all cls slug = true.

(** [docID] and [slug] are those of the leftmost occurrence of the pattern
    in [input], with the slug as long as it can be. *)
Definition leftmost_longest (cls : ascii -> bool) (input docID slug : string)
  : Prop :=
  exists pre post,
    occurs_at cls input pre docID slug post
    /\ not_headed_by cls post
    /\ forall pre2 docID2 slug2 post2,
         occurs_at cls input pre2 docID2 slug2 post2 ->
         (String.length pre <= String.length pre2)%nat
         /\ (String.length pre = String.length pre2 ->
             docID2 = docID
             /\ (String.length slug2 <= String.length slug)%nat).

(** The two patterns, by the class of the slug. *)
Definition re_of (cls : ascii -> bool) : regex :=
  Seq (Lit documentsPrefix)
      (Seq (Group (Plus class_digit)) (Seq (Lit "-") (Group (Plus cls)))).

(** What a match of [re_of cls] at the head of [s] is, read off the text:
    the identifier, the slug and what follows. *)
Definition direct_match (cls : ascii -> bool) (s : string)
  : option (string * string * string) :=
  if strings_HasPrefix s documentsPrefix then
    let r := str_drop (String.length documentsPrefix) s in
    match str_takeWhile class_digit r, str_dropWhile class_digit r with
    | String d0 d, String c r2 =>
        if Ascii.eqb c "-" then
          match str_takeWhile cls r2 with
          | String s0 sl => Some (String d0 d, String s0 sl, str_dropWhile cls r2)
          | EmptyString => None
          end
        else None
    | _, _ => None
    end
  else None.

(** [url.URL.Hostname]: the host without the port. *)
Definition url_Hostname (u : URL) : string :=
  match strings_Index (Host u) ":" with
  | None => Host u
  | Some colon =>
      match strings_Index (Host u) "]" with
      | Some i =>
          let h := str_take i (Host u) in
          if strings_HasPrefix h "[" then str_drop 1 h else h
      | None => str_take colon (Host u)
      end
  end.

Definition notSlash (c : ascii) : bool := negb (isSlash c).

(** The file name the driver derives for its own check of existence. *)
Definition driverFileName (parsedURL : URL) : string := path_Base (Path parsedURL).

(** [fs'] is [fs] with, at most, directories added. *)
Definition only_dirs_added (fs fs' : filesystem) : Prop :=
  forall p : string, fs' !! p = fs !! p \/ (fs !! p = None /\ fs' !! p = Some Dir).

(** The bytes of a storage URL: letters, digits and [_ - . / :]. *)
Definition plainByte (c : ascii) : bool := isAlnum c || oneOf "_-./:" c.

(** The four ways through [extractFinalDocumentCloudURL]. *)
Inductive resolution (input : string) : string -> Prop :=
  | res_unparseable e :
      url_Parse input = Err e ->
      resolution input EmptyString
  | res_already_final u :
      url_Parse input = Ok u ->
      strings_Contains (Host u) marker = true ->
      resolution input input
  | res_no_match u :
      url_Parse input = Ok u ->
      strings_Contains (Host u) marker = false ->
      (forall pre d sl post, ~ occurs_at class_slug input pre d sl post) ->
      resolution input EmptyString
  | res_rewritten u docID slug :
      url_Parse input = Ok u ->
      strings_Contains (Host u) marker = false ->
      leftmost_longest class_slug input docID slug ->
      resolution input (storageURL docID slug).

Definition creations (w : World) : Z := Z.of_nat (count_events isCreate (trace w)).

Definition isCapMessage (e : event) : bool :=
  match e with
  | EvLog (MsgCapReached _) => true
  | _ => false
  end.

(* ===================================================================== *)
(** ** Inputs, systems and worlds the statements are tried on *)
(* ===================================================================== *)

Definition exampleInput : string :=
  "https://www.documentcloud.org/documents/23461534-200301254_redactedclosingreport_redacted".
Definition exampleOutput : string :=
  "https://s3.documentcloud.org/documents/23461534/200301254_redactedclosingreport_redacted.pdf".

(** A URL on the storage host already, without the [.pdf]. *)
Definition passthroughURL : string := "https://s3.documentcloud.org/documents/2/b".

(** A URL whose host only starts like the storage host. *)
Definition lookalikeURL : string := "https://s3.documentcloud.org.evil.com/x".

(** A thousand candidates. *)
Definition thousand : list string := List.repeat exampleInput 1000.

(** A network that is down, on a system that refuses nothing. *)
Definition offline : Env :=
  mkEnv (fun _ _ => GetError "no route to host") (fun _ => false)
        (fun _ => false) (fun _ => false) (fun _ => None) (fun _ => None).

(** A server that answers 404 to everything. *)
Definition notFound : Env :=
  mkEnv (fun _ _ => GetResponse 404 "404 Not Found" EmptyString "gone" false)
        (fun _ => false) (fun _ => false) (fun _ => false)
        (fun _ => None) (fun _ => None).

(** A server whose answer breaks off after the first bytes of the body. *)
Definition flaky : Env :=
  mkEnv (fun _ _ => GetResponse 200 "200 OK" EmptyString "%PDF-1.4 tru" true)
        (fun _ => false) (fun _ => false) (fun _ => false)
        (fun _ => None) (fun _ => None).

(** A server that answers every request with a new document. *)
Definition serving : Env :=
  mkEnv (fun _ url => GetResponse 200 "200 OK" url "%PDF-1.7 new" false)
        (fun _ => false) (fun _ => false) (fun _ => false)
        (fun _ => None) (fun _ => None).

(** A disk on which no file can be read past its 60th byte. *)
Definition badDisk : Env :=
  mkEnv (fun _ _ => GetError "no route to host") (fun _ => false)
        (fun _ => false) (fun _ => false)
        (fun _ => Some 60%nat) (fun _ => None).

Definition emptyWorld : World := mkWorld ∅ [].

(** An output directory that holds [b.pdf] already. *)
Definition shelf : filesystem :=
  <["NYPD_PDF/b.pdf" := File "%PDF-1.4 old"]> (<["NYPD_PDF" := Dir]> ∅).

(** A list of two candidates. *)
Definition tornList : World :=
  mkWorld (<["extracted_urls.txt" :=
             File ("https://www.documentcloud.org/documents/1-a" +:+ String "010"
                   ("https://www.documentcloud.org/documents/2-b" +:+ String "010"
                    EmptyString))]> ∅) [].

(* ===================================================================== *)
(** ** Vocabulary of the further properties *)
(* ===================================================================== *)

(** The URLs [http.Get] was called with in a trace, one for each call
    (a call can fail before anything is sent, and it follows redirects, so
    these are not the requests that went over the network), and the paths of
    its creations. *)
Fixpoint gets (t : list event) : list string :=
  match t with
  | [] => []
  | EvGet url :: t' => url :: gets t'
  | _ :: t' => gets t'
  end.

Fixpoint created (t : list event) : list string :=
  match t with
  | [] => []
  | EvCreate path :: t' => path :: created t'
  | _ :: t' => created t'
  end.

Definition noNewline (c : ascii) : bool := negb (Ascii.eqb c "010").

(** A line a [Scanner] can yield: no newline in it, and short enough. *)
Definition scannable (line : string) : Prop :=
  str_all noNewline line = true /\ tooLong line = false.

(** The text of a file whose lines all end with a newline. *)
Fixpoint joinLines (lines : list string) : string :=
  match lines with
  | [] => EmptyString
  | l :: ls => l +:+ String "010" (joinLines ls)
  end.

(** A path element that [filepath.Clean] keeps as it is. *)
Definition plainElement (e : string) : Prop :=
  e <> EmptyString /\ e <> "." /\ e <> ".." /\ str_all notSlash e = true.

(** A candidate the driver has nothing to do for: it is not recognised, or
    the file the driver looks for is there. *)
Definition settled (fs : filesystem) (dir url : string) : Prop :=
  extractFinalDocumentCloudURL url = EmptyString
  \/ exists u,
       url_Parse (extractFinalDocumentCloudURL url) = Ok u
       /\ fileExists fs (filepath_Join [dir; driverFileName u]) = true.

(* ===================================================================== *)
(** * Properties *)
(* ===================================================================== *)

(* ===================================================================== *)
(** ** Strings *)
(* ===================================================================== *)

Lemma append_assoc (a b c : string) : (a +:+ b) +:+ c = a +:+ b +:+ c.
Proof. induction a as [|x a IH]; simpl; [reflexivity | now rewrite IH]. Qed.

Lemma append_nil_r (a : string) : a +:+ EmptyString = a.
Proof. induction a as [|x a IH]; simpl; [reflexivity | now rewrite IH]. Qed.

Lemma length_append (a b : string) :
  String.length (a +:+ b) = (String.length a + String.length b)%nat.
Proof. induction a as [|x a IH]; simpl; [reflexivity | now rewrite IH]. Qed.

Lemma str_take_app (a b : string) : str_take (String.length a) (a +:+ b) = a.
Proof. induction a as [|x a IH]; simpl; [now destruct b | now rewrite IH]. Qed.

Lemma str_drop_app (a b : string) : str_drop (String.length a) (a +:+ b) = b.
Proof. induction a as [|x a IH]; simpl; [reflexivity | exact IH]. Qed.

Lemma str_take_all (a : string) : str_take (String.length a) a = a.
Proof. induction a as [|x a IH]; simpl; [reflexivity | now rewrite IH]. Qed.

Lemma str_take_drop (n : nat) (s : string) : str_take n s +:+ str_drop n s = s.
Proof.
  revert s; induction n as [|n IH]; intros [|c s]; simpl; try reflexivity.
  now rewrite IH.
Qed.

Lemma HasPrefix_app (a b : string) : strings_HasPrefix (a +:+ b) a = true.
Proof.
  induction a as [|x a IH]; simpl; [reflexivity |].
  now rewrite Ascii.eqb_refl, IH.
Qed.

Lemma HasPrefix_spec (s p : string) :
  strings_HasPrefix s p = true -> s = p +:+ str_drop (String.length p) s.
Proof.
  revert s; induction p as [|x p IH]; intros s H; simpl in *; [reflexivity |].
  destruct s as [|c s]; [discriminate |].
  apply andb_true_iff in H as [Hc Hp]. apply Ascii.eqb_eq in Hc. subst c.
  simpl. f_equal. now apply IH.
Qed.

Lemma takeWhile_dropWhile (p : ascii -> bool) (s : string) :
  str_takeWhile p s +:+ str_dropWhile p s = s.
Proof.
  induction s as [|c s IH]; simpl; [reflexivity |].
  destruct (p c); simpl; [now rewrite IH | reflexivity].
Qed.

Lemma takeWhile_all (p : ascii -> bool) (s : string) :
  str_all p (str_takeWhile p s) = true.
Proof.
  induction s as [|c s IH]; simpl; [reflexivity |].
  destruct (p c) eqn:E; simpl; [now rewrite E | reflexivity].
Qed.

Lemma dropWhile_head (p : ascii -> bool) (s : string) :
  not_headed_by p (str_dropWhile p s).
Proof.
  induction s as [|c s IH]; simpl; [exact I |].
  destruct (p c) eqn:E; simpl; [exact IH | exact E].
Qed.

Lemma takeWhile_app (p : ascii -> bool) (a b : string) :
  str_all p a = true ->
  str_takeWhile p (a +:+ b) = a +:+ str_takeWhile p b.
Proof.
  induction a as [|x a IH]; simpl; intros H; [reflexivity |].
  apply andb_true_iff in H as [Hx Ha]. now rewrite Hx, IH.
Qed.

Lemma dropWhile_app (p : ascii -> bool) (a b : string) :
  str_all p a = true ->
  str_dropWhile p (a +:+ b) = str_dropWhile p b.
Proof.
  induction a as [|x a IH]; simpl; intros H; [reflexivity |].
  apply andb_true_iff in H as [Hx Ha]. now rewrite Hx, IH.
Qed.

Lemma str_all_app (p : ascii -> bool) (a b : string) :
  str_all p (a +:+ b) = str_all p a && str_all p b.
Proof.
  induction a as [|x a IH]; simpl; [reflexivity |].
  now rewrite IH, andb_assoc.
Qed.

Lemma take_length_sub (a b : string) :
  str_take (String.length (a +:+ b) - String.length b) (a +:+ b) = a.
Proof.
  rewrite length_append.
  replace (String.length a + String.length b - String.length b)%nat
    with (String.length a) by lia.
  apply str_take_app.
Qed.

(* ===================================================================== *)
(** ** The matcher on the two patterns *)
(* ===================================================================== *)

Section Star.
Context {R : Type}.

  (** When the continuation refuses every text that still starts in the
      class, the star hands it the text after the longest run. *)
Lemma match_star_refused (cls : ascii -> bool) (k : string -> option R) :
    (forall c rest, cls c = true -> k (String c rest) = None) ->
    forall s, match_star cls s k = k (str_dropWhile cls s).
  Proof.
    intros Hk s. induction s as [|c s IH]; simpl; [reflexivity |].
    destruct (cls c) eqn:E; [| reflexivity].
    rewrite IH. destruct (k (str_dropWhile cls s)) eqn:K; [reflexivity |].
    now apply Hk.
  Qed.

  (** The longest run is tried first. *)
Lemma match_star_longest (cls : ascii -> bool) (k : string -> option R) :
    forall s r, k (str_dropWhile cls s) = Some r -> match_star cls s k = Some r.
  Proof.
    intros s. induction s as [|c s IH]; simpl; intros r H; [exact H |].
    destruct (cls c) eqn:E; [| exact H].
    now rewrite (IH r H).
  Qed.
End Star.

Lemma digit_not_hyphen (c : ascii) : class_digit c = true -> Ascii.eqb c "-" = false.
Proof.
  destruct c as [[] [] [] [] [] [] [] []]; vm_compute; congruence.
Qed.

Lemma match_here_direct (cls : ascii -> bool) (s : string) :
  match_here (re_of cls) s =
  match direct_match cls s with
  | Some (docID, slug, _) =>
      Some [documentsPrefix +:+ docID +:+ "-" +:+ slug; docID; slug]
  | None => None
  end.
Proof.
  unfold match_here, direct_match, re_of.
  cbn [match_regex].
  destruct (strings_HasPrefix s documentsPrefix) eqn:HP; [| reflexivity].
  apply HasPrefix_spec in HP.
  set (r := str_drop (String.length documentsPrefix) s) in *.
  unfold match_plus at 1.
  destruct r as [|d0 r'] eqn:Er; [reflexivity |].
  cbn [str_takeWhile str_dropWhile].
  destruct (class_digit d0) eqn:Ed0; [| reflexivity].
  rewrite match_star_refused.
  2:{ intros c rest Hc. cbn [strings_HasPrefix]. now rewrite (digit_not_hyphen c Hc). }
  pose proof (takeWhile_dropWhile class_digit r') as Hsplit.
  set (d := str_takeWhile class_digit r') in *.
  set (r1 := str_dropWhile class_digit r') in *.
  destruct r1 as [|c r2] eqn:Er1; [reflexivity |].
  cbn [strings_HasPrefix].
  destruct (Ascii.eqb c "-") eqn:Ec; [| reflexivity].
  apply Ascii.eqb_eq in Ec. subst c.
  cbn [andb String.length str_drop].
  unfold match_plus.
  destruct r2 as [|s0 r3] eqn:Er2; [reflexivity |].
  cbn [str_takeWhile str_dropWhile].
  destruct (cls s0) eqn:Es0; [| reflexivity].
  pose proof (takeWhile_dropWhile cls r3) as Hsplit2.
  set (sl := str_takeWhile cls r3) in *.
  set (post := str_dropWhile cls r3) in *.
  erewrite match_star_longest; [| reflexivity].
  fold post.
  assert (Hr' : r' = d +:+ String "-" (String s0 (sl +:+ post))).
  { rewrite <- Hsplit. now rewrite <- Hsplit2. }
  cbn [app]. apply f_equal.
  apply (f_equal2 cons); [| apply (f_equal2 cons); [| apply (f_equal2 cons); [| reflexivity]]].
  - rewrite HP at 1 2. rewrite Hr'.
    replace (documentsPrefix +:+ String d0 (d +:+ String "-" (String s0 (sl +:+ post))))
      with ((documentsPrefix +:+ String d0 d +:+ "-" +:+ String s0 sl) +:+ post).
    + apply take_length_sub.
    + rewrite ?append_assoc. simpl. rewrite ?append_assoc. reflexivity.
  - rewrite <- Hsplit.
    change (str_take (String.length (String d0 d +:+ String "-" (String s0 r3))
                      - String.length (String "-" (String s0 r3)))
                     (String d0 d +:+ String "-" (String s0 r3)) = String d0 d).
    apply take_length_sub.
  - rewrite <- Hsplit2.
    change (str_take (String.length (String s0 sl +:+ post) - String.length post)
                     (String s0 sl +:+ post) = String s0 sl).
    apply take_length_sub.
Qed.

Lemma direct_match_sound (cls : ascii -> bool) (s docID slug post : string) :
  direct_match cls s = Some (docID, slug, post) ->
  occurs_at cls s EmptyString docID slug post /\ not_headed_by cls post.
Proof.
  unfold direct_match.
  destruct (strings_HasPrefix s documentsPrefix) eqn:HP; [| discriminate].
  apply HasPrefix_spec in HP.
  set (r := str_drop (String.length documentsPrefix) s) in *.
  pose proof (takeWhile_dropWhile class_digit r) as Hr.
  pose proof (takeWhile_all class_digit r) as Hd.
  destruct (str_takeWhile class_digit r) as [|d0 d]; [discriminate |].
  destruct (str_dropWhile class_digit r) as [|c r2]; [discriminate |].
  destruct (Ascii.eqb c "-") eqn:Ec; [| discriminate].
  apply Ascii.eqb_eq in Ec. subst c.
  pose proof (takeWhile_dropWhile cls r2) as Hr2.
  pose proof (takeWhile_all cls r2) as Hsl.
  pose proof (dropWhile_head cls r2) as Hpost.
  destruct (str_takeWhile cls r2) as [|s0 sl]; [discriminate |].
  intros H. injection H as <- <- <-.
  split; [| exact Hpost].
  unfold occurs_at. repeat split; try discriminate; try assumption.
  cbn [String.append]. rewrite HP at 1. f_equal.
  rewrite <- Hr. f_equal. rewrite <- Hr2 at 1. reflexivity.
Qed.

Lemma direct_match_complete (cls : ascii -> bool) (s docID slug post : string) :
  occurs_at cls s EmptyString docID slug post ->
  direct_match cls s =
  Some (docID, slug +:+ str_takeWhile cls post, str_dropWhile cls post).
Proof.
  intros (Hs & Hd & Hdig & Hsl & Hslug). cbn [String.append] in Hs.
  unfold direct_match. subst s. rewrite HasPrefix_app, str_drop_app.
  rewrite (takeWhile_app _ _ _ Hdig), (dropWhile_app _ _ _ Hdig).
  cbn [String.append str_takeWhile str_dropWhile].
  replace (class_digit "-") with false by (vm_compute; reflexivity).
  rewrite append_nil_r.
  destruct docID as [|d0 d]; [congruence |].
  rewrite Ascii.eqb_refl.
  rewrite (takeWhile_app _ _ _ Hslug), (dropWhile_app _ _ _ Hslug).
  destruct slug as [|s0 sl]; [congruence |]. reflexivity.
Qed.

Lemma occurs_at_cons (cls : ascii -> bool) (c : ascii) (s pre d sl post : string) :
  occurs_at cls (String c s) (String c pre) d sl post <-> occurs_at cls s pre d sl post.
Proof.
  unfold occurs_at. cbn [String.append].
  split; intros (H & Hr); (split; [| exact Hr]); congruence.
Qed.

Lemma occurs_at_head (cls : ascii -> bool) (c c' : ascii) (s pre d sl post : string) :
  occurs_at cls (String c s) (String c' pre) d sl post -> c' = c.
Proof. intros (H & _). cbn [String.append] in H. congruence. Qed.

Lemma no_occurrence_in_empty (cls : ascii -> bool) (pre d sl post : string) :
  ~ occurs_at cls EmptyString pre d sl post.
Proof.
  intros (H & _). apply (f_equal String.length) in H.
  rewrite !length_append in H. simpl in H. lia.
Qed.

(** [FindStringSubmatch] on the two patterns: no match exactly when the
    pattern occurs nowhere, and otherwise the leftmost occurrence with the
    longest slug. *)
Lemma find_spec (cls : ascii -> bool) (s : string) :
  (regexp_FindStringSubmatch (re_of cls) s = []
   /\ forall pre d sl post, ~ occurs_at cls s pre d sl post)
  \/ exists docID slug,
       regexp_FindStringSubmatch (re_of cls) s =
         [documentsPrefix +:+ docID +:+ "-" +:+ slug; docID; slug]
       /\ leftmost_longest cls s docID slug.
Proof.
  induction s as [|c s IH].
  - left. split; [reflexivity |]. intros. apply no_occurrence_in_empty.
  - cbn [regexp_FindStringSubmatch]. rewrite match_here_direct.
    destruct (direct_match cls (String c s)) as [[[d sl] post]|] eqn:D.
    + right. exists d, sl. split; [reflexivity |].
      destruct (direct_match_sound _ _ _ _ _ D) as [Hocc Hpost].
      exists EmptyString, post. split; [exact Hocc |]. split; [exact Hpost |].
      intros pre2 d2 sl2 post2 H2. split; [simpl; lia |].
      intros Hlen. destruct pre2; [| discriminate].
      rewrite (direct_match_complete _ _ _ _ _ H2) in D.
      injection D as <- <- <-. split; [reflexivity |].
      rewrite length_append. lia.
    + assert (Hhead : forall d sl post,
                 ~ occurs_at cls (String c s) EmptyString d sl post).
      { intros d sl post H. rewrite (direct_match_complete _ _ _ _ _ H) in D.
        discriminate. }
      destruct IH as [[Hnil Hno] | (d & sl & Hfind & pre & post & Hocc & Hpost & Hmin)].
      * left. split; [exact Hnil |].
        intros [|c' pre] d sl post H; [exact (Hhead _ _ _ H) |].
        pose proof (occurs_at_head _ _ _ _ _ _ _ _ H) as ->.
        apply (proj1 (occurs_at_cons _ _ _ _ _ _ _)) in H. exact (Hno _ _ _ _ H).
      * right. exists d, sl. split; [exact Hfind |].
        exists (String c pre), post.
        split; [now apply (proj2 (occurs_at_cons _ _ _ _ _ _ _)) |]. split; [exact Hpost |].
        intros [|c' pre2] d2 sl2 post2 H2; [destruct (Hhead _ _ _ H2) |].
        pose proof (occurs_at_head _ _ _ _ _ _ _ _ H2) as ->.
        apply (proj1 (occurs_at_cons _ _ _ _ _ _ _)) in H2.
        destruct (Hmin _ _ _ _ H2) as [Hle Heq].
        split; [simpl; lia |]. intros Hlen. apply Heq. simpl in Hlen. lia.
Qed.

Lemma takeWhile_not_headed (p : ascii -> bool) (s : string) :
  not_headed_by p s -> str_takeWhile p s = EmptyString.
Proof. destruct s as [|c s]; cbn; [reflexivity | now intros ->]. Qed.

(** When the occurrence at hand is the leftmost one and its slug cannot be
    made longer, it is the match. *)
Lemma find_exact (cls : ascii -> bool) (pre : string) :
  forall s docID slug post,
    occurs_at cls s pre docID slug post ->
    not_headed_by cls post ->
    (forall pre2 d2 sl2 post2,
       occurs_at cls s pre2 d2 sl2 post2 ->
       (String.length pre <= String.length pre2)%nat) ->
    regexp_FindStringSubmatch (re_of cls) s =
      [documentsPrefix +:+ docID +:+ "-" +:+ slug; docID; slug].
Proof.
  induction pre as [|c pre IH]; intros s d sl post Hocc Hpost Hmin.
  - pose proof (direct_match_complete _ _ _ _ _ Hocc) as D.
    rewrite (takeWhile_not_headed _ _ Hpost), append_nil_r in D.
    destruct s; cbn [regexp_FindStringSubmatch];
      now rewrite match_here_direct, D.
  - destruct s as [|c' s]; [destruct (no_occurrence_in_empty _ _ _ _ _ Hocc) |].
    pose proof (occurs_at_head _ _ _ _ _ _ _ _ Hocc) as ->.
    cbn [regexp_FindStringSubmatch]. rewrite match_here_direct.
    destruct (direct_match cls (String c' s)) as [[[d0 sl0] post0]|] eqn:D.
    + destruct (direct_match_sound _ _ _ _ _ D) as [H0 _].
      specialize (Hmin _ _ _ _ H0). cbn in Hmin. lia.
    + apply (IH s d sl post); [| exact Hpost |].
      * now apply (proj1 (occurs_at_cons _ _ _ _ _ _ _)) in Hocc.
      * intros pre2 d2 sl2 post2 H2.
        apply (proj2 (occurs_at_cons cls c' s pre2 d2 sl2 post2)) in H2.
        specialize (Hmin _ _ _ _ H2). cbn in Hmin. lia.
Qed.

Lemma Sprintf_storageURL (docID slug : string) :
  fmt_Sprintf "https://s3.documentcloud.org/documents/%s/%s.pdf" [docID; slug]
  = storageURL docID slug.
Proof. reflexivity. Qed.

(* ===================================================================== *)
(** ** [url.Parse] on storage URLs *)
(* ===================================================================== *)

(** A fact about every byte, checked on the 256 of them. *)
Ltac by_bytes c :=
  destruct c as [[] [] [] [] [] [] [] []]; vm_compute; intuition congruence.

Lemma plainByte_not (c d : ascii) :
  plainByte c = true -> plainByte d = false -> Ascii.eqb c d = false.
Proof.
  intros Hc Hd. destruct (Ascii.eqb c d) eqn:E; [| reflexivity].
  apply Ascii.eqb_eq in E. congruence.
Qed.

Lemma Index_byte_none (p : ascii -> bool) (s : string) (c : ascii) :
  str_all p s = true -> p c = false ->
  strings_Index s (String c EmptyString) = None.
Proof.
  intros Hs Hc. induction s as [|x s IH]; [reflexivity |].
  cbn [str_all] in Hs. apply andb_true_iff in Hs as [Hx Hs].
  cbn [strings_Index strings_HasPrefix].
  assert (Ascii.eqb x c = false) as ->.
  { destruct (Ascii.eqb x c) eqn:E; [| reflexivity].
    apply Ascii.eqb_eq in E. congruence. }
  cbn [andb]. now rewrite (IH Hs).
Qed.

Lemma CountByte_zero (p : ascii -> bool) (s : string) (c : ascii) :
  str_all p s = true -> p c = false -> strings_CountByte s c = O.
Proof.
  intros Hs Hc. induction s as [|x s IH]; [reflexivity |].
  cbn [str_all] in Hs. apply andb_true_iff in Hs as [Hx Hs].
  cbn [strings_CountByte].
  assert (Ascii.eqb x c = false) as ->.
  { destruct (Ascii.eqb x c) eqn:E; [| reflexivity].
    apply Ascii.eqb_eq in E. congruence. }
  now rewrite (IH Hs).
Qed.

Lemma plainByte_not_control (c : ascii) :
  plainByte c = true ->
  ((byte_val c <? byte_val " ")%N || (byte_val c =? 127)%N) = false.
Proof. by_bytes c. Qed.

Lemma plain_no_control (s : string) :
  str_all plainByte s = true -> stringContainsCTLByte s = false.
Proof.
  induction s as [|x s IH]; [reflexivity |]. cbn [str_all stringContainsCTLByte].
  intros H. apply andb_true_iff in H as [Hx Hs].
  now rewrite (plainByte_not_control x Hx), (IH Hs).
Qed.

Lemma plainByte_unescaped (c : ascii) :
  plainByte c = true -> Ascii.eqb c "%" = false /\ Ascii.eqb c "+" = false.
Proof. by_bytes c. Qed.

Lemma unescape_plain (s : string) :
  str_all plainByte s = true -> unescape s encodePath = Ok s.
Proof.
  induction s as [|x s IH]; [reflexivity |]. cbn [str_all unescape].
  intros H. apply andb_true_iff in H as [Hx Hs].
  destruct (plainByte_unescaped x Hx) as [-> ->].
  cbn [isHostMode andb]. now rewrite (IH Hs).
Qed.

Lemma class_digit_plain (c : ascii) : class_digit c = true -> plainByte c = true.
Proof. by_bytes c. Qed.

Lemma class_slug_plain (c : ascii) : class_slug c = true -> plainByte c = true.
Proof. by_bytes c. Qed.

Lemma class_word_hyphen_slug (c : ascii) : class_word_hyphen c = class_slug c.
Proof. destruct c as [[] [] [] [] [] [] [] []]; reflexivity. Qed.

Lemma str_all_impl (p q : ascii -> bool) (s : string) :
  (forall c, p c = true -> q c = true) -> str_all p s = true -> str_all q s = true.
Proof.
  intros Hpq. induction s as [|x s IH]; [reflexivity |]. cbn [str_all].
  intros H. apply andb_true_iff in H as [Hx Hs].
  now rewrite (Hpq x Hx), (IH Hs).
Qed.

(** A URL on the storage host whose path is made of plain bytes parses,
    with that host and that path. *)
Lemma url_Parse_storage (p : string) :
  str_all plainByte p = true ->
  url_Parse ("https://s3.documentcloud.org/" +:+ p) =
  Ok (mkURL "https" EmptyString None marker (String "/" p)
            false EmptyString EmptyString).
Proof.
  intros Hp.
  set (s := "https://s3.documentcloud.org/" +:+ p).
  set (rest0 := "//s3.documentcloud.org/" +:+ p).
  assert (Hs : str_all plainByte s = true) by exact Hp.
  assert (Hrest0 : str_all plainByte rest0 = true) by exact Hp.
  unfold url_Parse, strings_Cut.
  rewrite (Index_byte_none plainByte s "#" Hs eq_refl).
  unfold url_parse. rewrite (plain_no_control s Hs).
  replace (String.eqb s "*") with false by reflexivity.
  replace (getScheme s) with (@Ok (string * string) ("https", rest0)) by reflexivity.
  cbn [bind].
  rewrite (CountByte_zero plainByte rest0 "?" Hrest0 eq_refl).
  rewrite andb_false_r. unfold strings_Cut.
  rewrite (Index_byte_none plainByte rest0 "?" Hrest0 eq_refl).
  replace (strings_ToLower "https") with "https" by reflexivity.
  replace (strings_HasPrefix rest0 "/") with true by reflexivity.
  replace (strings_HasPrefix rest0 "//") with true by reflexivity.
  cbn [negb andb orb String.eqb Ascii.eqb Bool.eqb].
  replace (strings_Index (str_drop 2 rest0) "/") with (Some 20%nat) by reflexivity.
  replace (str_take 20 (str_drop 2 rest0)) with marker by reflexivity.
  replace (str_drop 20 (str_drop 2 rest0)) with (String "/" p) by reflexivity.
  replace (parseAuthority marker)
    with (@Ok (option (string * option string) * string) (None, marker))
    by reflexivity.
  cbn [bind].
  rewrite (unescape_plain (String "/" p) Hp). reflexivity.
Qed.

Lemma storage_path_plain (cls : ascii -> bool) (docID slug : string) :
  (forall c, cls c = true -> plainByte c = true) ->
  str_all class_digit docID = true -> str_all cls slug = true ->
  str_all plainByte ("documents/" +:+ docID +:+ "/" +:+ slug +:+ ".pdf") = true.
Proof.
  intros Hcls Hd Hs.
  rewrite !str_all_app.
  rewrite (str_all_impl _ _ _ class_digit_plain Hd).
  rewrite (str_all_impl _ _ _ Hcls Hs). reflexivity.
Qed.

Lemma url_Parse_storageURL (cls : ascii -> bool) (docID slug : string) :
  (forall c, cls c = true -> plainByte c = true) ->
  str_all class_digit docID = true -> str_all cls slug = true ->
  url_Parse (storageURL docID slug) =
  Ok (mkURL "https" EmptyString None marker
            ("/documents/" +:+ docID +:+ "/" +:+ slug +:+ ".pdf")
            false EmptyString EmptyString).
Proof.
  intros Hcls Hd Hs.
  exact (url_Parse_storage _ (storage_path_plain cls docID slug Hcls Hd Hs)).
Qed.

(* ===================================================================== *)
(** ** The pattern resolver *)
(* ===================================================================== *)

Lemma takeWhile_ext (p q : ascii -> bool) (s : string) :
  (forall c, p c = q c) -> str_takeWhile p s = str_takeWhile q s.
Proof.
  intros H. induction s as [|x s IH]; [reflexivity |].
  cbn [str_takeWhile]. now rewrite (H x), IH.
Qed.

Lemma dropWhile_ext (p q : ascii -> bool) (s : string) :
  (forall c, p c = q c) -> str_dropWhile p s = str_dropWhile q s.
Proof.
  intros H. induction s as [|x s IH]; [reflexivity |].
  cbn [str_dropWhile]. now rewrite (H x), IH.
Qed.

Lemma find_ext (p q : ascii -> bool) (s : string) :
  (forall c, p c = q c) ->
  regexp_FindStringSubmatch (re_of p) s = regexp_FindStringSubmatch (re_of q) s.
Proof.
  intros H.
  assert (D : forall t, direct_match p t = direct_match q t).
  { intros t. unfold direct_match.
    destruct (strings_HasPrefix t documentsPrefix); [| reflexivity].
    destruct (str_takeWhile class_digit _); [reflexivity |].
    destruct (str_dropWhile class_digit _) as [|c r2]; [reflexivity |].
    now rewrite (takeWhile_ext p q r2 H), (dropWhile_ext p q r2 H). }
  induction s as [|x s IH]; cbn [regexp_FindStringSubmatch];
    rewrite !match_here_direct, D; [reflexivity |].
  destruct (direct_match q (String x s)) as [[[d sl] post]|]; [reflexivity | exact IH].
Qed.

(** The two programs resolve alike: their patterns differ in spelling only. *)
Lemma Redirect_resolves_alike (input : string) :
  Redirect.ExtractFinalDocumentCloudURL input = extractFinalDocumentCloudURL input.
Proof.
  unfold Redirect.ExtractFinalDocumentCloudURL, extractFinalDocumentCloudURL.
  change Redirect.re_documentcloud with (re_of class_word_hyphen).
  change re_documentcloud with (re_of class_slug).
  now rewrite (find_ext _ _ input class_word_hyphen_slug).
Qed.


Lemma extract_resolution (input : string) :
  resolution input (extractFinalDocumentCloudURL input).
Proof.
  unfold extractFinalDocumentCloudURL.
  destruct (url_Parse input) as [u|e] eqn:P; [| now apply (res_unparseable _ e)].
  change "s3.documentcloud.org" with marker.
  destruct (strings_Contains (Host u) marker) eqn:C;
    [now apply (res_already_final _ u) |].
  change re_documentcloud with (re_of class_slug).
  destruct (find_spec class_slug input) as [[-> Hno] | (d & sl & -> & Hll)].
  - now apply (res_no_match _ u).
  - rewrite Sprintf_storageURL. now apply (res_rewritten _ u).
Qed.

Lemma storageURL_nonempty (docID slug : string) : storageURL docID slug <> EmptyString.
Proof. discriminate. Qed.

Lemma leftmost_longest_classes (cls : ascii -> bool) (input docID slug : string) :
  leftmost_longest cls input docID slug ->
  str_all class_digit docID = true /\ str_all cls slug = true.
Proof. intros (pre & post & (_ & _ & Hd & _ & Hs) & _). now split. Qed.

(** A resolved URL parses, and its host contains the marker. *)
Lemma resolved_parses (input : string) :
  extractFinalDocumentCloudURL input <> EmptyString ->
  exists u, url_Parse (extractFinalDocumentCloudURL input) = Ok u
            /\ strings_Contains (Host u) marker = true.
Proof.
  intros Hne. destruct (extract_resolution input) as [e P | u P C | u P C N | u d sl P C L];
    try congruence.
  - now exists u.
  - destruct (leftmost_longest_classes _ _ _ _ L) as [Hd Hs].
    rewrite (url_Parse_storageURL class_slug d sl class_slug_plain Hd Hs).
    eexists. split; [reflexivity | reflexivity].
Qed.


(** C1.  A candidate that contains the pattern
    [documentcloud.org/documents/<digits>-<slug>], that parses as a URL and
    whose host does not contain [s3.documentcloud.org] resolves to exactly
    [https://s3.documentcloud.org/documents/<digits>/<slug>.pdf], where
    <digits> and <slug> are those of the leftmost occurrence of the pattern,
    the slug taken as long as it can be (so, when the occurrence at hand is
    that one, its own digits and slug); the companion program resolves
    alike; and the example of the specification resolves as it says. *)
Theorem C1_pattern_resolver_builds_storage_url :
  (forall input u pre digits slug post,
     occurs_at class_slug input pre digits slug post ->
     url_Parse input = Ok u ->
     strings_Contains (Host u) marker = false ->
     exists docID slug',
       leftmost_longest class_slug input docID slug'
       /\ extractFinalDocumentCloudURL input = storageURL docID slug'
       /\ Redirect.ExtractFinalDocumentCloudURL input = storageURL docID slug')
  /\ (forall input u pre digits slug post,
        occurs_at class_slug input pre digits slug post ->
        not_headed_by class_slug post ->
        (forall pre2 d2 sl2 post2,
           occurs_at class_slug input pre2 d2 sl2 post2 ->
           (String.length pre <= String.length pre2)%nat) ->
        url_Parse input = Ok u ->
        strings_Contains (Host u) marker = false ->
        extractFinalDocumentCloudURL input = storageURL digits slug
        /\ Redirect.ExtractFinalDocumentCloudURL input = storageURL digits slug)
  /\ extractFinalDocumentCloudURL exampleInput = exampleOutput.
Proof.
  split; [| split; [| reflexivity]].
  - intros input u pre digits slug post Hocc P C.
    rewrite Redirect_resolves_alike.
    destruct (extract_resolution input)
      as [e P' | u' P' C' | u' P' C' N | u' d sl P' C' L]; try congruence.
    + exfalso. exact (N _ _ _ _ Hocc).
    + exists d, sl. now repeat split.
  - intros input u pre digits slug post Hocc Hpost Hmin P C.
    rewrite Redirect_resolves_alike.
    assert (E : extractFinalDocumentCloudURL input = storageURL digits slug).
    { unfold extractFinalDocumentCloudURL. rewrite P.
      change "s3.documentcloud.org" with marker. rewrite C.
      change re_documentcloud with (re_of class_slug).
      rewrite (find_exact class_slug pre input digits slug post Hocc Hpost Hmin).
      apply Sprintf_storageURL. }
    now split.
Qed.

Lemma C1_pattern_resolver_builds_storage_url_witness :
  extractFinalDocumentCloudURL exampleInput
  = storageURL "23461534" "200301254_redactedclosingreport_redacted"
  /\ Redirect.ExtractFinalDocumentCloudURL exampleInput
     = storageURL "23461534" "200301254_redactedclosingreport_redacted".
Proof.
  refine (proj1 (proj2 C1_pattern_resolver_builds_storage_url) exampleInput
            (mkURL "https" EmptyString None "www.documentcloud.org"
               "/documents/23461534-200301254_redactedclosingreport_redacted"
               false EmptyString EmptyString)
            "https://www." "23461534" "200301254_redactedclosingreport_redacted"
            EmptyString _ _ _ _ _).
  - unfold occurs_at. repeat split; try reflexivity; discriminate.
  - exact I.
  - intros pre2 d2 sl2 post2 (E & _). unfold exampleInput in E.
    do 12 (destruct pre2 as [|? pre2];
           [cbn in E; discriminate E | cbn in E; injection E as _ E]).
    cbn. lia.
  - reflexivity.
  - reflexivity.
Defined.

(** C2.  A candidate that parses as a URL whose host contains
    [s3.documentcloud.org] is returned unchanged; hence resolving a
    non-empty resolution again gives it back, in both programs. *)
Theorem C2_already_final_is_unchanged :
  (forall input u,
     url_Parse input = Ok u ->
     strings_Contains (Host u) marker = true ->
     extractFinalDocumentCloudURL input = input)
  /\ (forall x,
        extractFinalDocumentCloudURL x <> EmptyString ->
        extractFinalDocumentCloudURL (extractFinalDocumentCloudURL x)
        = extractFinalDocumentCloudURL x)
  /\ (forall x,
        Redirect.ExtractFinalDocumentCloudURL x <> EmptyString ->
        Redirect.ExtractFinalDocumentCloudURL
          (Redirect.ExtractFinalDocumentCloudURL x)
        = Redirect.ExtractFinalDocumentCloudURL x).
Proof.
  assert (H1 : forall input u,
             url_Parse input = Ok u ->
             strings_Contains (Host u) marker = true ->
             extractFinalDocumentCloudURL input = input).
  { intros input u P C. unfold extractFinalDocumentCloudURL.
    rewrite P. change "s3.documentcloud.org" with marker. now rewrite C. }
  assert (H2 : forall x,
             extractFinalDocumentCloudURL x <> EmptyString ->
             extractFinalDocumentCloudURL (extractFinalDocumentCloudURL x)
             = extractFinalDocumentCloudURL x).
  { intros x Hne. destruct (resolved_parses x Hne) as (u & P & C).
    exact (H1 _ u P C). }
  split; [exact H1 |]. split; [exact H2 |].
  intros x. rewrite !Redirect_resolves_alike. apply H2.
Qed.

Lemma C2_already_final_is_unchanged_witness :
  extractFinalDocumentCloudURL "https://s3.documentcloud.org/documents/1/a.pdf"
  = "https://s3.documentcloud.org/documents/1/a.pdf"
  /\ extractFinalDocumentCloudURL (extractFinalDocumentCloudURL exampleInput)
     = extractFinalDocumentCloudURL exampleInput.
Proof.
  split.
  - refine (proj1 C2_already_final_is_unchanged _
              (mkURL "https" EmptyString None marker "/documents/1/a.pdf"
                     false EmptyString EmptyString) _ _); reflexivity.
  - apply (proj1 (proj2 C2_already_final_is_unchanged) exampleInput). discriminate.
Defined.

(** C3 (counterexample).  The host of
    [https://s3.documentcloud.org.evil.com/x] contains the marker, so the
    resolver hands the candidate back: a non-empty result that is a valid
    URL and points at another host than [s3.documentcloud.org]. *)
Lemma C3_a_marked_host_need_not_be_the_storage_host :
  extractFinalDocumentCloudURL lookalikeURL = lookalikeURL
  /\ extractFinalDocumentCloudURL lookalikeURL <> EmptyString
  /\ exists u, url_Parse (extractFinalDocumentCloudURL lookalikeURL) = Ok u
               /\ url_Hostname u = "s3.documentcloud.org.evil.com"
               /\ url_Hostname u <> marker.
Proof.
  split; [reflexivity |]. split; [discriminate |].
  eexists. split; [reflexivity |]. split; [reflexivity | discriminate].
Qed.

(** C3 (amended).  A non-empty result parses as a URL whose host contains
    [s3.documentcloud.org], and whose host is [s3.documentcloud.org] itself
    when the result is not the candidate handed back; the result is empty
    exactly when the candidate does not parse, or when its host does not
    contain the marker and the pattern occurs nowhere in it. *)
Theorem C3_nonempty_resolution_parses_on_a_marked_host :
  forall input,
    (extractFinalDocumentCloudURL input <> EmptyString ->
     exists u,
       url_Parse (extractFinalDocumentCloudURL input) = Ok u
       /\ strings_Contains (Host u) marker = true
       /\ (extractFinalDocumentCloudURL input <> input -> Host u = marker))
    /\ (extractFinalDocumentCloudURL input = EmptyString <->
        (exists e, url_Parse input = Err e)
        \/ (exists u,
              url_Parse input = Ok u
              /\ strings_Contains (Host u) marker = false
              /\ forall pre d sl post,
                   ~ occurs_at class_slug input pre d sl post)).
Proof.
  intros input.
  destruct (extract_resolution input) as [e P | u P C | u P C N | u d sl P C L].
  - split; [congruence |]. split; [eauto | reflexivity].
  - split.
    + intros _. exists u. split; [exact P |]. split; [exact C | congruence].
    + split.
      * intros ->. vm_compute in P. injection P as <-. discriminate C.
      * intros [[e E] | (u' & P' & C' & _)]; congruence.
  - split; [congruence |]. split; [| reflexivity].
    intros _. right. exists u. now repeat split.
  - destruct (leftmost_longest_classes _ _ _ _ L) as [Hd Hs].
    pose proof (url_Parse_storageURL class_slug d sl class_slug_plain Hd Hs) as PS.
    split.
    + intros _. eexists. split; [exact PS |]. split; reflexivity.
    + split; [intros E; destruct (storageURL_nonempty _ _ E) |].
      intros [[e E] | (u' & P' & C' & N)]; [congruence |].
      destruct L as (pre & post & Hocc & _). destruct (N _ _ _ _ Hocc).
Qed.

Lemma C3_nonempty_resolution_parses_on_a_marked_host_witness :
  exists u,
    url_Parse (extractFinalDocumentCloudURL exampleInput) = Ok u
    /\ strings_Contains (Host u) marker = true
    /\ (extractFinalDocumentCloudURL exampleInput <> exampleInput -> Host u = marker).
Proof.
  apply (proj1 (C3_nonempty_resolution_parses_on_a_marked_host exampleInput)).
  discriminate.
Defined.

(* ===================================================================== *)
(** ** The filesystem *)
(* ===================================================================== *)

Lemma only_dirs_refl (fs : filesystem) : only_dirs_added fs fs.
Proof. intros p. now left. Qed.

Lemma only_dirs_trans (fs1 fs2 fs3 : filesystem) :
  only_dirs_added fs1 fs2 -> only_dirs_added fs2 fs3 -> only_dirs_added fs1 fs3.
Proof.
  intros H12 H23 p. destruct (H12 p) as [E12 | [N1 D2]], (H23 p) as [E23 | [N2 D3]].
  - left. congruence.
  - right. split; congruence.
  - right. split; congruence.
  - congruence.
Qed.

Lemma lookup_node_None (fs : filesystem) (p : string) :
  lookup_node fs p = None -> fs !! p = None.
Proof. unfold lookup_node. now destruct (isAnchor p). Qed.

Lemma os_Mkdir_only_dirs (env : Env) (fs fs2 : filesystem) (name : string) :
  os_Mkdir env fs name = Some fs2 -> only_dirs_added fs fs2.
Proof.
  unfold os_Mkdir. destruct (negb (validPath name)); [discriminate |].
  destruct (lookup_node fs (filepath_Clean name)) eqn:L; [discriminate |].
  destruct (lookup_node fs (parentDir _)) as [[|]|]; try discriminate.
  destruct (mkdir_denied env _); [discriminate |].
  intros H. injection H as <-. intros p.
  destruct (decide (filepath_Clean name = p)) as [<- | Hne].
  - right. split; [now apply lookup_node_None | apply lookup_insert_eq].
  - left. now apply lookup_insert_ne.
Qed.

Lemma MkdirAll_fuel_only_dirs (n : nat) (env : Env) :
  forall (fs : filesystem) (path : string),
    only_dirs_added fs (fst (MkdirAll_fuel n env fs path)).
Proof.
  induction n as [|n IH]; intros fs path; cbn [MkdirAll_fuel];
    destruct (os_Stat fs path) as [[c|]|]; try apply only_dirs_refl.
  assert (H1 : only_dirs_added fs
                 (fst (if String.eqb (mkdirParent path) EmptyString
                       then (fs, true)
                       else MkdirAll_fuel n env fs (mkdirParent path)))).
  { destruct (String.eqb (mkdirParent path) EmptyString);
      [apply only_dirs_refl | apply IH]. }
  destruct (if String.eqb (mkdirParent path) EmptyString then _ else _)
    as [fs1 ok]. cbn [fst] in H1.
  destruct ok; cbn [negb]; [| exact H1].
  destruct (os_Mkdir env fs1 path) as [fs2|] eqn:M.
  - cbn [fst]. exact (only_dirs_trans _ _ _ H1 (os_Mkdir_only_dirs _ _ _ _ M)).
  - now destruct (os_Stat fs1 path) as [[c|]|].
Qed.

Lemma os_MkdirAll_only_dirs (env : Env) (fs : filesystem) (path : string) :
  only_dirs_added fs (fst (os_MkdirAll env fs path)).
Proof. apply MkdirAll_fuel_only_dirs. Qed.

Lemma os_Stat_file_kept (fs fs' : filesystem) (name content : string) :
  only_dirs_added fs fs' ->
  os_Stat fs name = Some (File content) -> os_Stat fs' name = Some (File content).
Proof.
  intros H. unfold os_Stat, lookup_node.
  destruct (validPath name); [| discriminate].
  destruct (isAnchor _); [discriminate |].
  intros E. destruct (H (filepath_Clean name)) as [-> | [N _]]; congruence.
Qed.

Lemma os_Stat_dir_kept (fs fs' : filesystem) (name : string) :
  only_dirs_added fs fs' ->
  os_Stat fs name = Some Dir -> os_Stat fs' name = Some Dir.
Proof.
  intros H. unfold os_Stat, lookup_node.
  destruct (validPath name); [| discriminate].
  destruct (isAnchor _); [reflexivity |].
  intros E. destruct (H (filepath_Clean name)) as [-> | [N _]]; congruence.
Qed.

(** A call of [os.MkdirAll] that succeeds leaves a directory at the path. *)
Lemma MkdirAll_fuel_ok (n : nat) (env : Env) (fs fs' : filesystem) (path : string) :
  MkdirAll_fuel n env fs path = (fs', true) -> os_Stat fs' path = Some Dir.
Proof.
  destruct n as [|n]; cbn [MkdirAll_fuel];
    destruct (os_Stat fs path) as [[c|]|] eqn:S0; try discriminate;
    try (intros H; injection H as <-; exact S0).
  destruct (if String.eqb (mkdirParent path) EmptyString then _ else _)
    as [fs1 ok].
  destruct ok; cbn [negb]; [| discriminate].
  destruct (os_Mkdir env fs1 path) as [fs2|] eqn:M.
  - intros H. injection H as <-. revert M. unfold os_Mkdir, os_Stat.
    destruct (validPath path); cbn [negb]; [| discriminate].
    destruct (lookup_node fs1 (filepath_Clean path)); [discriminate |].
    destruct (lookup_node fs1 (parentDir _)) as [[|]|]; try discriminate.
    destruct (mkdir_denied env _); [discriminate |].
    intros H. injection H as <-. unfold lookup_node.
    destruct (isAnchor _); [reflexivity | apply lookup_insert_eq].
  - destruct (os_Stat fs1 path) as [[c|]|] eqn:S1; try discriminate.
    intros H. injection H as <-. exact S1.
Qed.

(** On a directory that is there, [os.MkdirAll] does nothing. *)
Lemma os_MkdirAll_existing (env : Env) (fs : filesystem) (path : string) :
  os_Stat fs path = Some Dir -> os_MkdirAll env fs path = (fs, true).
Proof. intros H. unfold os_MkdirAll. cbn [MkdirAll_fuel]. now rewrite H. Qed.

Lemma fileExists_Stat (fs : filesystem) (name : string) :
  fileExists fs name = true <-> exists content, os_Stat fs name = Some (File content).
Proof.
  unfold fileExists. destruct (os_Stat fs name) as [[c|]|]; split;
    try discriminate; try (intros [c' H]; discriminate).
  - intros _. now exists c.
  - reflexivity.
Qed.

Lemma count_events_app (p : event -> bool) (t1 t2 : list event) :
  count_events p (t1 ++ t2) = (count_events p t1 + count_events p t2)%nat.
Proof.
  induction t1 as [|e t1 IH]; cbn [count_events app]; [reflexivity |].
  rewrite IH. lia.
Qed.

(* ===================================================================== *)
(** ** The batch driver and the fetcher *)
(* ===================================================================== *)

Lemma path_Base_nonempty (path : string) : path_Base path <> EmptyString.
Proof.
  unfold path_Base. destruct (String.eqb path EmptyString); [discriminate |].
  match goal with |- (if String.eqb ?x _ then _ else _) <> _ =>
    destruct (String.eqb_spec x EmptyString) as [E | E]; [discriminate | exact E]
  end.
Qed.

Lemma set_fs_same (w : World) : set_fs w (fs w) = w.
Proof. now destruct w. Qed.

(** C5.  On a candidate the driver processes (the cap is not reached): an
    empty resolution is logged, the fetcher is not called and the counter
    stays; otherwise the resolution parses, and either the file the driver
    looks for is there, which is logged and not counted, or the fetcher is
    called and the counter goes up by one, whatever the fetcher does. *)
Theorem C5_driver_counts_attempts :
  forall (env : Env) (dir : string) (cap : Z) (url : string) (w : World) (n : Z),
    (n < cap)%Z ->
    let finalURL := extractFinalDocumentCloudURL url in
    (finalURL = EmptyString
     /\ loop_body env dir cap url w n = (Next, log_Printf w (MsgUnrecognized url), n))
    \/ (finalURL <> EmptyString
        /\ exists u,
             urlParseSafe finalURL = Ok u
             /\ let filePath := filepath_Join [dir; driverFileName u] in
                (fileExists (fs w) filePath = true
                 /\ loop_body env dir cap url w n
                    = (Next, log_Printf w (MsgNotCounted filePath), n))
                \/ (fileExists (fs w) filePath = false
                    /\ loop_body env dir cap url w n
                       = (Next, downloadPDF env finalURL dir w, (n + 1)%Z))).
Proof.
  intros env dir cap url w n Hn finalURL. unfold loop_body.
  destruct (Z.geb_spec n cap) as [Hge | _]; [lia |].
  fold finalURL.
  destruct (String.eqb_spec finalURL EmptyString) as [E | E]; [now left |].
  right. split; [exact E |].
  destruct (resolved_parses url E) as (u & P & _). fold finalURL in P.
  exists u. unfold urlParseSafe. rewrite P. split; [reflexivity |].
  unfold driverFileName.
  destruct (String.eqb_spec (path_Base (Path u)) EmptyString) as [B | _];
    [destruct (path_Base_nonempty _ B) |].
  cbv zeta.
  destruct (fileExists (fs w) (filepath_Join [dir; path_Base (Path u)]));
    [left | right]; now split.
Qed.


Lemma C5_driver_counts_attempts_witness :
  loop_body offline pdfDir maxDownloads exampleInput emptyWorld 0
  = (Next, downloadPDF offline exampleOutput pdfDir emptyWorld, 1%Z).
Proof.
  destruct (C5_driver_counts_attempts offline pdfDir maxDownloads exampleInput
              emptyWorld 0 ltac:(reflexivity))
    as [[E _] | (_ & u & P & [[E _] | [_ R]])].
  - discriminate E.
  - vm_compute in P. injection P as Hu. subst u. vm_compute in E. discriminate E.
  - exact R.
Defined.


(** C6 (the code at the failing input).  For the already-final URL
    [https://s3.documentcloud.org/documents/2/b] the driver looks for [b]
    and the fetcher for [b.pdf]; with [NYPD_PDF/b.pdf] on disk the driver
    finds nothing, calls the fetcher, which skips, and counts a download. *)
Theorem C6_driver_and_fetcher_derive_different_names :
  extractFinalDocumentCloudURL passthroughURL = passthroughURL
  /\ exists u,
       url_Parse passthroughURL = Ok u
       /\ driverFileName u = "b"
       /\ fetchFileName u = Some "b.pdf"
       /\ fileExists shelf (filepath_Join [pdfDir; driverFileName u]) = false
       /\ fileExists shelf (filepath_Join [pdfDir; "b.pdf"]) = true
       /\ forall env : Env,
            loop_body env pdfDir maxDownloads passthroughURL (mkWorld shelf []) 0
            = (Next, mkWorld shelf [EvLog (MsgFileExists "NYPD_PDF/b.pdf")], 1%Z).
Proof.
  split; [reflexivity |].
  eexists. split; [reflexivity |].
  repeat split; try reflexivity.
Qed.

(** The names agree whenever the last element of the path ends in [.pdf]
    already, as it does for every URL the pattern resolver builds. *)
Lemma names_agree_with_pdf_suffix (u : URL) :
  strings_HasSuffix (strings_ToLower (path_Base (Path u))) ".pdf" = true ->
  path_Base (Path u) <> "/" ->
  fetchFileName u = Some (driverFileName u).
Proof.
  intros H Hroot. unfold fetchFileName, driverFileName. rewrite H.
  destruct (String.eqb_spec (path_Base (Path u)) EmptyString) as [B | _];
    [destruct (path_Base_nonempty _ B) |].
  destruct (String.eqb_spec (path_Base (Path u)) "/") as [B | _];
    [congruence | reflexivity].
Qed.

(* ===================================================================== *)
(** ** The two file names on a rewritten URL *)
(* ===================================================================== *)

Lemma trimRight_app_keep (p : ascii -> bool) (a b : string) :
  trimRight p b <> EmptyString -> trimRight p (a +:+ b) = a +:+ trimRight p b.
Proof.
  intros Hb. induction a as [|c a IH]; [reflexivity |].
  cbn [String.append trimRight]. rewrite IH.
  destruct (a +:+ trimRight p b) eqn:E; [| reflexivity].
  destruct a; [| discriminate E]. cbn in E. congruence.
Qed.

Lemma LastIndex_none (s : string) :
  str_all notSlash s = true -> strings_LastIndex s "/" = None.
Proof.
  induction s as [|c s IH]; [reflexivity |]. cbn [str_all].
  intros H. apply andb_true_iff in H as [Hc Hs].
  cbn [strings_LastIndex strings_HasPrefix]. rewrite (IH Hs).
  unfold notSlash, isSlash in Hc. now destruct (Ascii.eqb c "/").
Qed.

Lemma LastIndex_app_slash (a b : string) :
  str_all notSlash b = true ->
  strings_LastIndex (a +:+ String "/" b) "/" = Some (String.length a).
Proof.
  intros Hb. induction a as [|c a IH].
  - cbn [String.append strings_LastIndex String.length].
    now rewrite (LastIndex_none b Hb).
  - cbn [String.append strings_LastIndex String.length]. now rewrite IH.
Qed.

Lemma HasSuffix_app (a b : string) : strings_HasSuffix (a +:+ b) b = true.
Proof.
  unfold strings_HasSuffix. rewrite length_append.
  replace (String.length a + String.length b - String.length b)%nat
    with (String.length a) by lia.
  rewrite str_drop_app, String.eqb_refl.
  apply andb_true_iff. split; [apply Nat.leb_le; lia | reflexivity].
Qed.

Lemma ToLower_app (a b : string) :
  strings_ToLower (a +:+ b) = strings_ToLower a +:+ strings_ToLower b.
Proof. induction a as [|c a IH]; cbn; [reflexivity | now rewrite IH]. Qed.

Lemma class_digit_notSlash (c : ascii) : class_digit c = true -> notSlash c = true.
Proof. by_bytes c. Qed.

Lemma class_slug_notSlash (c : ascii) : class_slug c = true -> notSlash c = true.
Proof. by_bytes c. Qed.

Lemma path_Base_last (a b : string) :
  b <> EmptyString -> str_all notSlash b = true ->
  path_Base (a +:+ String "/" b) = b.
Proof.
  intros Hne Hb. unfold path_Base.
  assert (Hkeep : trimRight isSlash b = b).
  { clear Hne. induction b as [|c b IH]; [reflexivity |].
    cbn [str_all] in Hb. apply andb_true_iff in Hb as [Hc Hb].
    cbn [trimRight]. rewrite (IH Hb).
    unfold notSlash in Hc. destruct b; [| reflexivity].
    now destruct (isSlash c). }
  assert (Hne' : trimRight isSlash b <> EmptyString) by now rewrite Hkeep.
  replace (a +:+ String "/" b) with ((a +:+ "/") +:+ b)
    by (now rewrite append_assoc).
  rewrite (trimRight_app_keep isSlash (a +:+ "/") b Hne'), Hkeep.
  rewrite append_assoc. cbn [String.append].
  rewrite (LastIndex_app_slash a b Hb).
  replace (str_drop (S (String.length a)) (a +:+ String "/" b)) with b.
  - destruct (String.eqb_spec (a +:+ String "/" b) EmptyString) as [E | _].
    + destruct a; discriminate E.
    + destruct (String.eqb_spec b EmptyString); congruence.
  - replace (S (String.length a)) with (String.length (a +:+ "/"))
      by (rewrite length_append; cbn; lia).
    replace (a +:+ String "/" b) with ((a +:+ "/") +:+ b)
      by (now rewrite append_assoc).
    now rewrite str_drop_app.
Qed.

(** On a URL the resolver has built, the driver and the fetcher derive the
    same file name, [<slug>.pdf]. *)
Lemma rewritten_names_agree (docID slug : string) :
  str_all class_digit docID = true -> str_all class_slug slug = true ->
  exists u,
    url_Parse (storageURL docID slug) = Ok u
    /\ driverFileName u = slug +:+ ".pdf"
    /\ fetchFileName u = Some (slug +:+ ".pdf").
Proof.
  intros Hd Hs.
  rewrite (url_Parse_storageURL class_slug docID slug class_slug_plain Hd Hs).
  eexists. split; [reflexivity |].
  assert (B : path_Base ("/documents/" +:+ docID +:+ "/" +:+ slug +:+ ".pdf")
              = slug +:+ ".pdf").
  { replace ("/documents/" +:+ docID +:+ "/" +:+ slug +:+ ".pdf")
      with (("/documents/" +:+ docID) +:+ String "/" (slug +:+ ".pdf"))
      by (now rewrite append_assoc).
    apply path_Base_last.
    - destruct slug; discriminate.
    - rewrite str_all_app, (str_all_impl _ _ _ class_slug_notSlash Hs).
      reflexivity. }
  unfold driverFileName, fetchFileName. cbn [Path]. rewrite B.
  split; [reflexivity |].
  rewrite ToLower_app. change (strings_ToLower ".pdf") with ".pdf".
  rewrite HasSuffix_app. cbn [negb].
  destruct (String.eqb_spec (slug +:+ ".pdf") EmptyString) as [E | _];
    [destruct slug; discriminate E |].
  destruct (String.eqb_spec (slug +:+ ".pdf") "/") as [E | _]; [| reflexivity].
  apply (f_equal String.length) in E. rewrite length_append in E. cbn in E. lia.
Qed.

(** The companion's [downloadPDF] does not look for the file first: it asks
    the network and writes over what is there. *)
Example Redirect_downloadPDF_writes_over_the_file :
  Redirect.downloadPDF serving passthroughURL "NYPD_PDF" (mkWorld shelf [])
  = mkWorld (<["NYPD_PDF/b.pdf" := File "%PDF-1.7 new"]> shelf)
      [EvGet passthroughURL;
       EvLog (MsgOriginalURL
                (mkURL "https" EmptyString None marker "/documents/2/b"
                       false EmptyString EmptyString));
       EvLog (MsgFinalURL passthroughURL);
       EvCreate "NYPD_PDF/b.pdf";
       EvLog (MsgDownloaded "NYPD_PDF/b.pdf")].
Proof.
  reflexivity.
Qed.

(** The companion's [downloadPDF] calls [http.Get] for every URL that
    parses, before it looks at the disk. *)
Lemma Redirect_downloadPDF_requests (env : Env) (rawURL outputDir : string)
    (w : World) (u : URL) :
  url_Parse rawURL = Ok u ->
  requests (Redirect.downloadPDF env rawURL outputDir w) = S (requests w).
Proof.
  intros P. unfold Redirect.downloadPDF. rewrite P.
  destruct (http_Get env (requests w) rawURL) as [err | sc st ru body be].
  2: destruct (negb (sc =? http_StatusOK)%Z).
  3: destruct (url_Parse ru) as [fu|e].
  3: destruct (fetchFileName fu) as [fileName|].
  3: destruct (os_MkdirAll env _ outputDir) as [fs1 ok]; destruct ok; cbn [negb].
  3: destruct (os_Create env _ _) as [fs2|].
  3: destruct (io_Copy env _ _ body be) as [fs3 copied]; destruct copied;
       cbn [negb].
  all: unfold requests, log_Printf, emit, set_fs; cbn [trace fs];
    rewrite ?count_events_app; cbn [count_events isGet]; lia.
Qed.

(** The world the companion's [downloadPDF] leaves after a good answer
    written in full. *)
Lemma Redirect_downloadPDF_stores (env : Env) (rawURL outputDir : string)
    (w : World) (parsedURL finalParsed : URL) (fileName : string)
    (fs1 fs2 : filesystem) (Status finalURL body : string) :
  url_Parse rawURL = Ok parsedURL ->
  http_Get env (requests w) rawURL
  = GetResponse http_StatusOK Status finalURL body false ->
  url_Parse finalURL = Ok finalParsed ->
  fetchFileName finalParsed = Some fileName ->
  os_MkdirAll env (fs w) outputDir = (fs1, true) ->
  os_Create env fs1 (filepath_Join [outputDir; fileName]) = Some fs2 ->
  write_limit env (filepath_Clean (filepath_Join [outputDir; fileName])) = None ->
  Redirect.downloadPDF env rawURL outputDir w
  = mkWorld (<[filepath_Clean (filepath_Join [outputDir; fileName])
               := File body]> fs2)
      (trace w ++ [EvGet rawURL;
                   EvLog (MsgOriginalURL parsedURL);
                   EvLog (MsgFinalURL finalURL);
                   EvCreate (filepath_Join [outputDir; fileName]);
                   EvLog (MsgDownloaded (filepath_Join [outputDir; fileName]))]).
Proof.
  intros P G FP F M C L.
  unfold Redirect.downloadPDF. rewrite P, G.
  cbn [Z.eqb http_StatusOK Pos.eqb negb]. rewrite FP, F.
  unfold log_Printf, emit, set_fs. cbn [fs trace]. rewrite M. cbn [negb].
  rewrite C. unfold io_Copy.
  rewrite L, str_take_all, Nat.eqb_refl. cbn [andb negb fs trace].
  now rewrite <- !app_assoc.
Qed.

(** C7 (counterexample).  The companion's [downloadPDF] on a disk that holds
    [NYPD_PDF/b.pdf], for a URL whose derived name is [b.pdf]: it calls
    [http.Get] all the same, and the file ends with another content than it
    had. *)
Lemma C7_companion_fetches_and_writes_over_an_existing_file :
  (exists u, url_Parse passthroughURL = Ok u /\ fetchFileName u = Some "b.pdf")
  /\ os_Stat shelf (filepath_Join ["NYPD_PDF"; "b.pdf"])
     = Some (File "%PDF-1.4 old")
  /\ requests (Redirect.downloadPDF serving passthroughURL "NYPD_PDF"
                 (mkWorld shelf []))
     <> requests (mkWorld shelf [])
  /\ os_Stat (fs (Redirect.downloadPDF serving passthroughURL "NYPD_PDF"
                    (mkWorld shelf [])))
             (filepath_Join ["NYPD_PDF"; "b.pdf"])
     <> os_Stat shelf (filepath_Join ["NYPD_PDF"; "b.pdf"]).
Proof.
  split; [eexists; split; reflexivity |].
  split; [reflexivity |].
  split; vm_compute; discriminate.
Qed.

(** C7 (amended).  When the path the fetcher derives holds a regular file:

    - [downloadPDF] of the batch program, which looks for the file before it
      asks the network, appends one log line to the trace and nothing else
      (no call of [http.Get], no creation); the file keeps its content; the
      filesystem can differ at most by directories [os.MkdirAll] made, which
      runs before the check; and the world it leaves is the one
      [os.MkdirAll] left, with the line that the file exists (or, had
      [os.MkdirAll] failed, the line that says so);

    - the companion's [downloadPDF], which has no such check, calls
      [http.Get] whatever is on disk, and when the answer is 200, the URL
      the redirects ended at gives the same file name and the body is
      written in full, the file holds the body and no longer what it
      held. *)
Theorem C7_fetcher_skips_an_existing_file_the_companion_does_not :
  forall (env : Env) (finalURL outputDir : string) (w : World)
         (u : URL) (fileName content : string),
    url_Parse finalURL = Ok u ->
    fetchFileName u = Some fileName ->
    os_Stat (fs w) (filepath_Join [outputDir; fileName]) = Some (File content) ->
    let filePath := filepath_Join [outputDir; fileName] in
    let w' := downloadPDF env finalURL outputDir w in
    let r := Redirect.downloadPDF env finalURL outputDir w in
    ((exists m, trace w' = trace w ++ [EvLog m])
     /\ requests w' = requests w
     /\ os_Stat (fs w') filePath = Some (File content)
     /\ only_dirs_added (fs w) (fs w')
     /\ (forall fs1 ok,
           os_MkdirAll env (fs w) outputDir = (fs1, ok) ->
           w' = log_Printf (set_fs w fs1)
                  (if ok then MsgFileExists filePath
                   else MsgMkdirFailed outputDir)))
    /\ (requests r = S (requests w)
        /\ forall (finalParsed : URL) (fs1 fs2 : filesystem)
                  (Status requestURL body : string),
             http_Get env (requests w) finalURL
             = GetResponse http_StatusOK Status requestURL body false ->
             url_Parse requestURL = Ok finalParsed ->
             fetchFileName finalParsed = Some fileName ->
             os_MkdirAll env (fs w) outputDir = (fs1, true) ->
             os_Create env fs1 filePath = Some fs2 ->
             write_limit env (filepath_Clean filePath) = None ->
             trace r = trace w ++ [EvGet finalURL;
                                   EvLog (MsgOriginalURL u);
                                   EvLog (MsgFinalURL requestURL);
                                   EvCreate filePath;
                                   EvLog (MsgDownloaded filePath)]
             /\ os_Stat (fs r) filePath = Some (File body)).
Proof.
  intros env finalURL outputDir w u fileName content P F S filePath w' r.
  split.
  - subst w'. unfold downloadPDF. rewrite P, F.
    pose proof (os_MkdirAll_only_dirs env (fs w) outputDir) as Hdirs.
    destruct (os_MkdirAll env (fs w) outputDir) as [fs1 ok]. cbn [fst] in Hdirs.
    pose proof (os_Stat_file_kept _ _ _ _ Hdirs S) as S1.
    assert (E : fileExists fs1 filePath = true) by (apply fileExists_Stat; eauto).
    destruct ok; cbn [negb set_fs fs].
    + fold filePath. rewrite E. unfold log_Printf, emit, requests, set_fs.
      cbn [trace fs].
      split; [eauto |]. split; [rewrite count_events_app; cbn; lia |].
      split; [exact S1 |]. split; [exact Hdirs |].
      intros fs1' ok' M. now injection M as <- <-.
    + unfold log_Printf, emit, requests, set_fs. cbn [trace fs].
      split; [eauto |]. split; [rewrite count_events_app; cbn; lia |].
      split; [exact S1 |]. split; [exact Hdirs |].
      intros fs1' ok' M. now injection M as <- <-.
  - split; [exact (Redirect_downloadPDF_requests env _ outputDir w u P) |].
    intros fu fs1 fs2 st ru body G FP FF M C L. subst r.
    rewrite (Redirect_downloadPDF_stores env finalURL outputDir w u fu fileName
               fs1 fs2 st ru body P G FP FF M C L).
    cbn [trace fs]. split; [reflexivity |].
    revert S. unfold os_Stat, lookup_node. fold filePath.
    destruct (validPath filePath); [| discriminate].
    destruct (isAnchor (filepath_Clean filePath)); [discriminate |].
    intros _. apply lookup_insert_eq.
Qed.

Lemma C7_fetcher_skips_an_existing_file_the_companion_does_not_witness :
  downloadPDF serving passthroughURL pdfDir (mkWorld shelf [])
  = log_Printf (mkWorld shelf []) (MsgFileExists "NYPD_PDF/b.pdf")
  /\ os_Stat (fs (Redirect.downloadPDF serving passthroughURL pdfDir
                    (mkWorld shelf [])))
             "NYPD_PDF/b.pdf"
     = Some (File "%PDF-1.7 new").
Proof.
  destruct (C7_fetcher_skips_an_existing_file_the_companion_does_not serving
              passthroughURL pdfDir (mkWorld shelf [])
              (mkURL "https" EmptyString None marker "/documents/2/b"
                     false EmptyString EmptyString)
              "b.pdf" "%PDF-1.4 old" eq_refl eq_refl eq_refl)
    as [(_ & _ & _ & _ & A) (_ & B)].
  split.
  - exact (A shelf true eq_refl).
  - exact (proj2
      (B (mkURL "https" EmptyString None marker "/documents/2/b"
                false EmptyString EmptyString)
         shelf (<["NYPD_PDF/b.pdf" := File EmptyString]> shelf)
         "200 OK" passthroughURL "%PDF-1.7 new"
         eq_refl eq_refl eq_refl eq_refl eq_refl eq_refl)).
Defined.


(** What [downloadPDF] appends to the trace: at most a GET and a creation,
    in that order, and then exactly one log line. *)
Lemma downloadPDF_trace (env : Env) (finalURL outputDir : string) (w : World) :
  exists evs m,
    trace (downloadPDF env finalURL outputDir w) = trace w ++ evs ++ [EvLog m]
    /\ (evs = [] \/ evs = [EvGet finalURL]
        \/ exists filePath, evs = [EvGet finalURL; EvCreate filePath]).
Proof.
  unfold downloadPDF.
  destruct (url_Parse finalURL) as [u|e];
    [| exists [], (MsgInvalidURL finalURL e); now split; [| left]].
  destruct (fetchFileName u) as [fileName|];
    [| exists [], (MsgNoFileName finalURL); now split; [| left]].
  destruct (os_MkdirAll env (fs w) outputDir) as [fs1 ok].
  destruct ok; cbn [negb];
    [| exists [], (MsgMkdirFailed outputDir); now split; [| left]].
  destruct (fileExists _ _);
    [eexists [], _; now split; [| left] |].
  destruct (http_Get env _ finalURL) as [err | sc st ru body be].
  { exists [EvGet finalURL], (MsgGetFailed finalURL err).
    cbn [log_Printf emit trace set_fs fs]. rewrite <- app_assoc. now split; [| right; left]. }
  destruct (negb (sc =? http_StatusOK)%Z).
  { exists [EvGet finalURL], (MsgBadStatus finalURL st).
    cbn [log_Printf emit trace set_fs fs]. rewrite <- app_assoc. now split; [| right; left]. }
  cbn [emit set_fs fs trace].
  destruct (os_Create env fs1 _) as [fs2|].
  2:{ eexists [EvGet finalURL], _.
      cbn [log_Printf emit trace set_fs fs]. rewrite <- app_assoc. now split; [| right; left]. }
  destruct (io_Copy env fs2 _ body be) as [fs3 copied].
  destruct copied; cbn [negb log_Printf emit trace set_fs fs];
    eexists [EvGet finalURL; EvCreate _], _; rewrite <- !app_assoc;
    (split; [reflexivity | right; right; eauto]).
Qed.




Lemma os_Create_spec (env : Env) (fs fs2 : filesystem) (name : string) :
  os_Create env fs name = Some fs2 ->
  validPath name = true
  /\ isAnchor (filepath_Clean name) = false
  /\ fs !! filepath_Clean name <> Some Dir
  /\ fs2 = <[filepath_Clean name := File EmptyString]> fs.
Proof.
  unfold os_Create, lookup_node.
  destruct (validPath name); cbn [negb]; [| discriminate].
  destruct (isAnchor (filepath_Clean name)); [discriminate |].
  destruct (fs !! filepath_Clean name) as [[c|]|] eqn:L; try discriminate;
    (destruct (if isAnchor (parentDir _) then _ else _) as [[|]|];
     try discriminate);
    (destruct (create_denied env _); [discriminate |]);
    intros H; injection H as <-; repeat split; congruence.
Qed.

(** C9.  When the file is created and the copy of the body then fails, the
    bytes written so far stay in the file: the fetcher logs the failure and
    returns, the file is there, and in any later world with these files
    (the next run) the fetcher takes it for downloaded and skips, whatever
    the network would answer. *)
Theorem C9_partial_file_is_left_and_skipped_next_time :
  forall (env : Env) (finalURL outputDir : string) (w : World)
         (u : URL) (fileName : string) (fs1 fs2 : filesystem)
         (Status requestURL body : string) (bodyErr : bool),
    url_Parse finalURL = Ok u ->
    fetchFileName u = Some fileName ->
    os_MkdirAll env (fs w) outputDir = (fs1, true) ->
    let filePath := filepath_Join [outputDir; fileName] in
    fileExists fs1 filePath = false ->
    http_Get env (requests w) finalURL
    = GetResponse http_StatusOK Status requestURL body bodyErr ->
    os_Create env fs1 filePath = Some fs2 ->
    snd (io_Copy env fs2 filePath body bodyErr) = false ->
    let w' := downloadPDF env finalURL outputDir w in
    trace w' = trace w ++ [EvGet finalURL; EvCreate filePath;
                           EvLog (MsgSaveFailed filePath)]
    /\ (exists n, (n <= String.length body)%nat
                  /\ os_Stat (fs w') filePath = Some (File (str_take n body)))
    /\ fileExists (fs w') filePath = true
    /\ forall (env2 : Env) (w2 : World),
         fs w2 = fs w' ->
         downloadPDF env2 finalURL outputDir w2
         = log_Printf w2 (MsgFileExists filePath).
Proof.
  intros env finalURL outputDir w u fileName fs1 fs2 st ru body be
         P F M filePath X G C K w'.
  destruct (os_Create_spec _ _ _ _ C) as (V & A & NotDir & ->).
  pose proof (MkdirAll_fuel_ok _ _ _ _ _ M) as D1.
  set (n := match write_limit env (filepath_Clean filePath) with
            | Some n => Nat.min n (String.length body)
            | None => String.length body
            end).
  set (fs3 := <[filepath_Clean filePath := File (str_take n body)]>
                (<[filepath_Clean filePath := File EmptyString]> fs1)).
  assert (W : w' = mkWorld fs3 (trace w ++ [EvGet finalURL; EvCreate filePath;
                                            EvLog (MsgSaveFailed filePath)])).
  { subst w'. unfold downloadPDF. rewrite P, F, M. cbn [negb].
    unfold requests, log_Printf, emit, set_fs in *. cbn [fs trace].
    fold filePath. rewrite X, G. cbn [Z.eqb http_StatusOK Pos.eqb negb].
    rewrite C. unfold io_Copy in K |- *. cbn [snd] in K. fold n in K |- *.
    rewrite K. cbn [negb]. fold fs3. now rewrite <- !app_assoc. }
  assert (S3 : os_Stat fs3 filePath = Some (File (str_take n body))).
  { unfold os_Stat, lookup_node. rewrite V, A. apply lookup_insert_eq. }
  assert (D3 : os_Stat fs3 outputDir = Some Dir).
  { revert D1. unfold os_Stat, lookup_node.
    destruct (validPath outputDir); [| discriminate].
    destruct (isAnchor (filepath_Clean outputDir)); [reflexivity |].
    intros D1. subst fs3.
    assert (filepath_Clean filePath <> filepath_Clean outputDir) by congruence.
    now rewrite !lookup_insert_ne. }
  assert (E3 : fileExists fs3 filePath = true) by (apply fileExists_Stat; eauto).
  rewrite W. cbn [trace fs]. split; [reflexivity |]. split.
  { exists n. split; [| exact S3]. subst n.
    destruct (write_limit env _); lia. }
  split; [exact E3 |].
  intros env2 w2 E2. unfold downloadPDF. rewrite P, F, E2.
  rewrite (os_MkdirAll_existing env2 fs3 outputDir D3). cbn [negb].
  rewrite <- E2, set_fs_same. fold filePath. rewrite E2. now rewrite E3.
Qed.


Lemma C9_partial_file_is_left_and_skipped_next_time_witness :
  fileExists (fs (downloadPDF flaky passthroughURL pdfDir emptyWorld))
             "NYPD_PDF/b.pdf" = true
  /\ downloadPDF offline passthroughURL pdfDir
       (downloadPDF flaky passthroughURL pdfDir emptyWorld)
     = log_Printf (downloadPDF flaky passthroughURL pdfDir emptyWorld)
                  (MsgFileExists "NYPD_PDF/b.pdf").
Proof.
  pose proof (C9_partial_file_is_left_and_skipped_next_time flaky
                passthroughURL pdfDir emptyWorld
                (mkURL "https" EmptyString None marker "/documents/2/b"
                       false EmptyString EmptyString)
                "b.pdf" (<["NYPD_PDF" := Dir]> ∅)
                (<["NYPD_PDF/b.pdf" := File EmptyString]> (<["NYPD_PDF" := Dir]> ∅))
                "200 OK" EmptyString "%PDF-1.4 tru" true
                eq_refl eq_refl eq_refl eq_refl eq_refl eq_refl eq_refl)
    as (_ & _ & E & N).
  split; [exact E | exact (N offline _ eq_refl)].
Defined.

Lemma failed_read_is_a_scan_error (file : reader) :
  readFailed file = true -> scanErr (bufio_NewScanner file) = true.
Proof.
  intros H. unfold bufio_NewScanner.
  destruct (scanLines (delivered file) EmptyString) as [toks long].
  cbn [scanErr]. rewrite H. apply orb_true_r.
Qed.

(** C10.  [readFileLines] returns no line when the file cannot be opened,
    and when the scanner ends with an error (as it does when a read fails),
    whatever lines it had read before; [main] then runs its loop over
    nothing and ends, having only printed the error. *)
Theorem C10_unreadable_input_gives_no_candidates :
  (forall (env : Env) (w : World),
     os_Open env (fs w) inputFile = None ->
     readFileLines env inputFile w = ([], fmt_Println w MsgOpenError)
     /\ main env w = (fmt_Println w MsgOpenError, 0%Z))
  /\ (forall (env : Env) (w : World) (file : reader),
        os_Open env (fs w) inputFile = Some file ->
        scanErr (bufio_NewScanner file) = true \/ readFailed file = true ->
        readFileLines env inputFile w = ([], fmt_Println w MsgReadError)
        /\ main env w = (fmt_Println w MsgReadError, 0%Z)).
Proof.
  split.
  - intros env w O. unfold main, readFileLines. now rewrite O.
  - intros env w file O E.
    assert (E' : scanErr (bufio_NewScanner file) = true)
      by (destruct E as [E | E]; [exact E | now apply failed_read_is_a_scan_error]).
    unfold main, readFileLines. now rewrite O, E'.
Qed.

Lemma C10_unreadable_input_gives_no_candidates_witness :
  (main offline emptyWorld = (fmt_Println emptyWorld MsgOpenError, 0%Z))
  /\ (pending (bufio_NewScanner
                 (mkReader ("https://www.documentcloud.org/documents/1-a"
                            +:+ String "010" "https://www.docu") true))
      = ["https://www.documentcloud.org/documents/1-a"; "https://www.docu"]
      /\ readFileLines badDisk inputFile tornList
         = ([], fmt_Println tornList MsgReadError)
      /\ main badDisk tornList = (fmt_Println tornList MsgReadError, 0%Z)).
Proof.
  split.
  - apply (proj1 C10_unreadable_input_gives_no_candidates offline emptyWorld).
    reflexivity.
  - split; [reflexivity |].
    apply (proj2 C10_unreadable_input_gives_no_candidates badDisk tornList
             (mkReader ("https://www.documentcloud.org/documents/1-a"
                        +:+ String "010" "https://www.docu") true));
      [reflexivity | right; reflexivity].
Defined.

(* ===================================================================== *)
(** ** The cap on downloads *)
(* ===================================================================== *)


Lemma creations_log (w : World) (m : message) :
  creations (log_Printf w m) = creations w.
Proof.
  unfold creations, log_Printf, emit. cbn [trace].
  rewrite count_events_app. cbn. lia.
Qed.

Lemma creations_downloadPDF (env : Env) (finalURL outputDir : string) (w : World) :
  (creations w <= creations (downloadPDF env finalURL outputDir w)
   <= creations w + 1)%Z.
Proof.
  unfold creations.
  destruct (downloadPDF_trace env finalURL outputDir w)
    as (evs & m & -> & [-> | [-> | [filePath ->]]]);
    rewrite !count_events_app; cbn; lia.
Qed.

(** One turn of the loop: the counter moves by what the turn may have
    created, and stays within the cap. *)
Lemma loop_body_step (env : Env) (dir : string) (cap : Z) (url : string)
    (w : World) (n : Z) :
  (n <= cap)%Z ->
  match loop_body env dir cap url w n with
  | (c, w', n') =>
      (n <= n' <= cap)%Z
      /\ (creations w' - creations w <= n' - n)%Z
      /\ (creations w <= creations w')%Z
      /\ (c = Break -> (cap <= n)%Z /\ w' = log_Printf w (MsgCapReached cap) /\ n' = n)
  end.
Proof.
  intros Hn. unfold loop_body.
  destruct (Z.geb_spec n cap) as [Hge | Hlt].
  { rewrite creations_log. repeat split; try lia. }
  destruct (String.eqb _ EmptyString).
  { rewrite creations_log. repeat split; try lia; discriminate. }
  destruct (urlParseSafe _) as [u|e].
  2:{ rewrite creations_log. repeat split; try lia; discriminate. }
  destruct (String.eqb _ EmptyString).
  { repeat split; try lia; discriminate. }
  destruct (fileExists _ _); cbn [negb].
  { rewrite creations_log. repeat split; try lia; discriminate. }
  pose proof (creations_downloadPDF env (extractFinalDocumentCloudURL url) dir w).
  repeat split; try lia; discriminate.
Qed.

Lemma main_loop_bound (env : Env) (dir : string) (cap : Z) (urls : list string) :
  forall (w : World) (n : Z),
    (n <= cap)%Z ->
    (n <= snd (main_loop env dir cap urls w n) <= cap)%Z
    /\ (creations (fst (main_loop env dir cap urls w n)) - creations w
        <= snd (main_loop env dir cap urls w n) - n)%Z.
Proof.
  induction urls as [|url urls IH]; intros w n Hn; cbn [main_loop fst snd];
    [lia |].
  pose proof (loop_body_step env dir cap url w n Hn) as Hstep.
  destruct (loop_body env dir cap url w n) as [[c w'] n'].
  destruct Hstep as (Hn' & Hc & _ & _).
  destruct c; cbn [fst snd]; [| lia].
  specialize (IH w' n' ltac:(lia)). lia.
Qed.

(** As long as the cap is not reached, the loop over a list is the loop over
    its first part followed by the loop over the rest. *)
Lemma main_loop_app (env : Env) (dir : string) (cap : Z) (done rest : list string) :
  forall (w w1 : World) (n n1 : Z),
    (n <= cap)%Z ->
    main_loop env dir cap done w n = (w1, n1) ->
    (n1 < cap)%Z ->
    main_loop env dir cap (done ++ rest) w n = main_loop env dir cap rest w1 n1.
Proof.
  induction done as [|url done IH]; intros w w1 n n1 Hn H Hlt.
  - cbn in H. now injection H as <- <-.
  - cbn [main_loop app] in H |- *.
    pose proof (loop_body_step env dir cap url w n Hn) as Hstep.
    destruct (loop_body env dir cap url w n) as [[c w'] n'].
    destruct Hstep as (Hn' & _ & _ & Hbreak).
    destruct c.
    + apply (IH w' w1 n' n1); [lia | exact H | exact Hlt].
    + injection H as <- <-. destruct (Hbreak eq_refl) as (? & _ & ?). lia.
Qed.

(** C4 (counterexample).  With the network down and a list of exactly a
    thousand candidates, every candidate is fetched for and counted: the
    counter reaches [maxDownloads] on the last one, the loop ends with the
    list, and no line about the cap is logged. *)
Lemma C4_no_cap_line_when_the_list_ends_at_the_cap :
  snd (main_loop offline pdfDir maxDownloads thousand emptyWorld 0) = maxDownloads
  /\ requests (fst (main_loop offline pdfDir maxDownloads thousand emptyWorld 0))
     = 1000%nat
  /\ count_events isCapMessage
       (trace (fst (main_loop offline pdfDir maxDownloads thousand emptyWorld 0)))
     = O.
Proof. vm_compute. repeat split; reflexivity. Qed.

(** C4 (amended).  A run of the driver, over any list and so over the list
    [main] reads, creates at most [maxDownloads] files and its counter ends
    within the cap.  When the turn on a candidate brings the counter to
    [maxDownloads] and a candidate remains, the driver logs that the cap is
    reached and stops there: the world it leaves is the one after that turn
    plus the log line, so no later candidate is resolved or fetched.  When
    no candidate remains, the run ends without that line. *)
Theorem C4_cap_bounds_creations_and_halts_the_batch :
  (forall (env : Env) (urls : list string) (w : World),
     (creations (fst (main_loop env pdfDir maxDownloads urls w 0)) - creations w
      <= maxDownloads)%Z
     /\ (0 <= snd (main_loop env pdfDir maxDownloads urls w 0) <= maxDownloads)%Z)
  /\ (forall (env : Env) (w : World),
        (creations (fst (main env w)) - creations w <= maxDownloads)%Z
        /\ (0 <= snd (main env w) <= maxDownloads)%Z)
  /\ (forall (env : Env) (done : list string) (u url : string)
             (rest : list string) (w w1 w2 : World) (n0 n1 : Z),
        (n0 <= maxDownloads)%Z ->
        main_loop env pdfDir maxDownloads done w n0 = (w1, n1) ->
        (n1 < maxDownloads)%Z ->
        loop_body env pdfDir maxDownloads u w1 n1 = (Next, w2, maxDownloads) ->
        main_loop env pdfDir maxDownloads (done ++ u :: url :: rest) w n0
        = (log_Printf w2 (MsgCapReached maxDownloads), maxDownloads)
        /\ main_loop env pdfDir maxDownloads (done ++ [u]) w n0
           = (w2, maxDownloads)).
Proof.
  assert (B : forall (env : Env) (urls : list string) (w : World),
             (creations (fst (main_loop env pdfDir maxDownloads urls w 0))
              - creations w <= maxDownloads)%Z
             /\ (0 <= snd (main_loop env pdfDir maxDownloads urls w 0)
                 <= maxDownloads)%Z).
  { intros env urls w.
    pose proof (main_loop_bound env pdfDir maxDownloads urls w 0%Z
                  ltac:(unfold maxDownloads; lia)) as [H1 H2].
    lia. }
  split; [exact B |]. split.
  - intros env w. unfold main.
    assert (R : creations (snd (readFileLines env inputFile w)) = creations w).
    { unfold readFileLines. destruct (os_Open env (fs w) inputFile) as [file|];
        [destruct (scanErr _) |]; cbn [snd]; try reflexivity;
        unfold fmt_Println, creations, emit; cbn [trace];
        rewrite count_events_app; cbn; lia. }
    destruct (readFileLines env inputFile w) as [urls w0]. cbn [snd] in R.
    rewrite <- R. apply B.
  - intros env done u url rest w w1 w2 n0 n1 Hn0 Hdone Hlt Hturn.
    split.
    + rewrite (main_loop_app env pdfDir maxDownloads done (u :: url :: rest)
                 w w1 n0 n1 Hn0 Hdone Hlt).
      cbn [main_loop]. rewrite Hturn. unfold loop_body.
      now rewrite Z.geb_leb, Z.leb_refl.
    + rewrite (main_loop_app env pdfDir maxDownloads done [u]
                 w w1 n0 n1 Hn0 Hdone Hlt).
      cbn [main_loop]. now rewrite Hturn.
Qed.

Lemma C4_cap_bounds_creations_and_halts_the_batch_witness :
  main_loop offline pdfDir maxDownloads [exampleInput; exampleInput] emptyWorld 999
  = (log_Printf (downloadPDF offline exampleOutput pdfDir emptyWorld)
                (MsgCapReached maxDownloads), maxDownloads)
  /\ main_loop offline pdfDir maxDownloads [exampleInput] emptyWorld 999
     = (downloadPDF offline exampleOutput pdfDir emptyWorld, maxDownloads).
Proof.
  apply (proj2 (proj2 C4_cap_bounds_creations_and_halts_the_batch) offline
           [] exampleInput exampleInput [] emptyWorld emptyWorld
           (downloadPDF offline exampleOutput pdfDir emptyWorld) 999%Z 999%Z).
  - vm_compute. discriminate.
  - reflexivity.
  - reflexivity.
  - reflexivity.
Defined.

(* ===================================================================== *)
(** ** The fuel of [os.MkdirAll] is enough *)
(* ===================================================================== *)

Lemma trimRight_cons_le (q : ascii -> bool) (c : ascii) (t : string) :
  (String.length (trimRight q (String c t)) <= S (String.length (trimRight q t)))%nat.
Proof.
  cbn [trimRight]. destruct (trimRight q t); [destruct (q c) |];
    cbn [String.length]; lia.
Qed.

Lemma trimRight_shorter (p : ascii -> bool) (s : string) :
  s <> EmptyString ->
  (String.length (trimRight (fun c => negb (p c)) (trimRight p s))
   < String.length s)%nat.
Proof.
  induction s as [|c s IH]; [congruence |]. intros _.
  assert (E : trimRight p (String c s) = String c (trimRight p s)
              \/ trimRight p s = EmptyString).
  { cbn [trimRight]. destruct (trimRight p s); [now right | now left]. }
  destruct E as [E | E].
  - rewrite E.
    pose proof (trimRight_cons_le (fun c => negb (p c)) c (trimRight p s)).
    destruct (String.eqb_spec s EmptyString) as [-> | Hs].
    + cbn [trimRight] in E |- *. destruct (p c) eqn:Pc; [discriminate E |].
      cbn. lia.
    + specialize (IH Hs). cbn [String.length]. lia.
  - cbn [trimRight]. rewrite E.
    destruct (p c) eqn:Pc; cbn [trimRight String.length]; [lia |].
    rewrite Pc. cbn. lia.
Qed.

Lemma mkdirParent_shorter (path : string) :
  path <> EmptyString -> (String.length (mkdirParent path) < String.length path)%nat.
Proof. apply trimRight_shorter. Qed.

(** More fuel than the length of the path changes nothing. *)
Lemma MkdirAll_fuel_stable (n : nat) (env : Env) :
  forall (fs : filesystem) (path : string),
    (String.length path < n)%nat ->
    MkdirAll_fuel (S n) env fs path = MkdirAll_fuel n env fs path.
Proof.
  induction n as [|n IH]; intros fs path Hlen; [lia |].
  cbn [MkdirAll_fuel]. destruct (os_Stat fs path) as [[c|]|]; try reflexivity.
  destruct (String.eqb_spec (mkdirParent path) EmptyString) as [E | E];
    [reflexivity |].
  assert (Hp : path <> EmptyString) by (intros ->; apply E; reflexivity).
  pose proof (mkdirParent_shorter path Hp).
  rewrite <- (IH fs (mkdirParent path)) by lia.
  reflexivity.
Qed.

Lemma os_MkdirAll_fuel (n : nat) (env : Env) (fs : filesystem) (path : string) :
  (String.length path < n)%nat ->
  MkdirAll_fuel n env fs path = os_MkdirAll env fs path.
Proof.
  unfold os_MkdirAll. intros H.
  induction n as [|n IH]; [lia |].
  destruct (Nat.eq_dec n (String.length path)) as [-> | Hne]; [reflexivity |].
  rewrite MkdirAll_fuel_stable by lia. apply IH. lia.
Qed.

(* ===================================================================== *)
(** * Further properties *)
(* ===================================================================== *)

(* ===================================================================== *)
(** ** The file name of the fetcher *)
(* ===================================================================== *)

Lemma LastIndex_slash_tail (s : string) :
  match strings_LastIndex s "/" with
  | Some i => str_all notSlash (str_drop (S i) s) = true
  | None => str_all notSlash s = true
  end.
Proof.
  induction s as [|c s IH]; [reflexivity |].
  cbn [strings_LastIndex strings_HasPrefix].
  destruct (strings_LastIndex s "/") as [j|].
  - exact IH.
  - unfold notSlash, isSlash. cbn [str_all].
    destruct (Ascii.eqb c "/"); cbn; [exact IH | exact IH].
Qed.

Lemma path_Base_no_slash (path : string) :
  path_Base path = "/" \/ str_all notSlash (path_Base path) = true.
Proof.
  unfold path_Base. destruct (String.eqb path EmptyString); [now right |].
  pose proof (LastIndex_slash_tail (trimRight isSlash path)) as H.
  destruct (strings_LastIndex (trimRight isSlash path) "/") as [i|];
    match goal with |- (if String.eqb ?x _ then _ else _) = _ \/ _ =>
      destruct (String.eqb x EmptyString); [now left | now right]
    end.
Qed.

Lemma trimRight_all (p : ascii -> bool) (s : string) :
  trimRight p s = EmptyString <-> str_all p s = true.
Proof.
  induction s as [|c s IH]; [now split |]. cbn [trimRight str_all].
  destruct (trimRight p s) as [|x t].
  - destruct (p c); cbn [andb]; [| split; discriminate].
    split; intros _; [now apply IH | reflexivity].
  - split; [discriminate |]. intros H. apply andb_true_iff in H as [_ H].
    apply IH in H. discriminate H.
Qed.

(** After the trailing slashes are gone, what follows the last slash is not
    empty. *)
Lemma last_element_nonempty (t : string) :
  t <> EmptyString -> trimRight isSlash t = t ->
  match strings_LastIndex t "/" with
  | Some i => str_drop (S i) t
  | None => t
  end <> EmptyString.
Proof.
  induction t as [|c t IH]; [congruence |]. intros _ Hfix.
  cbn [trimRight] in Hfix. cbn [strings_LastIndex strings_HasPrefix].
  destruct (trimRight isSlash t) as [|x t'] eqn:T.
  - destruct (isSlash c) eqn:Sc; [discriminate Hfix |].
    injection Hfix as <-. cbn. unfold isSlash in Sc. rewrite Sc. discriminate.
  - injection Hfix as Hfix. subst t.
    specialize (IH ltac:(discriminate) eq_refl).
    destruct (strings_LastIndex (String x t') "/") as [j|]; [exact IH |].
    destruct (Ascii.eqb c "/"); cbn; discriminate.
Qed.

Lemma trimRight_idem (p : ascii -> bool) (s : string) :
  trimRight p (trimRight p s) = trimRight p s.
Proof.
  induction s as [|c s IH]; [reflexivity |]. cbn [trimRight].
  destruct (trimRight p s) as [|x t] eqn:T.
  - destruct (p c) eqn:Pc; [reflexivity |]. cbn. now rewrite Pc.
  - change (trimRight p (String c (String x t)) = String c (String x t)).
    cbn [trimRight] in IH |- *. now rewrite IH.
Qed.

(** [path.Base] answers [/] exactly for a path made of slashes only. *)
Lemma path_Base_root (path : string) :
  path_Base path = "/" <-> path <> EmptyString /\ str_all isSlash path = true.
Proof.
  unfold path_Base.
  destruct (String.eqb_spec path EmptyString) as [-> | Hne].
  { split; [discriminate | intros [H _]; congruence]. }
  destruct (String.eqb_spec (trimRight isSlash path) EmptyString) as [E | E].
  - rewrite E. cbn. split; [intros _ | reflexivity].
    split; [exact Hne | now apply trimRight_all].
  - pose proof (last_element_nonempty _ E (trimRight_idem isSlash path)) as NE.
    pose proof (LastIndex_slash_tail (trimRight isSlash path)) as NS.
    split.
    + intros H. exfalso.
      destruct (strings_LastIndex (trimRight isSlash path) "/") as [i|];
        match type of H with (if String.eqb ?x _ then _ else _) = _ =>
          destruct (String.eqb_spec x EmptyString) as [Z | _];
            [exact (NE Z) | rewrite H in NS; discriminate NS]
        end.
    + intros [_ A]. apply trimRight_all in A. congruence.
Qed.

(** X1.  Every name the fetcher saves under ends in [.pdf], whatever the
    case of the letters, is not empty and holds no slash. *)
Theorem X1_fetch_name_ends_in_pdf_and_has_no_slash :
  forall (u : URL) (fileName : string),
    fetchFileName u = Some fileName ->
    strings_HasSuffix (strings_ToLower fileName) ".pdf" = true
    /\ fileName <> EmptyString
    /\ str_all notSlash fileName = true.
Proof.
  intros u fileName. unfold fetchFileName.
  destruct (String.eqb_spec (path_Base (Path u)) EmptyString) as [B | B];
    [discriminate |].
  destruct (String.eqb_spec (path_Base (Path u)) "/") as [R | R];
    [discriminate |]. cbn [orb].
  destruct (path_Base_no_slash (Path u)) as [R' | NS]; [congruence |].
  destruct (strings_HasSuffix (strings_ToLower (path_Base (Path u))) ".pdf")
    eqn:S; cbn [negb]; intros H; injection H as <-.
  - now repeat split.
  - rewrite ToLower_app, str_all_app, NS.
    change (strings_ToLower ".pdf") with ".pdf". rewrite HasSuffix_app.
    repeat split. destruct (path_Base (Path u)); discriminate.
Qed.

Lemma X1_fetch_name_ends_in_pdf_and_has_no_slash_witness :
  strings_HasSuffix (strings_ToLower "Report.PDF") ".pdf" = true
  /\ "Report.PDF" <> EmptyString
  /\ str_all notSlash "Report.PDF" = true.
Proof.
  apply (X1_fetch_name_ends_in_pdf_and_has_no_slash
           (mkURL "https" EmptyString None marker "/documents/7/Report.PDF"
                  false EmptyString EmptyString)).
  reflexivity.
Defined.

(** X2.  The fetcher gives up on the file name exactly when the path of the
    URL is not empty and made of slashes only.  An empty path is no such
    case: its name is [.], and the file is saved as [..pdf]. *)
Theorem X2_no_file_name_only_for_a_path_of_slashes :
  forall u : URL,
    (fetchFileName u = None <->
     Path u <> EmptyString /\ str_all isSlash (Path u) = true)
    /\ (Path u = EmptyString -> fetchFileName u = Some "..pdf").
Proof.
  intros u. split.
  - rewrite <- path_Base_root. unfold fetchFileName.
    destruct (String.eqb_spec (path_Base (Path u)) EmptyString) as [B | B];
      [destruct (path_Base_nonempty _ B) |].
    destruct (String.eqb_spec (path_Base (Path u)) "/") as [R | R]; cbn [orb].
    + now split.
    + split; [| congruence].
      now destruct (negb (strings_HasSuffix _ ".pdf")).
  - unfold fetchFileName. now intros ->.
Qed.

Lemma X2_no_file_name_only_for_a_path_of_slashes_witness :
  fetchFileName (mkURL "https" EmptyString None marker EmptyString
                       false EmptyString EmptyString) = Some "..pdf".
Proof.
  apply (proj2 (X2_no_file_name_only_for_a_path_of_slashes
                  (mkURL "https" EmptyString None marker EmptyString
                         false EmptyString EmptyString))).
  reflexivity.
Defined.

(* ===================================================================== *)
(** ** What the fetcher and the driver leave on disk *)
(* ===================================================================== *)

Lemma only_dirs_subseteq (fs fs' : filesystem) :
  only_dirs_added fs fs' -> fs ⊆ fs'.
Proof.
  intros H. apply map_subseteq_spec. intros p x E.
  destruct (H p) as [-> | [N _]]; congruence.
Qed.

(** Where [fileExists] is false and [os.Create] succeeds, nothing was there. *)
Lemma create_on_free_path (env : Env) (fs fs2 : filesystem) (name : string) :
  fileExists fs name = false ->
  os_Create env fs name = Some fs2 ->
  fs !! filepath_Clean name = None.
Proof.
  intros X C. destruct (os_Create_spec _ _ _ _ C) as (V & A & NotDir & _).
  revert X. unfold fileExists, os_Stat, lookup_node. rewrite V, A.
  destruct (fs !! filepath_Clean name) as [[c|]|]; congruence.
Qed.

Lemma downloadPDF_keeps (env : Env) (finalURL outputDir : string) (w : World) :
  fs w ⊆ fs (downloadPDF env finalURL outputDir w).
Proof.
  unfold downloadPDF.
  destruct (url_Parse finalURL) as [u|e]; [| reflexivity].
  destruct (fetchFileName u) as [fileName|]; [| reflexivity].
  pose proof (only_dirs_subseteq _ _ (os_MkdirAll_only_dirs env (fs w) outputDir))
    as Hsub.
  destruct (os_MkdirAll env (fs w) outputDir) as [fs1 ok]. cbn [fst] in Hsub.
  destruct ok; cbn [negb]; [| exact Hsub].
  unfold set_fs, emit, log_Printf. cbn [fs trace].
  destruct (fileExists fs1 _) eqn:X; [exact Hsub |].
  destruct (http_Get env _ finalURL) as [err | sc st ru body be]; [exact Hsub |].
  destruct (negb (sc =? http_StatusOK)%Z); [exact Hsub |].
  destruct (os_Create env fs1 _) as [fs2|] eqn:C; [| exact Hsub].
  pose proof (create_on_free_path _ _ _ _ X C) as Free.
  destruct (os_Create_spec _ _ _ _ C) as (_ & _ & _ & ->).
  unfold io_Copy.
  assert (Hins : forall x y : node,
             fs1 ⊆ <[filepath_Clean (filepath_Join [outputDir; fileName]) := x]>
                     (<[filepath_Clean (filepath_Join [outputDir; fileName]) := y]>
                        fs1)).
  { intros x y. rewrite insert_insert_eq. now apply insert_subseteq. }
  match goal with |- context [if negb ?b then _ else _] => destruct b end;
    cbn [negb fs]; (etrans; [exact Hsub | apply Hins]).
Qed.

Lemma loop_body_keeps (env : Env) (dir : string) (cap : Z) (url : string)
    (w : World) (n : Z) :
  fs w ⊆ fs (snd (fst (loop_body env dir cap url w n))).
Proof.
  unfold loop_body.
  destruct (n >=? cap)%Z; [reflexivity |].
  destruct (String.eqb _ EmptyString); [reflexivity |].
  destruct (urlParseSafe _) as [u|e]; [| reflexivity].
  destruct (String.eqb _ EmptyString); [reflexivity |].
  destruct (fileExists _ _); cbn [negb fst snd]; [reflexivity |].
  apply downloadPDF_keeps.
Qed.

Lemma main_loop_keeps (env : Env) (dir : string) (cap : Z) (urls : list string) :
  forall (w : World) (n : Z), fs w ⊆ fs (fst (main_loop env dir cap urls w n)).
Proof.
  induction urls as [|url urls IH]; intros w n; cbn [main_loop fst];
    [reflexivity |].
  pose proof (loop_body_keeps env dir cap url w n) as H.
  destruct (loop_body env dir cap url w n) as [[c w'] n']. cbn [fst snd] in H.
  destruct c; [| exact H]. etrans; [exact H | apply IH].
Qed.

(** X3.  Neither the fetcher nor a whole run of the driver removes or
    changes anything that is on disk: every file, with its content, and
    every directory that was there before is there after. *)
Theorem X3_nothing_on_disk_is_changed_or_removed :
  (forall (env : Env) (finalURL outputDir : string) (w : World) (p : string)
          (x : node),
     fs w !! p = Some x ->
     fs (downloadPDF env finalURL outputDir w) !! p = Some x)
  /\ (forall (env : Env) (w : World) (p : string) (x : node),
        fs w !! p = Some x -> fs (fst (main env w)) !! p = Some x).
Proof.
  split.
  - intros env finalURL outputDir w p x.
    apply (proj1 (map_subseteq_spec _ _) (downloadPDF_keeps env finalURL outputDir w)).
  - intros env w p x E. unfold main.
    assert (R : fs (snd (readFileLines env inputFile w)) = fs w).
    { unfold readFileLines. destruct (os_Open env (fs w) inputFile) as [file|];
        [destruct (scanErr _) |]; reflexivity. }
    destruct (readFileLines env inputFile w) as [urls w0]. cbn [snd] in R.
    rewrite <- R in E.
    exact (proj1 (map_subseteq_spec _ _)
             (main_loop_keeps env pdfDir maxDownloads urls w0 0%Z) p x E).
Qed.

Lemma X3_nothing_on_disk_is_changed_or_removed_witness :
  fs (downloadPDF serving passthroughURL pdfDir (mkWorld shelf []))
    !! "NYPD_PDF/b.pdf" = Some (File "%PDF-1.4 old").
Proof.
  apply (proj1 X3_nothing_on_disk_is_changed_or_removed serving passthroughURL
           pdfDir (mkWorld shelf [])).
  reflexivity.
Defined.

(** X4.  When the directory can be made, the file is not there, the server
    answers 200 and the file can be created and written in full, the
    fetcher leaves the body, byte for byte, in the file at the path it
    derived, after one GET and one creation, and logs the download. *)
Theorem X4_a_download_stores_the_body :
  forall (env : Env) (finalURL outputDir : string) (w : World)
         (u : URL) (fileName : string) (fs1 fs2 : filesystem)
         (Status requestURL body : string),
    url_Parse finalURL = Ok u ->
    fetchFileName u = Some fileName ->
    os_MkdirAll env (fs w) outputDir = (fs1, true) ->
    let filePath := filepath_Join [outputDir; fileName] in
    fileExists fs1 filePath = false ->
    http_Get env (requests w) finalURL
    = GetResponse http_StatusOK Status requestURL body false ->
    os_Create env fs1 filePath = Some fs2 ->
    write_limit env (filepath_Clean filePath) = None ->
    let w' := downloadPDF env finalURL outputDir w in
    w' = mkWorld (<[filepath_Clean filePath := File body]> fs1)
                 (trace w ++ [EvGet finalURL; EvCreate filePath;
                              EvLog (MsgDownloaded filePath)])
    /\ os_Stat (fs w') filePath = Some (File body)
    /\ fileExists (fs w') filePath = true.
Proof.
  intros env finalURL outputDir w u fileName fs1 fs2 st ru body
         P F M filePath X G C L w'.
  destruct (os_Create_spec _ _ _ _ C) as (V & A & NotDir & ->).
  assert (W : w' = mkWorld (<[filepath_Clean filePath := File body]> fs1)
                     (trace w ++ [EvGet finalURL; EvCreate filePath;
                                  EvLog (MsgDownloaded filePath)])).
  { subst w'. unfold downloadPDF. rewrite P, F, M. cbn [negb].
    unfold requests, log_Printf, emit, set_fs in *. cbn [fs trace].
    fold filePath. rewrite X, G. cbn [Z.eqb http_StatusOK Pos.eqb negb].
    rewrite C. unfold io_Copy. rewrite L, str_take_all, Nat.eqb_refl.
    cbn [andb negb]. rewrite insert_insert_eq. now rewrite <- !app_assoc. }
  assert (S : os_Stat (fs w') filePath = Some (File body)).
  { rewrite W. cbn [fs]. unfold os_Stat, lookup_node. rewrite V, A.
    apply lookup_insert_eq. }
  split; [exact W |]. split; [exact S |]. apply fileExists_Stat. eauto.
Qed.

Lemma X4_a_download_stores_the_body_witness :
  os_Stat (fs (downloadPDF serving passthroughURL pdfDir emptyWorld))
          "NYPD_PDF/b.pdf" = Some (File "%PDF-1.7 new").
Proof.
  exact (proj1 (proj2
    (X4_a_download_stores_the_body serving passthroughURL pdfDir emptyWorld
       (mkURL "https" EmptyString None marker "/documents/2/b"
              false EmptyString EmptyString)
       "b.pdf" (<["NYPD_PDF" := Dir]> ∅)
       (<["NYPD_PDF/b.pdf" := File EmptyString]> (<["NYPD_PDF" := Dir]> ∅))
       "200 OK" passthroughURL "%PDF-1.7 new"
       eq_refl eq_refl eq_refl eq_refl eq_refl eq_refl eq_refl))).
Defined.

(* ===================================================================== *)
(** ** What a run of the driver asks of the network, and what it logs *)
(* ===================================================================== *)

Lemma gets_app (a b : list event) : gets (a ++ b) = gets a ++ gets b.
Proof.
  induction a as [|e a IH]; [reflexivity |].
  destruct e; cbn [gets app]; now rewrite IH.
Qed.

Lemma downloadPDF_gets (env : Env) (finalURL outputDir : string) (w : World) :
  exists new,
    gets (trace (downloadPDF env finalURL outputDir w)) = gets (trace w) ++ new
    /\ (new = [] \/ new = [finalURL]).
Proof.
  destruct (downloadPDF_trace env finalURL outputDir w)
    as (evs & m & -> & [-> | [-> | [filePath ->]]]);
    rewrite !gets_app; cbn [gets app]; eauto.
Qed.

(** The calls of [http.Get] of the loop from a counter within the cap: as
    many as the counter moved, at most, each for the resolution of a
    candidate. *)
Lemma main_loop_gets (env : Env) (dir : string) (cap : Z) (urls : list string) :
  forall (w : World) (n : Z),
    (n <= cap)%Z ->
    exists new,
      gets (trace (fst (main_loop env dir cap urls w n))) = gets (trace w) ++ new
      /\ (Z.of_nat (length new) <= snd (main_loop env dir cap urls w n) - n)%Z
      /\ forall g, In g new ->
           exists url, In url urls
                       /\ g = extractFinalDocumentCloudURL url
                       /\ g <> EmptyString.
Proof.
  induction urls as [|url urls IH]; intros w n Hn; cbn [main_loop fst snd].
  { exists []. rewrite app_nil_r. cbn.
    split; [reflexivity |]. split; [lia | intros g []]. }
  pose proof (loop_body_step env dir cap url w n Hn) as Hstep.
  assert (Hbody : exists new,
             gets (trace (snd (fst (loop_body env dir cap url w n))))
             = gets (trace w) ++ new
             /\ (Z.of_nat (length new)
                 <= snd (loop_body env dir cap url w n) - n)%Z
             /\ forall g, In g new ->
                  g = extractFinalDocumentCloudURL url /\ g <> EmptyString).
  { unfold loop_body.
    assert (Quiet : forall m,
               exists new,
                 gets (trace (log_Printf w m)) = gets (trace w) ++ new
                 /\ (Z.of_nat (length new) <= n - n)%Z
                 /\ forall g, In g new ->
                      g = extractFinalDocumentCloudURL url /\ g <> EmptyString).
    { intros m. exists []. unfold log_Printf, emit. cbn [trace].
      rewrite gets_app. cbn.
      split; [reflexivity |]. split; [lia | intros g []]. }
    destruct (n >=? cap)%Z; [apply Quiet |].
    destruct (String.eqb_spec (extractFinalDocumentCloudURL url) EmptyString)
      as [E | E]; [apply Quiet |].
    destruct (urlParseSafe _) as [u|e]; [| apply Quiet].
    destruct (String.eqb _ EmptyString).
    { exists []. rewrite app_nil_r. cbn.
    split; [reflexivity |]. split; [lia | intros g []]. }
    destruct (fileExists _ _); cbn [negb fst snd]; [apply Quiet |].
    destruct (downloadPDF_gets env (extractFinalDocumentCloudURL url) dir w)
      as (new & G & [-> | ->]); eexists; (split; [exact G |]); cbn;
      (split; [lia |]); [intros g [] |].
    intros g [<- | []]. now split. }
  destruct (loop_body env dir cap url w n) as [[c w'] n'].
  cbn [fst snd] in Hbody. destruct Hstep as (Hn' & _ & _ & _).
  destruct Hbody as (new1 & G1 & L1 & P1).
  destruct c; cbn [fst snd].
  - destruct (IH w' n' ltac:(lia)) as (new2 & G2 & L2 & P2).
    exists (new1 ++ new2). rewrite G2, G1, <- app_assoc. split; [reflexivity |].
    split; [rewrite length_app; lia |].
    intros g Hg. apply in_app_or in Hg as [Hg | Hg].
    + exists url. destruct (P1 g Hg). split; [now left | now split].
    + destruct (P2 g Hg) as (url' & I & E & N). exists url'.
      split; [now right | now split].
  - exists new1. split; [exact G1 |]. split; [exact L1 |].
    intros g Hg. exists url. destruct (P1 g Hg).
    split; [now left | now split].
Qed.

(** X5.  A run of the driver calls [http.Get] at most [maxDownloads] times,
    and the URL it passes in each call is the non-empty resolution of one of
    its candidates: a URL that parses and whose host contains
    [s3.documentcloud.org].  It never passes a candidate as it was given
    unless the resolver handed it back.  (What [http.Get] does with the URL,
    the redirects it follows among them, is the answer of the oracle and is
    not counted here.) *)
Theorem X5_every_call_of_http_Get_is_for_a_resolved_candidate :
  forall (env : Env) (urls : list string) (w : World),
    exists new,
      gets (trace (fst (main_loop env pdfDir maxDownloads urls w 0)))
      = gets (trace w) ++ new
      /\ (length new <= 1000)%nat
      /\ forall g, In g new ->
           exists url u,
             In url urls
             /\ g = extractFinalDocumentCloudURL url
             /\ url_Parse g = Ok u
             /\ strings_Contains (Host u) marker = true.
Proof.
  intros env urls w.
  destruct (main_loop_gets env pdfDir maxDownloads urls w 0%Z
              ltac:(unfold maxDownloads; lia)) as (new & G & L & P).
  pose proof (main_loop_bound env pdfDir maxDownloads urls w 0%Z
                ltac:(unfold maxDownloads; lia)) as [B _].
  exists new. split; [exact G |]. split; [unfold maxDownloads in *; lia |].
  intros g Hg. destruct (P g Hg) as (url & I & E & N).
  subst g. destruct (resolved_parses url N) as (u & Pu & C).
  now exists url, u.
Qed.

Lemma loop_body_one_log (env : Env) (dir : string) (cap : Z) (url : string)
    (w : World) (n : Z) :
  (n < cap)%Z ->
  fst (fst (loop_body env dir cap url w n)) = Next
  /\ count_events isLog (trace (snd (fst (loop_body env dir cap url w n))))
     = S (count_events isLog (trace w)).
Proof.
  intros Hn. unfold loop_body.
  assert (One : forall m,
             count_events isLog (trace (log_Printf w m))
             = S (count_events isLog (trace w))).
  { intros m. unfold log_Printf, emit. cbn [trace].
    rewrite count_events_app. cbn. lia. }
  destruct (Z.geb_spec n cap) as [Hge | _]; [lia |].
  destruct (String.eqb_spec (extractFinalDocumentCloudURL url) EmptyString)
    as [E | E]; cbn [fst snd]; [now split |].
  destruct (resolved_parses url E) as (u & P & _).
  unfold urlParseSafe. rewrite P.
  destruct (String.eqb_spec (path_Base (Path u)) EmptyString) as [B | _];
    [destruct (path_Base_nonempty _ B) |].
  destruct (fileExists _ _); cbn [negb fst snd]; [now split |].
  split; [reflexivity |].
  destruct (downloadPDF_trace env (extractFinalDocumentCloudURL url) dir w)
    as (evs & m & -> & [-> | [-> | [filePath ->]]]);
    rewrite !count_events_app; cbn; lia.
Qed.

Lemma main_loop_logs (env : Env) (dir : string) (cap : Z) (urls : list string) :
  forall (w : World) (n : Z),
    (n <= cap)%Z ->
    (snd (main_loop env dir cap urls w n) < cap)%Z ->
    count_events isLog (trace (fst (main_loop env dir cap urls w n)))
    = (count_events isLog (trace w) + length urls)%nat.
Proof.
  induction urls as [|url urls IH]; intros w n Hn Hend.
  { cbn. lia. }
  pose proof (main_loop_bound env dir cap (url :: urls) w n Hn) as [[Hlo _] _].
  assert (Hlt : (n < cap)%Z) by lia.
  pose proof (loop_body_one_log env dir cap url w n Hlt) as [Hc Hl].
  pose proof (loop_body_step env dir cap url w n Hn) as Hstep.
  cbn [main_loop] in Hend |- *.
  destruct (loop_body env dir cap url w n) as [[c w'] n'].
  cbn [fst snd] in Hc, Hl. subst c. destruct Hstep as (Hn' & _).
  rewrite (IH w' n' ltac:(lia) Hend), Hl. cbn [length]. lia.
Qed.

(** X6.  As long as the cap is not reached, a run of the driver logs exactly
    one line for each candidate: none is passed over in silence (a resolved
    URL always parses and always has a last path element, so the two
    branches of the loop that log nothing or skip are never taken). *)
Theorem X6_one_log_line_for_each_candidate :
  forall (env : Env) (urls : list string) (w : World),
    (snd (main_loop env pdfDir maxDownloads urls w 0) < maxDownloads)%Z ->
    count_events isLog (trace (fst (main_loop env pdfDir maxDownloads urls w 0)))
    = (count_events isLog (trace w) + length urls)%nat.
Proof.
  intros env urls w H.
  apply main_loop_logs; [unfold maxDownloads; lia | exact H].
Qed.

Lemma X6_one_log_line_for_each_candidate_witness :
  count_events isLog
    (trace (fst (main_loop offline pdfDir maxDownloads
                   [exampleInput; "not a url at all"; passthroughURL]
                   emptyWorld 0)))
  = 3%nat.
Proof.
  apply (X6_one_log_line_for_each_candidate offline
           [exampleInput; "not a url at all"; passthroughURL] emptyWorld).
  reflexivity.
Defined.

Lemma X5_every_call_of_http_Get_is_for_a_resolved_candidate_witness :
  exists url u,
    In url [exampleInput]
    /\ exampleOutput = extractFinalDocumentCloudURL url
    /\ url_Parse exampleOutput = Ok u
    /\ strings_Contains (Host u) marker = true.
Proof.
  destruct (X5_every_call_of_http_Get_is_for_a_resolved_candidate offline
              [exampleInput] emptyWorld) as (new & G & _ & P).
  vm_compute in G. subst new. apply P. left. reflexivity.
Defined.

(* ===================================================================== *)
(** ** Reading the list of candidates *)
(* ===================================================================== *)

Lemma scan_all_app (toks lines : list string) : scan_all toks lines = lines ++ toks.
Proof.
  revert lines. induction toks as [|t toks IH]; intros lines; cbn [scan_all].
  - now rewrite app_nil_r.
  - now rewrite IH, <- app_assoc.
Qed.

(** The scanner over a line that ends with a newline. *)
Lemma scanLines_line (l rest : string) :
  str_all noNewline l = true ->
  forall cur,
    scanLines (l +:+ String "010" rest) cur =
    if tooLong (cur +:+ l) then ([], true)
    else let '(toks, err) := scanLines rest EmptyString in
         (dropCR (cur +:+ l) :: toks, err).
Proof.
  induction l as [|c l IH]; intros Hl cur.
  - cbn [String.append scanLines]. rewrite append_nil_r. reflexivity.
  - cbn [str_all] in Hl. apply andb_true_iff in Hl as [Hc Hl].
    cbn [String.append scanLines]. unfold noNewline in Hc.
    destruct (Ascii.eqb c "010"); [discriminate Hc |].
    rewrite (IH Hl). now rewrite append_assoc.
Qed.

(** The scanner over what is left after the last newline. *)
Lemma scanLines_last (l : string) :
  str_all noNewline l = true ->
  forall cur,
    scanLines l cur =
    if tooLong (cur +:+ l) then ([], true)
    else if String.eqb (cur +:+ l) EmptyString then ([], false)
    else ([dropCR (cur +:+ l)], false).
Proof.
  induction l as [|c l IH]; intros Hl cur.
  - cbn [scanLines]. now rewrite append_nil_r.
  - cbn [str_all] in Hl. apply andb_true_iff in Hl as [Hc Hl].
    cbn [scanLines]. unfold noNewline in Hc.
    destruct (Ascii.eqb c "010"); [discriminate Hc |].
    rewrite (IH Hl). now rewrite append_assoc.
Qed.

Lemma scanLines_joined (lines : list string) (last : string) :
  Forall scannable lines -> scannable last ->
  scanLines (joinLines lines +:+ last) EmptyString
  = (map dropCR lines
     ++ (if String.eqb last EmptyString then [] else [dropCR last]), false).
Proof.
  intros Hlines [Hlast Hshort].
  induction lines as [|l lines IH]; cbn [joinLines map app].
  - cbn [String.append]. rewrite (scanLines_last last Hlast).
    cbn [String.append]. rewrite Hshort. now destruct (String.eqb last EmptyString).
  - apply Forall_cons_iff in Hlines as [[Hl Hs] Hlines].
    rewrite append_assoc. cbn [String.append].
    rewrite (scanLines_line l _ Hl). cbn [String.append]. rewrite Hs.
    now rewrite (IH Hlines).
Qed.

(** X7.  When the file opens and is read to its end, [readFileLines]
    returns its lines in order, each without its newline and without the
    carriage return before it; empty lines are kept, and a last line that
    has no newline is returned as well.  Nothing is printed. *)
Theorem X7_readFileLines_returns_the_lines :
  forall (env : Env) (filename : string) (w : World)
         (lines : list string) (last : string),
    Forall scannable lines -> scannable last ->
    os_Open env (fs w) filename
    = Some (mkReader (joinLines lines +:+ last) false) ->
    readFileLines env filename w
    = (map dropCR lines
       ++ (if String.eqb last EmptyString then [] else [dropCR last]), w).
Proof.
  intros env filename w lines last Hlines Hlast O.
  unfold readFileLines, bufio_NewScanner. rewrite O. cbn [delivered readFailed].
  rewrite (scanLines_joined lines last Hlines Hlast).
  cbn [scanErr pending orb]. now rewrite scan_all_app.
Qed.

Lemma X7_readFileLines_returns_the_lines_witness :
  readFileLines offline inputFile tornList
  = (["https://www.documentcloud.org/documents/1-a";
      "https://www.documentcloud.org/documents/2-b"], tornList).
Proof.
  apply (X7_readFileLines_returns_the_lines offline inputFile tornList
           ["https://www.documentcloud.org/documents/1-a";
            "https://www.documentcloud.org/documents/2-b"] EmptyString).
  - constructor; [now split | constructor; [now split | constructor]].
  - now split.
  - reflexivity.
Defined.

(* ===================================================================== *)
(** ** The file of a rewritten URL is named after the slug alone *)
(* ===================================================================== *)

(** X8.  On a URL the resolver has built, the driver and the fetcher derive
    the same file name, [<slug>.pdf]: the number of the document is not
    part of it, so two documents with the same slug share one file name. *)
Theorem X8_rewritten_url_is_saved_as_slug_pdf :
  forall docID docID' slug : string,
    str_all class_digit docID = true ->
    str_all class_digit docID' = true ->
    str_all class_slug slug = true ->
    exists u u',
      url_Parse (storageURL docID slug) = Ok u
      /\ url_Parse (storageURL docID' slug) = Ok u'
      /\ driverFileName u = slug +:+ ".pdf"
      /\ fetchFileName u = Some (slug +:+ ".pdf")
      /\ driverFileName u' = driverFileName u
      /\ fetchFileName u' = fetchFileName u.
Proof.
  intros d d' sl Hd Hd' Hs.
  destruct (rewritten_names_agree d sl Hd Hs) as (u & P & D & F).
  destruct (rewritten_names_agree d' sl Hd' Hs) as (u' & P' & D' & F').
  exists u, u'. repeat split; congruence.
Qed.

Lemma X8_rewritten_url_is_saved_as_slug_pdf_witness :
  exists u u',
    url_Parse (storageURL "1" "report") = Ok u
    /\ url_Parse (storageURL "2" "report") = Ok u'
    /\ driverFileName u = "report.pdf"
    /\ fetchFileName u = Some "report.pdf"
    /\ driverFileName u' = driverFileName u
    /\ fetchFileName u' = fetchFileName u.
Proof.
  exact (X8_rewritten_url_is_saved_as_slug_pdf "1" "2" "report"
           eq_refl eq_refl eq_refl).
Defined.

(** X9.  A candidate that the resolver rewrites is not fetched and not
    counted when the file [<slug>.pdf] is in the output directory already,
    be it the file of another document with that slug; when it is not
    there, the fetcher is called and the turn is counted. *)
Theorem X9_driver_skips_a_candidate_whose_slug_file_is_there :
  forall (env : Env) (dir : string) (cap : Z) (url : string) (w : World) (n : Z)
         (u : URL) (docID slug : string),
    (n < cap)%Z ->
    url_Parse url = Ok u ->
    strings_Contains (Host u) marker = false ->
    leftmost_longest class_slug url docID slug ->
    let filePath := filepath_Join [dir; slug +:+ ".pdf"] in
    (fileExists (fs w) filePath = true ->
     loop_body env dir cap url w n
     = (Next, log_Printf w (MsgNotCounted filePath), n))
    /\ (fileExists (fs w) filePath = false ->
        loop_body env dir cap url w n
        = (Next, downloadPDF env (storageURL docID slug) dir w, (n + 1)%Z)).
Proof.
  intros env dir cap url w n u d sl Hn P C L filePath.
  assert (E : extractFinalDocumentCloudURL url = storageURL d sl).
  { destruct L as (pre & post & Hocc & Hpost & Hmin).
    unfold extractFinalDocumentCloudURL. rewrite P.
    change "s3.documentcloud.org" with marker. rewrite C.
    change re_documentcloud with (re_of class_slug).
    rewrite (find_exact class_slug pre url d sl post Hocc Hpost
               (fun p2 d2 s2 q2 H => proj1 (Hmin p2 d2 s2 q2 H))).
    apply Sprintf_storageURL. }
  destruct (leftmost_longest_classes _ _ _ _ L) as [Hd Hs].
  destruct (rewritten_names_agree d sl Hd Hs) as (su & SP & SD & _).
  unfold loop_body. destruct (Z.geb_spec n cap) as [Hge | _]; [lia |].
  rewrite E. cbn [String.eqb storageURL String.append Ascii.eqb Bool.eqb].
  unfold urlParseSafe. change (String "h" _) with (storageURL d sl).
  rewrite SP. unfold driverFileName in SD. rewrite SD.
  destruct (String.eqb_spec (sl +:+ ".pdf") EmptyString) as [Z | _];
    [destruct sl; discriminate Z |].
  fold filePath. split; intros ->; reflexivity.
Qed.

Lemma X9_driver_skips_a_candidate_whose_slug_file_is_there_witness :
  loop_body offline pdfDir maxDownloads
    "https://www.documentcloud.org/documents/99-b" (mkWorld shelf []) 0
  = (Next, log_Printf (mkWorld shelf []) (MsgNotCounted "NYPD_PDF/b.pdf"), 0%Z).
Proof.
  refine (proj1 (X9_driver_skips_a_candidate_whose_slug_file_is_there offline
            pdfDir maxDownloads "https://www.documentcloud.org/documents/99-b"
            (mkWorld shelf []) 0%Z
            (mkURL "https" EmptyString None "www.documentcloud.org"
                   "/documents/99-b" false EmptyString EmptyString)
            "99" "b" eq_refl eq_refl eq_refl _) eq_refl).
  exists "https://www.", EmptyString.
  split; [unfold occurs_at; repeat split; try reflexivity; discriminate |].
  split; [exact I |].
  intros pre2 d2 sl2 post2 (E & Hd2 & Dd2 & Hs2 & Ds2).
  do 12 (destruct pre2 as [|? pre2];
         [cbn in E; discriminate E | cbn in E; injection E as _ E]).
  split; [cbn; lia |]. intros Hlen.
  destruct pre2; [| cbn in Hlen; lia]. cbn in E.
  injection E as E.
  destruct d2 as [|x d2]; [congruence |]. cbn in E. injection E as <- E.
  destruct d2 as [|y d2]; [discriminate E |]. cbn in E. injection E as <- E.
  destruct d2 as [|z d2].
  - cbn in E. injection E as E. split; [reflexivity |].
    destruct sl2 as [|k sl2]; [congruence |]. cbn in E. injection E as <- E.
    destruct sl2; [cbn; lia | discriminate E].
  - cbn in E. injection E as <- E. cbn in Dd2. discriminate Dd2.
Defined.

(* ===================================================================== *)
(** ** Where the fetcher writes *)
(* ===================================================================== *)

Lemma splitSlash_cons (s : string) : exists e es, splitSlash s = e :: es.
Proof.
  destruct s as [|c s]; cbn [splitSlash]; [eauto |].
  destruct (isSlash c); [eauto |].
  destruct (splitSlash s); eauto.
Qed.

Lemma splitSlash_app_slash (a b : string) :
  splitSlash (a +:+ String "/" b) = splitSlash a ++ splitSlash b.
Proof.
  induction a as [|c a IH]; [reflexivity |].
  cbn [String.append splitSlash]. rewrite IH.
  destruct (isSlash c); [reflexivity |].
  destruct (splitSlash_cons a) as (e & es & ->). reflexivity.
Qed.

Lemma splitSlash_plain (e : string) :
  str_all notSlash e = true -> splitSlash e = [e].
Proof.
  induction e as [|c e IH]; [reflexivity |]. cbn [str_all splitSlash].
  intros H. apply andb_true_iff in H as [Hc He].
  unfold notSlash in Hc. destruct (isSlash c); [discriminate Hc |].
  now rewrite (IH He).
Qed.

Lemma clean_elems_snoc (rooted : bool) (e : string) :
  plainElement e ->
  forall xs out,
    clean_elems rooted (xs ++ [e]) out = clean_elems rooted xs out ++ [e].
Proof.
  intros (Hne & Hdot & Hdots & _).
  induction xs as [|x xs IH]; intros out.
  - cbn [app clean_elems].
    destruct (String.eqb_spec e EmptyString); [congruence |].
    destruct (String.eqb_spec e "."); [congruence |].
    destruct (String.eqb_spec e ".."); [congruence |].
    cbn [orb rev]. reflexivity.
  - cbn [app clean_elems].
    destruct (String.eqb x EmptyString || String.eqb x "."); [apply IH |].
    destruct (String.eqb x ".."); [| apply IH].
    destruct out as [|top out']; [destruct rooted; apply IH |].
    destruct (String.eqb top ".."); apply IH.
Qed.

Lemma clean_elems_nonempty (rooted : bool) (xs : list string) :
  forall out,
    Forall (fun e => e <> EmptyString) out ->
    Forall (fun e => e <> EmptyString) (clean_elems rooted xs out).
Proof.
  induction xs as [|x xs IH]; intros out Hout; cbn [clean_elems].
  - now apply Forall_rev.
  - destruct (String.eqb_spec x EmptyString) as [E | E]; cbn [orb];
      [now apply IH |].
    destruct (String.eqb x "."); [now apply IH |].
    destruct (String.eqb x "..").
    + destruct out as [|top out']; [destruct rooted; apply IH; auto |].
      apply Forall_cons_iff in Hout as Hout'.
      destruct (String.eqb top ".."); apply IH; [auto | apply Hout'].
    + apply IH. auto.
Qed.

Lemma strings_Join_snoc (xs : list string) (e : string) :
  strings_Join (xs ++ [e]) "/" =
  match xs with
  | [] => e
  | _ => strings_Join xs "/" +:+ String "/" e
  end.
Proof.
  induction xs as [|x xs IH]; [reflexivity |].
  cbn [app strings_Join]. destruct xs as [|y xs]; [reflexivity |].
  cbn [app] in IH |- *. rewrite IH. now rewrite append_assoc.
Qed.

Lemma strings_Join_nonempty (xs : list string) :
  xs <> [] -> Forall (fun e => e <> EmptyString) xs ->
  strings_Join xs "/" <> EmptyString.
Proof.
  destruct xs as [|x xs]; [congruence |]. intros _ H.
  apply Forall_cons_iff in H as [Hx _]. cbn [strings_Join].
  destruct xs; [exact Hx |]. destruct x; [congruence | discriminate].
Qed.

Lemma plain_not_rooted (e : string) :
  plainElement e -> strings_HasPrefix e "/" = false.
Proof.
  intros (Hne & _ & _ & Hs). destruct e as [|c e]; [congruence |].
  cbn [str_all] in Hs. apply andb_true_iff in Hs as [Hc _].
  unfold notSlash, isSlash in Hc. cbn [strings_HasPrefix].
  now destruct (Ascii.eqb c "/").
Qed.

(** [filepath.Join] of a directory and a plain element: the cleaned
    elements of the directory, then the element. *)
Lemma Join_plain (dir e : string) :
  dir <> EmptyString -> plainElement e ->
  filepath_Join [dir; e] =
  let rooted := strings_HasPrefix dir "/" in
  (if rooted then "/" else EmptyString)
  +:+ strings_Join (clean_elems rooted (splitSlash dir) [] ++ [e]) "/".
Proof.
  intros Hdir He. pose proof He as (Hne & Hdot & Hdots & Hs).
  cbn [filepath_Join].
  destruct (String.eqb_spec dir EmptyString) as [Z | _]; [congruence |].
  cbn [strings_Join]. unfold filepath_Clean.
  destruct (String.eqb_spec (dir +:+ "/" +:+ e) EmptyString) as [Z | _];
    [destruct dir; [congruence | discriminate Z] |].
  assert (R : strings_HasPrefix (dir +:+ "/" +:+ e) "/" = strings_HasPrefix dir "/")
    by (destruct dir; [congruence | reflexivity]).
  rewrite R. cbn [String.append]. rewrite splitSlash_app_slash.
  rewrite (splitSlash_plain e Hs), (clean_elems_snoc _ e He).
  cbv zeta. destruct (strings_HasPrefix dir "/"); [reflexivity |].
  cbn [String.append].
  destruct (String.eqb_spec
              (strings_Join (clean_elems false (splitSlash dir) [] ++ [e]) "/")
              EmptyString) as [Z | _]; [| reflexivity].
  exfalso. rewrite strings_Join_snoc in Z.
  destruct (clean_elems false (splitSlash dir) []); [congruence |].
  destruct (strings_Join (s :: l) "/"); discriminate Z.
Qed.

Lemma fetch_name_plain (u : URL) (fileName : string) :
  fetchFileName u = Some fileName ->
  plainElement fileName
  /\ strings_HasSuffix (strings_ToLower fileName) ".pdf" = true.
Proof.
  intros F.
  assert (S : strings_HasSuffix (strings_ToLower fileName) ".pdf" = true
              /\ str_all notSlash fileName = true).
  { revert F. unfold fetchFileName.
    destruct (String.eqb_spec (path_Base (Path u)) EmptyString); [discriminate |].
    destruct (String.eqb_spec (path_Base (Path u)) "/"); [discriminate |].
    cbn [orb].
    destruct (path_Base_no_slash (Path u)) as [R' | NS]; [congruence |].
    destruct (strings_HasSuffix (strings_ToLower (path_Base (Path u))) ".pdf")
      eqn:S; cbn [negb]; intros H; injection H as <-; [now split |].
    rewrite ToLower_app, str_all_app, NS.
    change (strings_ToLower ".pdf") with ".pdf". now rewrite HasSuffix_app. }
  destruct S as [S NS]. split; [| exact S].
  repeat split; try exact NS; intros ->; discriminate S.
Qed.

(** The file of the fetcher lies in the cleaned output directory. *)
Lemma target_in_output_dir (outputDir e : string) :
  plainElement e ->
  parentDir (filepath_Join [outputDir; e]) = filepath_Clean outputDir.
Proof.
  intros He. pose proof He as (Hne & _ & _ & Hs).
  destruct (String.eqb_spec outputDir EmptyString) as [-> | Hdir].
  - cbn [filepath_Join String.eqb].
    destruct (String.eqb_spec e EmptyString) as [Z | _]; [congruence |].
    cbn [strings_Join]. unfold filepath_Clean.
    destruct (String.eqb_spec e EmptyString) as [Z | _]; [congruence |].
    rewrite (plain_not_rooted e He), (splitSlash_plain e Hs).
    pose proof (clean_elems_snoc false e He [] []) as CS.
    cbn [app] in CS. rewrite CS. cbn [clean_elems rev app strings_Join].
    destruct (String.eqb_spec e EmptyString) as [Z | _]; [congruence |].
    unfold parentDir. now rewrite (LastIndex_none e Hs).
  - rewrite (Join_plain outputDir e Hdir He). cbv zeta.
    unfold filepath_Clean.
    destruct (String.eqb_spec outputDir EmptyString) as [Z | _]; [congruence |].
    pose proof (clean_elems_nonempty (strings_HasPrefix outputDir "/")
                  (splitSlash outputDir) [] ltac:(constructor)) as NE.
    rewrite strings_Join_snoc.
    destruct (clean_elems (strings_HasPrefix outputDir "/") (splitSlash outputDir) [])
      as [|x xs] eqn:CE.
    + destruct (strings_HasPrefix outputDir "/"); cbn [String.append strings_Join].
      * unfold parentDir.
        change (String "/" e) with (EmptyString +:+ String "/" e).
        now rewrite (LastIndex_app_slash EmptyString e Hs).
      * unfold parentDir. now rewrite (LastIndex_none e Hs).
    + pose proof (strings_Join_nonempty (x :: xs) ltac:(discriminate) NE) as JN.
      set (J := strings_Join (x :: xs) "/") in *.
      destruct (strings_HasPrefix outputDir "/").
      * rewrite <- append_assoc. unfold parentDir.
        rewrite (LastIndex_app_slash ("/" +:+ J) e Hs).
        rewrite str_take_app. reflexivity.
      * cbn [String.append]. unfold parentDir.
        rewrite (LastIndex_app_slash J e Hs).
        destruct (String.eqb_spec J EmptyString) as [Z | _]; [congruence |].
        destruct J as [|c J']; [congruence |]. cbn [String.length].
        change (S (String.length J')) with (String.length (String c J')).
        now rewrite str_take_app.
Qed.

(** X10.  Whatever the URL, the file the fetcher checks for and writes lies
    directly in the output directory: the name it derives is a single path
    element (not empty, not [.] or [..], without a slash), so the parent of
    the target path is the cleaned output directory. *)
Theorem X10_the_target_lies_in_the_output_directory :
  forall (u : URL) (fileName outputDir : string),
    fetchFileName u = Some fileName ->
    plainElement fileName
    /\ parentDir (filepath_Join [outputDir; fileName]) = filepath_Clean outputDir.
Proof.
  intros u fileName outputDir F.
  destruct (fetch_name_plain u fileName F) as [He _].
  split; [exact He | now apply target_in_output_dir].
Qed.

Lemma X10_the_target_lies_in_the_output_directory_witness :
  plainElement "...pdf"
  /\ parentDir (filepath_Join ["./out/../NYPD_PDF/"; "...pdf"]) = "NYPD_PDF".
Proof.
  exact (X10_the_target_lies_in_the_output_directory
           (mkURL "https" EmptyString None marker "/documents/../.."
                  false EmptyString EmptyString)
           "...pdf" "./out/../NYPD_PDF/" eq_refl).
Defined.

Lemma created_app (a b : list event) : created (a ++ b) = created a ++ created b.
Proof.
  induction a as [|e a IH]; [reflexivity |].
  destruct e; cbn [created app]; now rewrite IH.
Qed.

Lemma downloadPDF_created (env : Env) (finalURL outputDir : string) (w : World) :
  exists new,
    created (trace (downloadPDF env finalURL outputDir w))
    = created (trace w) ++ new
    /\ (new = []
        \/ exists u fileName,
             url_Parse finalURL = Ok u
             /\ fetchFileName u = Some fileName
             /\ new = [filepath_Join [outputDir; fileName]]).
Proof.
  unfold downloadPDF.
  assert (Quiet : forall (w0 : World) m,
             trace w0 = trace w ->
             exists new,
               created (trace (log_Printf w0 m)) = created (trace w) ++ new
               /\ (new = []
                   \/ exists u fileName,
                        url_Parse finalURL = Ok u
                        /\ fetchFileName u = Some fileName
                        /\ new = [filepath_Join [outputDir; fileName]])).
  { intros w0 m E. exists []. unfold log_Printf, emit. cbn [trace].
    rewrite created_app, E. cbn. split; [reflexivity | now left]. }
  assert (Got : forall (w0 : World) m,
             trace w0 = trace w ++ [EvGet finalURL] ->
             exists new,
               created (trace (log_Printf w0 m)) = created (trace w) ++ new
               /\ (new = []
                   \/ exists u fileName,
                        url_Parse finalURL = Ok u
                        /\ fetchFileName u = Some fileName
                        /\ new = [filepath_Join [outputDir; fileName]])).
  { intros w0 m E. exists []. unfold log_Printf, emit. cbn [trace].
    rewrite created_app, E, created_app. cbn. rewrite !app_nil_r.
    split; [reflexivity | now left]. }
  destruct (url_Parse finalURL) as [u|e] eqn:P; [| now apply Quiet].
  destruct (fetchFileName u) as [fileName|] eqn:F; [| now apply Quiet].
  destruct (os_MkdirAll env (fs w) outputDir) as [fs1 ok].
  destruct ok; cbn [negb]; [| now apply Quiet].
  destruct (fileExists _ _); [now apply Quiet |].
  destruct (http_Get env _ finalURL) as [err | sc st ru body be];
    [now apply Got |].
  destruct (negb (sc =? http_StatusOK)%Z); [now apply Got |].
  destruct (os_Create env _ _) as [fs2|]; [| now apply Got].
  exists [filepath_Join [outputDir; fileName]].
  split; [| right; now exists u, fileName].
  destruct (io_Copy env _ _ body be) as [fs3 copied].
  destruct copied; cbn [negb]; unfold log_Printf, emit, set_fs; cbn [trace fs];
    rewrite !created_app; cbn [created app]; now rewrite !app_nil_r.
Qed.

Lemma main_loop_created (env : Env) (dir : string) (cap : Z) (urls : list string) :
  forall (w : World) (n : Z),
    exists new,
      created (trace (fst (main_loop env dir cap urls w n)))
      = created (trace w) ++ new
      /\ forall p, In p new ->
           exists u fileName,
             fetchFileName u = Some fileName
             /\ p = filepath_Join [dir; fileName].
Proof.
  induction urls as [|url urls IH]; intros w n; cbn [main_loop fst].
  { exists []. rewrite app_nil_r. split; [reflexivity | intros p []]. }
  assert (Hbody : exists new,
             created (trace (snd (fst (loop_body env dir cap url w n))))
             = created (trace w) ++ new
             /\ forall p, In p new ->
                  exists u fileName,
                    fetchFileName u = Some fileName
                    /\ p = filepath_Join [dir; fileName]).
  { unfold loop_body.
    assert (Quiet : forall m,
               exists new,
                 created (trace (log_Printf w m)) = created (trace w) ++ new
                 /\ forall p, In p new ->
                      exists u fileName,
                        fetchFileName u = Some fileName
                        /\ p = filepath_Join [dir; fileName]).
    { intros m. exists []. unfold log_Printf, emit. cbn [trace].
      rewrite created_app. cbn. split; [reflexivity | intros p []]. }
    destruct (n >=? cap)%Z; [apply Quiet |].
    destruct (String.eqb _ EmptyString); [apply Quiet |].
    destruct (urlParseSafe _) as [u|e]; [| apply Quiet].
    destruct (String.eqb _ EmptyString).
    { exists []. rewrite app_nil_r. split; [reflexivity | intros p []]. }
    destruct (fileExists _ _); cbn [negb fst snd]; [apply Quiet |].
    destruct (downloadPDF_created env (extractFinalDocumentCloudURL url) dir w)
      as (new & G & [-> | (u' & name & _ & F & ->)]);
      eexists; (split; [exact G |]); [intros p [] |].
    intros p [<- | []]. now exists u', name. }
  destruct (loop_body env dir cap url w n) as [[c w'] n'].
  cbn [fst snd] in Hbody. destruct Hbody as (new1 & G1 & P1).
  destruct c; cbn [fst]; [| now exists new1].
  destruct (IH w' n') as (new2 & G2 & P2).
  exists (new1 ++ new2). rewrite G2, G1, <- app_assoc. split; [reflexivity |].
  intros p Hp. apply in_app_or in Hp as [Hp | Hp]; auto.
Qed.

Lemma Join_pdfDir (e : string) :
  plainElement e -> filepath_Join [pdfDir; e] = "NYPD_PDF/" +:+ e.
Proof.
  intros He. rewrite (Join_plain pdfDir e ltac:(discriminate) He).
  reflexivity.
Qed.

(** X11.  Every file a run of the driver creates is directly in [NYPD_PDF]:
    its path is [NYPD_PDF/<name>], where the name holds no slash and ends
    in [.pdf]; no URL of the list can make the run write elsewhere. *)
Theorem X11_a_run_creates_files_in_the_output_directory_only :
  forall (env : Env) (urls : list string) (w : World),
    exists new,
      created (trace (fst (main_loop env pdfDir maxDownloads urls w 0)))
      = created (trace w) ++ new
      /\ forall p, In p new ->
           exists name,
             p = "NYPD_PDF/" +:+ name
             /\ str_all notSlash name = true
             /\ strings_HasSuffix (strings_ToLower name) ".pdf" = true.
Proof.
  intros env urls w.
  destruct (main_loop_created env pdfDir maxDownloads urls w 0%Z)
    as (new & G & P).
  exists new. split; [exact G |]. intros p Hp.
  destruct (P p Hp) as (u & name & F & ->).
  destruct (fetch_name_plain u name F) as [He S].
  exists name. split; [now apply Join_pdfDir |].
  split; [apply He | exact S].
Qed.

Lemma X11_a_run_creates_files_in_the_output_directory_only_witness :
  exists name,
    "NYPD_PDF/b.pdf" = "NYPD_PDF/" +:+ name
    /\ str_all notSlash name = true
    /\ strings_HasSuffix (strings_ToLower name) ".pdf" = true.
Proof.
  destruct (X11_a_run_creates_files_in_the_output_directory_only serving
              [passthroughURL] emptyWorld) as (new & G & P).
  vm_compute in G. subst new. apply P. left. reflexivity.
Defined.

(* ===================================================================== *)
(** ** The companion program *)
(* ===================================================================== *)

(** X12.  When the request fails, or the status is not 200, the companion's
    [downloadPDF] leaves the filesystem as it was: it has not even made the
    output directory, which it makes only after a good answer. *)
Theorem X12_companion_touches_nothing_on_a_failed_request :
  forall (env : Env) (rawURL outputDir : string) (w : World),
    (forall Status requestURL body bodyErr,
       http_Get env (requests w) rawURL
       <> GetResponse http_StatusOK Status requestURL body bodyErr) ->
    fs (Redirect.downloadPDF env rawURL outputDir w) = fs w
    /\ created (trace (Redirect.downloadPDF env rawURL outputDir w))
       = created (trace w).
Proof.
  intros env rawURL outputDir w H. unfold Redirect.downloadPDF.
  destruct (url_Parse rawURL) as [u|e].
  2:{ unfold log_Printf, emit. cbn [fs trace]. rewrite created_app. cbn.
      now rewrite app_nil_r. }
  destruct (http_Get env (requests w) rawURL) as [err | sc st ru body be] eqn:G.
  { unfold log_Printf, emit. cbn [fs trace]. rewrite !created_app. cbn.
    now rewrite !app_nil_r. }
  destruct (Z.eqb_spec sc http_StatusOK) as [-> | _]; cbn [negb].
  { destruct (H st ru body be eq_refl). }
  unfold log_Printf, emit. cbn [fs trace]. rewrite !created_app. cbn.
  now rewrite !app_nil_r.
Qed.

Lemma X12_companion_touches_nothing_on_a_failed_request_witness :
  fs (Redirect.downloadPDF notFound exampleOutput Redirect.pdfDir emptyWorld)
  = fs emptyWorld
  /\ created (trace (Redirect.downloadPDF notFound exampleOutput
                       Redirect.pdfDir emptyWorld))
     = created (trace emptyWorld).
Proof.
  apply (X12_companion_touches_nothing_on_a_failed_request notFound
           exampleOutput Redirect.pdfDir emptyWorld).
  intros st ru body be. vm_compute. discriminate.
Defined.

(** X13.  After a good answer the companion's [downloadPDF] names the file
    after the URL the redirects ended at, not after the URL it was given,
    and writes the body there whatever was at that path: a file that was
    there is replaced. *)
Theorem X13_companion_writes_over_the_file_of_the_final_url :
  forall (env : Env) (rawURL outputDir : string) (w : World)
         (parsedURL finalParsed : URL) (fileName : string)
         (fs1 fs2 : filesystem) (Status finalURL body : string),
    url_Parse rawURL = Ok parsedURL ->
    http_Get env (requests w) rawURL
    = GetResponse http_StatusOK Status finalURL body false ->
    url_Parse finalURL = Ok finalParsed ->
    fetchFileName finalParsed = Some fileName ->
    os_MkdirAll env (fs w) outputDir = (fs1, true) ->
    let filePath := filepath_Join [outputDir; fileName] in
    os_Create env fs1 filePath = Some fs2 ->
    write_limit env (filepath_Clean filePath) = None ->
    fs (Redirect.downloadPDF env rawURL outputDir w)
    = <[filepath_Clean filePath := File body]> fs1
    /\ os_Stat (fs (Redirect.downloadPDF env rawURL outputDir w)) filePath
       = Some (File body).
Proof.
  intros env rawURL outputDir w pu fu fileName fs1 fs2 st finalURL body
         P G FP F M filePath C L.
  destruct (os_Create_spec _ _ _ _ C) as (V & A & _ & ->).
  assert (E : fs (Redirect.downloadPDF env rawURL outputDir w)
              = <[filepath_Clean filePath := File body]> fs1).
  { unfold Redirect.downloadPDF. rewrite P, G.
    cbn [Z.eqb http_StatusOK Pos.eqb negb]. rewrite FP, F.
    unfold log_Printf, emit, set_fs. cbn [fs trace]. rewrite M. cbn [negb].
    fold filePath. rewrite C. unfold io_Copy.
    rewrite L, str_take_all, Nat.eqb_refl. cbn [andb negb fs].
    apply insert_insert_eq. }
  split; [exact E |]. rewrite E. unfold os_Stat, lookup_node.
  rewrite V, A. apply lookup_insert_eq.
Qed.

Lemma X13_companion_writes_over_the_file_of_the_final_url_witness :
  os_Stat (fs (Redirect.downloadPDF serving passthroughURL "NYPD_PDF"
                 (mkWorld shelf [])))
          "NYPD_PDF/b.pdf" = Some (File "%PDF-1.7 new").
Proof.
  exact (proj2
    (X13_companion_writes_over_the_file_of_the_final_url serving passthroughURL
       "NYPD_PDF" (mkWorld shelf [])
       (mkURL "https" EmptyString None marker "/documents/2/b"
              false EmptyString EmptyString)
       (mkURL "https" EmptyString None marker "/documents/2/b"
              false EmptyString EmptyString)
       "b.pdf" shelf (<["NYPD_PDF/b.pdf" := File EmptyString]> shelf)
       "200 OK" passthroughURL "%PDF-1.7 new"
       eq_refl eq_refl eq_refl eq_refl eq_refl eq_refl eq_refl)).
Defined.

Lemma resolution_parses (url : string) :
  exists u, url_Parse (extractFinalDocumentCloudURL url) = Ok u.
Proof.
  destruct (String.eqb_spec (extractFinalDocumentCloudURL url) EmptyString)
    as [-> | N].
  - eexists. reflexivity.
  - destruct (resolved_parses url N) as (u & P & _). eauto.
Qed.

Lemma Redirect_downloadPDF_one_GET (env : Env) (rawURL outputDir : string)
    (w : World) (u : URL) :
  url_Parse rawURL = Ok u ->
  gets (trace (Redirect.downloadPDF env rawURL outputDir w))
  = gets (trace w) ++ [rawURL].
Proof.
  intros P. unfold Redirect.downloadPDF. rewrite P.
  destruct (http_Get env (requests w) rawURL) as [err | sc st ru body be].
  2: destruct (negb (sc =? http_StatusOK)%Z).
  3: destruct (url_Parse ru) as [fu|e].
  3: destruct (fetchFileName fu) as [fileName|].
  3: destruct (os_MkdirAll env _ outputDir) as [fs1 ok]; destruct ok; cbn [negb].
  3: destruct (os_Create env _ _) as [fs2|].
  3: destruct (io_Copy env _ _ body be) as [fs3 copied]; destruct copied;
       cbn [negb].
  all: unfold log_Printf, emit, set_fs; cbn [trace fs];
    rewrite ?gets_app; cbn [gets app]; rewrite ?app_nil_r;
    rewrite <- ?app_assoc; reflexivity.
Qed.

(** X14.  The companion's loop calls [http.Get] once for each candidate, in
    order and without a cap, and passes it whatever its resolver returned:
    also the empty string of a candidate it did not recognise (the result is
    not tested before [downloadPDF] is called, and the empty string parses),
    and also when the file is on disk already.  (A call is counted, not the
    requests it makes: [http.Get] fails on the empty string without sending
    anything, and follows redirects.) *)
Theorem X14_companion_calls_http_Get_once_for_each_candidate :
  forall (env : Env) (urls : list string) (w : World),
    gets (trace (Redirect.main_loop env urls w))
    = gets (trace w) ++ map Redirect.ExtractFinalDocumentCloudURL urls.
Proof.
  intros env urls. induction urls as [|url urls IH]; intros w;
    cbn [Redirect.main_loop map]; [now rewrite app_nil_r |].
  rewrite IH.
  destruct (resolution_parses url) as (u & P).
  rewrite <- Redirect_resolves_alike in P.
  rewrite (Redirect_downloadPDF_one_GET env _ Redirect.pdfDir _ u P).
  unfold fmt_Println, emit. cbn [trace]. rewrite !gets_app. cbn.
  now rewrite !app_nil_r, <- app_assoc.
Qed.

(* ===================================================================== *)
(** ** Running again, and a directory in the way *)
(* ===================================================================== *)

Lemma main_loop_settled (env : Env) (dir : string) (cap : Z) (urls : list string) :
  forall (w : World) (n : Z),
    (n < cap)%Z ->
    Forall (settled (fs w) dir) urls ->
    fs (fst (main_loop env dir cap urls w n)) = fs w
    /\ gets (trace (fst (main_loop env dir cap urls w n))) = gets (trace w)
    /\ snd (main_loop env dir cap urls w n) = n.
Proof.
  induction urls as [|url urls IH]; intros w n Hn Hall; cbn [main_loop];
    [now repeat split |].
  apply Forall_cons_iff in Hall as [Hurl Hall].
  assert (Hbody : exists m,
             loop_body env dir cap url w n = (Next, log_Printf w m, n)).
  { unfold loop_body. destruct (Z.geb_spec n cap) as [Hge | _]; [lia |].
    destruct Hurl as [E | (u & P & X)].
    - rewrite E. cbn [String.eqb]. eauto.
    - destruct (String.eqb_spec (extractFinalDocumentCloudURL url) EmptyString)
        as [E | _]; [eauto |].
      unfold urlParseSafe. rewrite P.
      destruct (String.eqb_spec (path_Base (Path u)) EmptyString) as [B | _];
        [destruct (path_Base_nonempty _ B) |].
      unfold driverFileName in X. rewrite X. cbn [negb]. eauto. }
  destruct Hbody as (m & ->).
  destruct (IH (log_Printf w m) n Hn Hall) as (F & G & C).
  rewrite F, G, C. unfold log_Printf, emit. cbn [fs trace].
  rewrite gets_app. cbn. now rewrite app_nil_r.
Qed.

(** X15.  A run over candidates that are all settled (not recognised, or
    with the file the driver looks for on disk) asks nothing of the network,
    leaves the disk as it is and counts no download: running the driver
    again over a list whose files are there costs only log lines. *)
Theorem X15_a_run_over_settled_candidates_fetches_nothing :
  forall (env : Env) (urls : list string) (w : World),
    Forall (settled (fs w) pdfDir) urls ->
    fs (fst (main_loop env pdfDir maxDownloads urls w 0)) = fs w
    /\ gets (trace (fst (main_loop env pdfDir maxDownloads urls w 0)))
       = gets (trace w)
    /\ snd (main_loop env pdfDir maxDownloads urls w 0) = 0%Z.
Proof.
  intros env urls w H.
  apply main_loop_settled; [reflexivity | exact H].
Qed.

Lemma X15_a_run_over_settled_candidates_fetches_nothing_witness :
  fs (fst (main_loop serving pdfDir maxDownloads
             ["https://www.documentcloud.org/documents/99-b"; "junk"]
             (mkWorld shelf []) 0)) = shelf
  /\ gets (trace (fst (main_loop serving pdfDir maxDownloads
                         ["https://www.documentcloud.org/documents/99-b"; "junk"]
                         (mkWorld shelf []) 0))) = []
  /\ snd (main_loop serving pdfDir maxDownloads
            ["https://www.documentcloud.org/documents/99-b"; "junk"]
            (mkWorld shelf []) 0) = 0%Z.
Proof.
  apply (X15_a_run_over_settled_candidates_fetches_nothing serving
           ["https://www.documentcloud.org/documents/99-b"; "junk"]
           (mkWorld shelf [])).
  constructor; [| constructor; [| constructor]].
  - right. eexists. split; reflexivity.
  - left. reflexivity.
Defined.

(** X16.  A directory at the path of the file does not count as the file:
    [fileExists] is false for it, so the fetcher sends the GET all the same,
    and after a good answer fails to create the file, logs that, and leaves
    the disk as [os.MkdirAll] left it; the body is lost. *)
Theorem X16_a_directory_in_place_of_the_file_is_fetched_for :
  forall (env : Env) (finalURL outputDir : string) (w : World)
         (u : URL) (fileName : string) (fs1 : filesystem)
         (Status requestURL body : string) (bodyErr : bool),
    url_Parse finalURL = Ok u ->
    fetchFileName u = Some fileName ->
    os_MkdirAll env (fs w) outputDir = (fs1, true) ->
    let filePath := filepath_Join [outputDir; fileName] in
    os_Stat fs1 filePath = Some Dir ->
    http_Get env (requests w) finalURL
    = GetResponse http_StatusOK Status requestURL body bodyErr ->
    fileExists fs1 filePath = false
    /\ downloadPDF env finalURL outputDir w
       = mkWorld fs1 (trace w ++ [EvGet finalURL;
                                  EvLog (MsgCreateFailed filePath)]).
Proof.
  intros env finalURL outputDir w u fileName fs1 st ru body be
         P F M filePath D G.
  assert (X : fileExists fs1 filePath = false)
    by (unfold fileExists; now rewrite D).
  split; [exact X |].
  assert (C : os_Create env fs1 filePath = None).
  { revert D. unfold os_Stat, os_Create.
    destruct (validPath filePath); cbn [negb]; [| discriminate].
    now intros ->. }
  unfold downloadPDF. rewrite P, F, M. cbn [negb].
  unfold requests, log_Printf, emit, set_fs in *. cbn [fs trace].
  fold filePath. rewrite X, G. cbn [Z.eqb http_StatusOK Pos.eqb negb].
  rewrite C. now rewrite <- app_assoc.
Qed.

Lemma X16_a_directory_in_place_of_the_file_is_fetched_for_witness :
  fileExists (<["NYPD_PDF/b.pdf" := Dir]> (<["NYPD_PDF" := Dir]> ∅))
             "NYPD_PDF/b.pdf" = false
  /\ downloadPDF serving passthroughURL pdfDir
       (mkWorld (<["NYPD_PDF/b.pdf" := Dir]> (<["NYPD_PDF" := Dir]> ∅)) [])
     = mkWorld (<["NYPD_PDF/b.pdf" := Dir]> (<["NYPD_PDF" := Dir]> ∅))
               [EvGet passthroughURL;
                EvLog (MsgCreateFailed "NYPD_PDF/b.pdf")].
Proof.
  exact (X16_a_directory_in_place_of_the_file_is_fetched_for serving
           passthroughURL pdfDir
           (mkWorld (<["NYPD_PDF/b.pdf" := Dir]> (<["NYPD_PDF" := Dir]> ∅)) [])
           (mkURL "https" EmptyString None marker "/documents/2/b"
                  false EmptyString EmptyString)
           "b.pdf" (<["NYPD_PDF/b.pdf" := Dir]> (<["NYPD_PDF" := Dir]> ∅))
           "200 OK" passthroughURL "%PDF-1.7 new" false
           eq_refl eq_refl eq_refl eq_refl eq_refl).
Defined.
